(** * httphelpers: request, response and upload helpers over net/http

    A shallow embedding of the Go packages [requests], [responses],
    [fileuploads] and [filedownloads] of adampresley/httphelpers and of
    its mock HTTP client, together with models of the standard-library
    functions they call ([strings], [strconv], [path/filepath],
    [unicode/utf8], [encoding/json], [text/template], [io]).

    Go strings are byte sequences: they are modelled by [string], whose
    characters are the 256 values of [ascii].  Go's [int64]/[uint64] values
    are modelled by [Z], with wrap-around written out where the code can
    overflow.  An [error] is modelled by its message, the text that
    [err.Error()] returns; [fmt.Errorf] with [%w] prepends its context to the
    wrapped message. *)

From Stdlib Require Import ZArith QArith String Ascii List Lia Bool.
From stdpp Require Import gmap strings list pretty.

Open Scope string_scope.
Open Scope list_scope.
Open Scope Z_scope.

(** ** Results and errors *)

Definition error := string.

(** A call either returns or panics; the state it leaves is kept
    beside the outcome. *)
Inductive Outcome (A : Type) : Type :=
| Returned (a : A)
| Panicked (msg : string).
Arguments Returned {A} a.
Arguments Panicked {A} msg.

(** The double quote character, and a string made of it. *)
Definition dquote : ascii := "034"%char.
Definition dq : string := String dquote "".

(** The value of a byte, as an integer in [0, 256). *)
Definition byte_val (c : ascii) : Z := Z.of_N (N_of_ascii c).

Definition byte_in (lo hi : Z) (c : ascii) : bool :=
  (lo <=? byte_val c) && (byte_val c <=? hi).

(** ** unicode/utf8 *)

Module GoUtf8.

(** [utf8.RuneError], U+FFFD. *)
Definition RuneError : Z := 65533.

(** [utf8.DecodeRuneInString]: the first rune of [s] and its width in
    bytes.  An empty string gives [(RuneError, 0)]; an invalid or short
    encoding gives [(RuneError, 1)].  The case analysis on the first
    byte follows the table [first] of the package, the bounds on the
    second byte its [acceptRanges]. *)
Definition DecodeRuneInString (s : string) : Z * nat :=
  match s with
  | "" => (RuneError, 0%nat)
  | String c0 rest =>
      let s0 := byte_val c0 in
      if s0 <? 128 then (s0, 1%nat)
      else if (s0 <? 194) || (244 <? s0) then (RuneError, 1%nat)
      else
        let sz : nat :=
          if s0 <? 224 then 2%nat else if s0 <? 240 then 3%nat else 4%nat in
        let lo := if s0 =? 224 then 160 else if s0 =? 240 then 144 else 128 in
        let hi := if s0 =? 237 then 159 else if s0 =? 244 then 143 else 191 in
        if (String.length s <? sz)%nat then (RuneError, 1%nat)
        else
          match rest with
          | "" => (RuneError, 1%nat)
          | String c1 rest1 =>
              let s1 := byte_val c1 in
              if (s1 <? lo) || (hi <? s1) then (RuneError, 1%nat)
              else if (sz <=? 2)%nat then
                (Z.lor (Z.shiftl (Z.land s0 31) 6) (Z.land s1 63), 2%nat)
              else
                match rest1 with
                | "" => (RuneError, 1%nat)
                | String c2 rest2 =>
                    let s2 := byte_val c2 in
                    if (s2 <? 128) || (191 <? s2) then (RuneError, 1%nat)
                    else if (sz <=? 3)%nat then
                      (Z.lor (Z.shiftl (Z.land s0 15) 12)
                         (Z.lor (Z.shiftl (Z.land s1 63) 6) (Z.land s2 63)),
                       3%nat)
                    else
                      match rest2 with
                      | "" => (RuneError, 1%nat)
                      | String c3 _ =>
                          let s3 := byte_val c3 in
                          if (s3 <? 128) || (191 <? s3) then (RuneError, 1%nat)
                          else
                            (Z.lor (Z.shiftl (Z.land s0 7) 18)
                               (Z.lor (Z.shiftl (Z.land s1 63) 12)
                                  (Z.lor (Z.shiftl (Z.land s2 63) 6)
                                     (Z.land s3 63))),
                             4%nat)
                      end
                end
          end
  end.

End GoUtf8.

(** ** strings *)

Module GoStrings.

(** [strings.HasPrefix s prefix]. *)
Definition HasPrefix (s prefix : string) : bool := String.prefix prefix s.

(** [strings.Contains s substr]: [substr] occurs in [s]. *)
Fixpoint Contains (s substr : string) : bool :=
  String.prefix substr s ||
  match s with
  | "" => false
  | String _ s' => Contains s' substr
  end.

(** [unicode.IsSpace]: the code points with the White_Space property. *)
Definition IsSpace (r : Z) : bool :=
  ((9 <=? r) && (r <=? 13)) || (r =? 32) || (r =? 133) || (r =? 160)
  || (r =? 5760) || ((8192 <=? r) && (r <=? 8202)) || (r =? 8232)
  || (r =? 8233) || (r =? 8239) || (r =? 8287) || (r =? 12288).

(** [strings.Fields s]: the maximal runs of non-space runes of [s].
    The runes are decoded from left to right, as [for i, r := range s]
    does.  [cur] holds the bytes of the field being read, in reverse;
    [skip] counts the bytes still to pass of the rune whose first byte
    has been handled, and [sp] tells whether that rune is a space. *)
Fixpoint Fields_go (s : string) (skip : nat) (sp : bool) (cur : list ascii)
  : list string :=
  let flush (rest : list string) :=
    match cur with
    | [] => rest
    | _ => string_of_list_ascii (rev cur) :: rest
    end in
  match s with
  | "" => flush []
  | String c s' =>
      match skip with
      | S k =>
          if sp then Fields_go s' k true cur
          else Fields_go s' k false (c :: cur)
      | O =>
          let '(r, w) := GoUtf8.DecodeRuneInString s in
          if IsSpace r then flush (Fields_go s' (w - 1) true [])
          else Fields_go s' (w - 1) false (c :: cur)
      end
  end.

Definition Fields (s : string) : list string := Fields_go s 0 false [].

(** [strings.ToLower] on its ASCII path: the bytes 'A'..'Z' are mapped
    to 'a'..'z', every other byte is kept.  (On a string with a byte
    above 127 Go maps each rune through [unicode.ToLower]; the only
    runes outside ASCII whose lower case is an ASCII letter are U+212A,
    giving k, and U+0130, giving i, so a comparison of the result with
    a word made of other letters is decided by the ASCII rule.) *)
Definition lower_byte (c : ascii) : ascii :=
  if byte_in 65 90 c then ascii_of_N (N_of_ascii c + 32) else c.

Fixpoint ToLower (s : string) : string :=
  match s with
  | "" => ""
  | String c s' => String (lower_byte c) (ToLower s')
  end.

(** [explode s -1]: one string per rune of [s]; the bytes that do not
    belong to a valid encoding are cut one by one. *)
Fixpoint explode_go (s : string) (skip : nat) (cur : list ascii)
  : list string :=
  match s with
  | "" => []
  | String c s' =>
      match skip with
      | S (S k) => explode_go s' (S k) (c :: cur)
      | S O => string_of_list_ascii (rev (c :: cur)) :: explode_go s' 0 []
      | O =>
          let '(_, size) := GoUtf8.DecodeRuneInString s in
          if (size <=? 1)%nat then String c "" :: explode_go s' 0 []
          else explode_go s' (size - 1) [c]
      end
  end.

Definition explode (s : string) : list string := explode_go s 0 [].

(** The loop of [genSplit] for a non-empty separator: cut [s] at each
    occurrence of [sep], from the left.  [skip] counts the bytes of a
    matched separator still to pass, [cur] the bytes of the piece being
    read, in reverse. *)
Fixpoint split_go (s sep : string) (skip : nat) (cur : list ascii)
  : list string :=
  match skip with
  | S k =>
      match s with
      | "" => [string_of_list_ascii (rev cur)]
      | String _ s' => split_go s' sep k cur
      end
  | O =>
      if String.prefix sep s then
        match s with
        | "" => [string_of_list_ascii (rev cur)]
        | String _ s' =>
            string_of_list_ascii (rev cur)
              :: split_go s' sep (String.length sep - 1) []
        end
      else
        match s with
        | "" => [string_of_list_ascii (rev cur)]
        | String c s' => split_go s' sep 0 (c :: cur)
        end
  end.

(** [strings.Split s sep]: with an empty separator the string is cut
    after each rune (so the empty string gives no piece at all);
    otherwise it is cut at each occurrence of the separator. *)
Definition Split (s sep : string) : list string :=
  if decide (sep = "") then explode s else split_go s sep 0 [].

(** [strings.Join elems sep]. *)
Fixpoint Join (elems : list string) (sep : string) : string :=
  match elems with
  | [] => ""
  | [e] => e
  | e :: rest => e +:+ sep +:+ Join rest sep
  end.

End GoStrings.

(** ** strconv *)

Module GoStrconv.

(** The two errors a [*strconv.NumError] wraps. *)
Inductive NumError : Type := ErrSyntax | ErrRange.

(** The loop of [ParseUint] in base 10: [n] is the [uint64] read so
    far.  [n * 10] cannot wrap, because [n] is below the cut-off
    [maxUint64/10 + 1]; [n + d] can, and is reduced modulo [2^64]. *)
Fixpoint ParseUint_loop (s : string) (maxVal n : Z) : Z * option NumError :=
  match s with
  | "" => (n, None)
  | String c s' =>
      if byte_in 48 57 c then
        let d := byte_val c - 48 in
        if n >=? (2 ^ 64 - 1) / 10 + 1 then (maxVal, Some ErrRange)
        else
          let n := n * 10 in
          let n1 := (n + d) mod 2 ^ 64 in
          if (n1 <? n) || (n1 >? maxVal) then (maxVal, Some ErrRange)
          else ParseUint_loop s' maxVal n1
      else (0, Some ErrSyntax)
  end.

(** [strconv.ParseUint s 10 bitSize], for [bitSize] 32 or 64. *)
Definition ParseUint (s : string) (bitSize : Z) : Z * option NumError :=
  if decide (s = "") then (0, Some ErrSyntax)
  else ParseUint_loop s (2 ^ bitSize - 1) 0.

(** [strconv.ParseInt s 10 bitSize], for [bitSize] 32 or 64. *)
Definition ParseInt (s : string) (bitSize : Z) : Z * option NumError :=
  match s with
  | "" => (0, Some ErrSyntax)
  | String c rest =>
      let neg := bool_decide (c = "-"%char) in
      let s' :=
        if bool_decide (c = "+"%char) || neg then rest else s in
      let '(un, err) := ParseUint s' bitSize in
      match err with
      | Some ErrSyntax => (0, Some ErrSyntax)
      | _ =>
          let cutoff := 2 ^ (bitSize - 1) in
          if negb neg && (un >=? cutoff) then (cutoff - 1, Some ErrRange)
          else if neg && (un >? cutoff) then (- cutoff, Some ErrRange)
          else (if neg then - un else un, None)
      end
  end.

(** [strconv.ParseBool]. *)
Definition ParseBool (str : string) : bool * option NumError :=
  if bool_decide (str ∈ ["1"; "t"; "T"; "true"; "TRUE"; "True"])
  then (true, None)
  else if bool_decide (str ∈ ["0"; "f"; "F"; "false"; "FALSE"; "False"])
  then (false, None)
  else (false, Some ErrSyntax).

End GoStrconv.

(** ** path/filepath, on a system whose separator is the slash *)

Module GoFilepath.

Definition Separator : string := "/".

(** The elements of a path: the pieces between its separators. *)
Definition elements (path : string) : list string :=
  GoStrings.Split path Separator.

Definition IsAbs (path : string) : bool := GoStrings.HasPrefix path "/".

(** The element loop of [Clean].  [out] is the stack of the elements
    kept so far, the last one first.  An empty element and a [.]
    element are dropped.  A [..] element removes the element before
    it when there is one that is not itself a [..]; otherwise it is
    dropped in a rooted path and kept in a relative one. *)
Fixpoint Clean_go (rooted : bool) (elems out : list string) : list string :=
  match elems with
  | [] => out
  | e :: elems' =>
      if bool_decide (e = "") || bool_decide (e = ".") then
        Clean_go rooted elems' out
      else if bool_decide (e = "..") then
        match out with
        | top :: out' =>
            if bool_decide (top = "..")
            then Clean_go rooted elems' (e :: out)
            else Clean_go rooted elems' out'
        | [] =>
            if rooted then Clean_go rooted elems' []
            else Clean_go rooted elems' [e]
        end
      else Clean_go rooted elems' (e :: out)
  end.

(** [filepath.Clean]: the shortest path equivalent to [path] by
    lexical processing.  The result of an empty path, and of a
    relative path that cancels out, is [.]. *)
Definition Clean (path : string) : string :=
  let rooted := IsAbs path in
  let out := rev (Clean_go rooted (elements path) []) in
  if rooted then "/" +:+ GoStrings.Join out Separator
  else
    match out with
    | [] => "."
    | _ => GoStrings.Join out Separator
    end.

(** [filepath.Join], for two elements: empty elements are ignored and
    the result is cleaned; when both are empty the result is empty. *)
Definition Join (a b : string) : string :=
  if decide (a = "") then
    if decide (b = "") then "" else Clean b
  else Clean (a +:+ Separator +:+ b).

(** [filepath.Base]: the last element of the path, after trailing
    separators are removed. *)
Definition Base (path : string) : string :=
  if decide (path = "") then "."
  else
    match last (filter (λ e, e ≠ "") (elements path)) with
    | Some e => e
    | None => Separator
    end.

(** [filepath.Ext]: the suffix of the last element that begins at its
    last dot.  [cur] holds that suffix for the part of the path read so
    far, in reverse. *)
Fixpoint Ext_go (path : string) (cur : option (list ascii)) : string :=
  match path with
  | "" =>
      match cur with
      | Some l => string_of_list_ascii (rev l)
      | None => ""
      end
  | String c path' =>
      if bool_decide (c = "/"%char) then Ext_go path' None
      else if bool_decide (c = "."%char) then Ext_go path' (Some [c])
      else Ext_go path' (cons c <$> cur)
  end.

Definition Ext (path : string) : string := Ext_go path None.

End GoFilepath.

(** ** Go values of type [any], [fmt] and [encoding/json]

    The values the package formats and serializes are arbitrary Go
    values.  The model has the kinds below: a struct is the list of its
    exported fields with their JSON keys, in declaration order, and a
    channel or function value is its type name and its address. *)

#[warnings="-register-all"]
Inductive any : Type :=
| AnyNil
| AnyBool (b : bool)
| AnyInt (n : Z)
| AnyString (s : string)
| AnySlice (l : list any)
| AnyStruct (fields : list (string * any))
| AnyChan (type_name : string) (addr : Z)
| AnyFunc (type_name : string) (addr : Z).

Module GoFmt.

Definition hexdigit (d : Z) : ascii :=
  if d <? 10 then ascii_of_N (Z.to_N (48 + d))
  else ascii_of_N (Z.to_N (87 + d)).

(** The digits of [n] in base 16, most significant first. *)
Fixpoint hex_go (fuel : nat) (n : Z) (acc : string) : string :=
  match fuel with
  | O => acc
  | S fuel' =>
      let acc' := String (hexdigit (n mod 16)) acc in
      if n / 16 =? 0 then acc' else hex_go fuel' (n / 16) acc'
  end.

(** A 64-bit address has at most 16 hexadecimal digits. *)
Definition hex (n : Z) : string := hex_go 16 n "".

(** How the verb [%v] prints a pointer-like value. *)
Definition pointer (addr : Z) : string :=
  if addr =? 0 then "<nil>" else "0x" +:+ hex addr.

(** [fmt.Sprintf("%v", v)]. *)
Fixpoint Sprint_v (v : any) : string :=
  match v with
  | AnyNil => "<nil>"
  | AnyBool b => if b then "true" else "false"
  | AnyInt n => pretty n
  | AnyString s => s
  | AnySlice l => "[" +:+ GoStrings.Join (map Sprint_v l) " " +:+ "]"
  | AnyStruct fields =>
      "{" +:+ GoStrings.Join (map (λ f, Sprint_v (snd f)) fields) " " +:+ "}"
  | AnyChan _ addr => pointer addr
  | AnyFunc _ addr => pointer addr
  end.

(** [fmt.Sprintf("%d", n)] for an integer. *)
Definition Sprint_d (n : Z) : string := pretty n.

End GoFmt.

Module GoJson.

(** The escape of a byte below 128 inside a JSON string, with HTML
    escaping on, as [json.Marshal] has it. *)
Definition escape_byte (c : ascii) : string :=
  let b := byte_val c in
  if (b =? 92) || (b =? 34) then String "\"%char (String c "")
  else if b =? 8 then "\b"
  else if b =? 12 then "\f"
  else if b =? 10 then "\n"
  else if b =? 13 then "\r"
  else if b =? 9 then "\t"
  else if (b <? 32) || (b =? 60) || (b =? 62) || (b =? 38) then
    "\u00" +:+ String (GoFmt.hexdigit (b / 16))
               (String (GoFmt.hexdigit (b mod 16)) "")
  else String c "".

(** The body of a JSON string, between its quotes.  [skip] counts the
    bytes still to pass of a rune whose first byte has been handled,
    [keep] tells whether they are copied. *)
Fixpoint escape_go (s : string) (skip : nat) (keep : bool) : string :=
  match s with
  | "" => ""
  | String c s' =>
      match skip with
      | S k =>
          if keep then String c (escape_go s' k keep)
          else escape_go s' k keep
      | O =>
          if byte_val c <? 128 then escape_byte c +:+ escape_go s' 0 true
          else
            let '(r, w) := GoUtf8.DecodeRuneInString s in
            if (r =? GoUtf8.RuneError) && (w =? 1)%nat then
              "\ufffd" +:+ escape_go s' 0 true
            else if r =? 8232 then "\u2028" +:+ escape_go s' (w - 1) false
            else if r =? 8233 then "\u2029" +:+ escape_go s' (w - 1) false
            else String c (escape_go s' (w - 1) true)
      end
  end.

Definition quote (s : string) : string := dq +:+ escape_go s 0 true +:+ dq.

(** [json.Marshal]: the encoding, or the error of the first value that
    has no encoding (a channel, a function). *)
Fixpoint Marshal (v : any) : string * option error :=
  match v with
  | AnyNil => ("null", None)
  | AnyBool b => (if b then "true" else "false", None)
  | AnyInt n => (pretty n, None)
  | AnyString s => (quote s, None)
  | AnySlice l =>
      let fix elems (l : list any) (first : bool) : string * option error :=
        match l with
        | [] => ("", None)
        | x :: l' =>
            match Marshal x with
            | (_, Some e) => ("", Some e)
            | (sx, None) =>
                match elems l' false with
                | (_, Some e) => ("", Some e)
                | (sl, None) =>
                    ((if first then "" else ",") +:+ sx +:+ sl, None)
                end
            end
        end in
      match elems l true with
      | (_, Some e) => ("", Some e)
      | (body, None) => ("[" +:+ body +:+ "]", None)
      end
  | AnyStruct fields =>
      let fix members (l : list (string * any)) (first : bool)
        : string * option error :=
        match l with
        | [] => ("", None)
        | (k, x) :: l' =>
            match Marshal x with
            | (_, Some e) => ("", Some e)
            | (sx, None) =>
                match members l' false with
                | (_, Some e) => ("", Some e)
                | (sl, None) =>
                    ((if first then "" else ",")
                       +:+ quote k +:+ ":" +:+ sx +:+ sl, None)
                end
            end
        end in
      match members fields true with
      | (_, Some e) => ("", Some e)
      | (body, None) => ("{" +:+ body +:+ "}", None)
      end
  | AnyChan t _ => ("", Some ("json: unsupported type: " +:+ t))
  | AnyFunc t _ => ("", Some ("json: unsupported type: " +:+ t))
  end.

End GoJson.

(** ** Package responses *)

Module responses.

(** The response sink, [http.ResponseWriter], is modelled by the log
    of the calls made on it, the oldest first. *)
Inductive SinkOp : Type :=
| SetHeader (key value : string)   (* w.Header().Set(key, value) *)
| WriteHeader (status : Z)         (* w.WriteHeader(status) *)
| Write (body : string).           (* a write of the body bytes *)

Definition ResponseWriter := list SinkOp.

(** [w.WriteHeader(status)], as the recorder of httptest, which the
    tests of the package use, and the response of the server have it.
    Once a status or a body has been written the header is sent, and
    a later status is ignored, whatever it is.  Before that, a status
    that is not of three digits makes the call panic.  The call is in
    the log in each case; when it panics it is the last call of the
    function that made it.  (The response of the server does not take
    an informational status, 100 to 199, for the header; the recorder
    does, and so does the model.) *)
Definition header_written (w : ResponseWriter) : bool :=
  existsb (λ op, match op with
                 | WriteHeader _ | Write _ => true
                 | SetHeader _ _ => false
                 end) w.

Definition valid_status (status : Z) : bool :=
  (100 <=? status) && (status <=? 999).

Definition call_WriteHeader (w : ResponseWriter) (status : Z)
  : Outcome unit * ResponseWriter :=
  (if header_written w || valid_status status then Returned ()
   else Panicked ("invalid WriteHeader code " +:+ GoFmt.Sprint_d status),
   w ++ [WriteHeader status]).

Definition StatusOK : Z := 200.
Definition StatusBadRequest : Z := 400.
Definition StatusUnauthorized : Z := 401.
Definition StatusInternalServerError : Z := 500.

Definition write (w : ResponseWriter) (contentType : string) (status : Z)
    (value : any) : Outcome unit * ResponseWriter :=
  let w := w ++ [SetHeader "Content-Type" contentType] in
  let '(out, w) :=
    if status >? 299 then call_WriteHeader w status else (Returned (), w) in
  match out with
  | Panicked msg => (Panicked msg, w)
  | Returned _ => (Returned (), w ++ [Write (GoFmt.Sprint_v value)])
  end.

Definition Html (w : ResponseWriter) (status : Z) (value : any) :=
  write w "text/html" status value.

Definition HtmlOK (w : ResponseWriter) (value : any) :=
  Html w StatusOK value.

Definition IsSuccessRange (status : Z) : bool :=
  (status >=? 200) && (status <? 300).

(** The value serialized when the caller's value cannot be. *)
Definition marshal_error_envelope : any :=
  AnyStruct [("message", AnyString "Error marshaling value for writing");
             ("suggestion", AnyString "See error log for more information")].

Definition Json (w : ResponseWriter) (status : Z) (value : any)
  : Outcome unit * ResponseWriter :=
  let w := w ++ [SetHeader "Content-Type" "application/json"] in
  match GoJson.Marshal value with
  | (_, Some err) =>
      let '(b, _) := GoJson.Marshal marshal_error_envelope in
      let '(out, w) := call_WriteHeader w StatusInternalServerError in
      match out with
      | Panicked msg => (Panicked msg, w)
      | Returned _ => (Returned (), w ++ [Write b])
      end
  | (b, None) =>
      let '(out, w) :=
        if status >? 299 then call_WriteHeader w status
        else (Returned (), w) in
      match out with
      | Panicked msg => (Panicked msg, w)
      | Returned _ => (Returned (), w ++ [Write b])
      end
  end.

Definition JsonOK (w : ResponseWriter) (value : any) :=
  Json w StatusOK value.

Definition JsonBadRequest (w : ResponseWriter) (value : any) :=
  Json w StatusBadRequest value.

Definition JsonInternalServerError (w : ResponseWriter) (value : any) :=
  Json w StatusInternalServerError value.


Definition JsonUnauthorized (w : ResponseWriter) (value : any) :=
  Json w StatusUnauthorized value.

Definition Text (w : ResponseWriter) (status : Z) (value : any) :=
  write w "text/plain" status value.

Definition TextOK (w : ResponseWriter) (value : any) :=
  Text w StatusOK value.

Definition TextBadRequest (w : ResponseWriter) (value : any) :=
  Text w StatusBadRequest value.

Definition TextInternalServerError (w : ResponseWriter) (value : any) :=
  Text w StatusInternalServerError value.

Definition TextUnauthorized (w : ResponseWriter) (value : any) :=
  Text w StatusUnauthorized value.

(** The statuses written explicitly in a log, in order. *)
Definition status_writes (ops : list SinkOp) : list Z :=
  omap (λ op, match op with WriteHeader s => Some s | _ => None end) ops.

(** The bodies written in a log, in order. *)
Definition body_writes (ops : list SinkOp) : list string :=
  omap (λ op, match op with Write b => Some b | _ => None end) ops.

End responses.

(** ** net/http: the request *)

Module GoHttp.

(** [multipart.FileHeader], with the stream its [Open] gives: the
    bytes of the part, and the error a read of them ends with, if
    any. *)
Record FileHeader : Type := {
  Filename : string;
  MIMEHeader : gmap string (list string);
  Size : Z;
  content : string;
  read_error : option error
}.

(** [http.Request], as the helpers see it.  [Form] is the parsed form
    (body and query values), [PathValues] the wildcards matched by the
    router, [Body] what reading the whole body stream returns.
    [ParseMultipartForm_error maxMemory] is the error of
    [r.ParseMultipartForm(maxMemory)], and [MultipartFile] the file
    parts of the parsed multipart form. *)
Record Request : Type := {
  Header : gmap string (list string);
  Form : gmap string (list string);
  PathValues : gmap string string;
  Body : string * option error;
  ParseMultipartForm_error : Z → option error;
  MultipartFile : gmap string (list FileHeader)
}.

(** [h.Get(key)] for a key in canonical form: the first value, or the
    empty string. *)
Definition Header_Get (h : gmap string (list string)) (key : string)
  : string :=
  match h !! key with
  | Some (v :: _) => v
  | _ => ""
  end.

(** [r.Form[key]]: a missing key gives the nil slice. *)
Definition Form_index (r : Request) (key : string) : list string :=
  default [] (Form r !! key).

(** [r.FormValue(key)]: the first value of the key in the parsed
    form, or the empty string. *)
Definition FormValue (r : Request) (key : string) : string :=
  match Form_index r key with
  | v :: _ => v
  | [] => ""
  end.

(** [r.PathValue(name)]: the empty string when there is no such
    wildcard. *)
Definition PathValue (r : Request) (name : string) : string :=
  default "" (PathValues r !! name).

(** [io.ReadAll(r.Body)]. *)
Definition ReadAll_Body (r : Request) : string * option error := Body r.

Definition ErrMissingFile : error := "http: no such file".

(** [r.FormFile(key)] after a successful [ParseMultipartForm]: the
    first file of the key. *)
Definition FormFile (r : Request) (key : string) : FileHeader + error :=
  match MultipartFile r !! key with
  | Some (fh :: _) => inl fh
  | _ => inr ErrMissingFile
  end.

End GoHttp.

(** ** Floating-point numbers

    The decimal-to-binary conversion of [strconv.ParseFloat] and the
    rounding of a [float64] to a [float32] are taken as given: the
    float cases of the extraction are stated over any such model. *)

Record FloatModel : Type := {
  float64 : Type;
  float32 : Type;
  float64_zero : float64;
  float32_of : float64 → float32;
  ParseFloat : string → Z → float64 * option GoStrconv.NumError
}.

(** ** Package requests *)

Module requests.
Import GoHttp.

(** The type set of the constraint [RequestTypes]. *)
Inductive RequestTypes : Type :=
| T_int | T_slice_int
| T_int32 | T_slice_int32
| T_int64 | T_slice_int64
| T_uint | T_slice_uint
| T_uint32 | T_slice_uint32
| T_uint64 | T_slice_uint64
| T_float32 | T_slice_float32
| T_float64 | T_slice_float64
| T_string | T_slice_string
| T_bool.

(** A conversion to a signed, and to an unsigned, integer type of
    [bits] bits keeps the low bits.  [int] and [uint] are 64 bits
    wide. *)
Definition int_cast (bits v : Z) : Z :=
  (v + 2 ^ (bits - 1)) mod 2 ^ bits - 2 ^ (bits - 1).

Definition uint_cast (bits v : Z) : Z := v mod 2 ^ bits.

Definition GetAuthorizationBearer (r : Request) : string * option error :=
  let authHeader := Header_Get (Header r) "Authorization" in
  let bearerParts := GoStrings.Fields authHeader in
  (* the length test guards the two index expressions *)
  if bool_decide (length bearerParts ≠ 2%nat)
     || bool_decide (GoStrings.ToLower (nth 0 bearerParts "") ≠ "bearer")
  then ("", Some "invalid bearer authorization header")
  else (nth 1 bearerParts "", None).

Definition getInt (r : Request) (name : string) (size : Z) : Z :=
  let valueString := FormValue r name in
  let '(result, err) := GoStrconv.ParseInt valueString size in
  match err with
  | Some _ =>
      let valueString := PathValue r name in
      let '(result, err) := GoStrconv.ParseInt valueString size in
      match err with
      | Some _ => 0
      | None => result
      end
  | None => result
  end.

(** The loop over the values: [result] grows by [append]. *)
Fixpoint getIntSlice_loop (values : list string) (size : Z)
    (result : list Z) : list Z :=
  match values with
  | [] => result
  | v :: values' =>
      let '(temp, err) := GoStrconv.ParseInt v size in
      match err with
      | None => getIntSlice_loop values' size (result ++ [temp])
      | Some _ => getIntSlice_loop values' size result
      end
  end.

Definition getIntSlice (r : Request) (name : string) (size : Z) : list Z :=
  let values := Form_index r name in
  if (0 <? length values)%nat then getIntSlice_loop values size []
  else [].

Definition getUint (r : Request) (name : string) (size : Z) : Z :=
  let valueString := FormValue r name in
  let '(result, err) := GoStrconv.ParseUint valueString size in
  match err with
  | Some _ =>
      let valueString := PathValue r name in
      let '(result, err) := GoStrconv.ParseUint valueString size in
      match err with
      | Some _ => 0
      | None => result
      end
  | None => result
  end.

Fixpoint getUintSlice_loop (values : list string) (size : Z)
    (result : list Z) : list Z :=
  match values with
  | [] => result
  | v :: values' =>
      let '(temp, err) := GoStrconv.ParseUint v size in
      match err with
      | None => getUintSlice_loop values' size (result ++ [temp])
      | Some _ => getUintSlice_loop values' size result
      end
  end.

Definition getUintSlice (r : Request) (name : string) (size : Z) : list Z :=
  let values := Form_index r name in
  if (0 <? length values)%nat then getUintSlice_loop values size []
  else [].

Definition GetStringListFromRequest (r : Request) (name seperator : string)
  : list string :=
  let values := FormValue r name in
  GoStrings.Split values seperator.

Definition IsHtmx (r : Request) : bool :=
  bool_decide (Header_Get (Header r) "Hx-Request" ≠ "").

Section Floats.
Context (fm : FloatModel).

Definition getFloat (r : Request) (name : string) (size : Z)
  : float64 fm :=
  let valueString := FormValue r name in
  let '(result, err) := ParseFloat fm valueString size in
  match err with
  | Some _ =>
      let valueString := PathValue r name in
      let '(result, err) := ParseFloat fm valueString size in
      match err with
      | Some _ => float64_zero fm
      | None => result
      end
  | None => result
  end.

Fixpoint getFloatSlice_loop (values : list string) (size : Z)
    (result : list (float64 fm)) : list (float64 fm) :=
  match values with
  | [] => result
  | v :: values' =>
      let '(temp, err) := ParseFloat fm v size in
      match err with
      | None => getFloatSlice_loop values' size (result ++ [temp])
      | Some _ => getFloatSlice_loop values' size result
      end
  end.

Definition getFloatSlice (r : Request) (name : string) (size : Z)
  : list (float64 fm) :=
  let values := Form_index r name in
  if (0 <? length values)%nat then getFloatSlice_loop values size []
  else [].

(** The Go type each member of the type set stands for.  A sequence
    is modelled by the list of its entries: a nil slice and a slice
    that is empty without being nil are the same list. *)
Definition go_type (t : RequestTypes) : Type :=
  match t with
  | T_int | T_int32 | T_int64 | T_uint | T_uint32 | T_uint64 => Z
  | T_slice_int | T_slice_int32 | T_slice_int64
  | T_slice_uint | T_slice_uint32 | T_slice_uint64 => list Z
  | T_float32 => float32 fm
  | T_slice_float32 => list (float32 fm)
  | T_float64 => float64 fm
  | T_slice_float64 => list (float64 fm)
  | T_string => string
  | T_slice_string => list string
  | T_bool => bool
  end.

(** The zero value of each scalar type.  The zero value of a sequence
    type is the nil slice, which a list of entries cannot tell from an
    empty slice: the sequence types are given none. *)
Definition zero_value (t : RequestTypes) : option (go_type t) :=
  match t return option (go_type t) with
  | T_int | T_int32 | T_int64 | T_uint | T_uint32 | T_uint64 => Some 0
  | T_float32 => Some (float32_of fm (float64_zero fm))
  | T_float64 => Some (float64_zero fm)
  | T_string => Some ""
  | T_bool => Some false
  | T_slice_int | T_slice_int32 | T_slice_int64
  | T_slice_uint | T_slice_uint32 | T_slice_uint64
  | T_slice_float32 | T_slice_float64 | T_slice_string => None
  end.

(** [GetFromRequest[T]]: the type switch on [T] is a match on the
    member of the type set. *)
Definition GetFromRequest (t : RequestTypes) (r : Request) (name : string)
  : go_type t :=
  match t return go_type t with
  | T_string =>
      let result := FormValue r name in
      let result :=
        if decide (result = "") then PathValue r name else result in
      result
  | T_slice_string => Form_index r name
  | T_bool =>
      let temp := FormValue r name in
      let temp := if decide (temp = "") then PathValue r name else temp in
      let '(result, err) := GoStrconv.ParseBool temp in
      match err with
      | Some _ => false
      | None => result
      end
  | T_int => int_cast 64 (getInt r name 64)
  | T_int32 => int_cast 32 (getInt r name 32)
  | T_int64 => getInt r name 64
  | T_uint => uint_cast 64 (getUint r name 64)
  | T_uint32 => uint_cast 32 (getUint r name 32)
  | T_uint64 => getUint r name 64
  | T_slice_int => map (int_cast 64) (getIntSlice r name 64)
  | T_slice_int32 => map (int_cast 32) (getIntSlice r name 32)
  | T_slice_int64 => getIntSlice r name 64
  | T_slice_uint => map (uint_cast 64) (getUintSlice r name 64)
  | T_slice_uint32 => map (uint_cast 32) (getUintSlice r name 32)
  | T_slice_uint64 => getUintSlice r name 64
  | T_float32 => float32_of fm (getFloat r name 32)
  | T_slice_float32 => map (float32_of fm) (getFloatSlice r name 32)
  | T_float64 => getFloat r name 64
  | T_slice_float64 => getFloatSlice r name 64
  end.

End Floats.

Section Body.
(** [ReadBody[T]]: [zero] is the zero value of [T]; the two decoders
    fill the destination they are given and return an error when
    the bytes do not parse. *)
Context {T : Type} (zero : T).
Context (json_Unmarshal xml_Unmarshal : string → T → T * option error).

Definition ReadBody (r : Request) : T * option error :=
  let result := zero in
  let '(b, err) := ReadAll_Body r in
  match err with
  | Some e => (result, Some ("error reading request body: " +:+ e))
  | None =>
      let contentType := Header_Get (Header r) "Content-Type" in
      if decide (contentType = "application/json") then
        let '(result, err) := json_Unmarshal b result in
        match err with
        | Some e =>
            (result,
             Some ("error unmarshaling body to destination: " +:+ e
                   +:+ ", contents: " +:+ b))
        | None => (result, None)
        end
      else if decide (contentType = "application/xml") then
        let '(result, err) := xml_Unmarshal b result in
        match err with
        | Some e =>
            (result,
             Some ("error unmarshaling body to destination: " +:+ e
                   +:+ ", contents: " +:+ b))
        | None => (result, None)
        end
      else
        (result, Some ("unsupported content type: " +:+ contentType))
  end.

End Body.

End requests.

(** ** text/template

    The template engine is taken as given: [Parse] stands for
    [template.New("fileupload").Option("missingkey=error").Parse(text)]
    and [Execute tmpl data] for [tmpl.Execute(&builder, data)], which returns
    the text written to the builder and the error that stopped the
    execution, if any. *)

Record TemplateEngine : Type := {
  Template : Type;
  Parse : string → Template + error;
  Execute : Template → gmap string any → string * option error
}.

(** The fragment of the template language made of literal text and of
    field actions [{{.name}}], which is what the package documents for
    file names.  It is used to run the upload on concrete inputs. *)

Module GoTemplate.

(** A field action carries the line of its first byte, counted from 1,
    and the number of bytes before it on that line, as the parser
    records them for the messages of the execution. *)
Inductive Node : Type :=
| TextNode (text : string)
| FieldNode (name : string) (line col : nat).

Definition ident_byte (c : ascii) : bool :=
  byte_in 48 57 c || byte_in 65 90 c || byte_in 97 122 c
  || bool_decide (c = "_"%char).

(** The field an action names: a dot and an identifier, between
    optional spaces. *)
Fixpoint skip_spaces (l : list ascii) : list ascii :=
  match l with
  | c :: l' => if bool_decide (c = " "%char) then skip_spaces l' else l
  | [] => []
  end.

Definition field_of_action (body : list ascii) : option string :=
  let trim := skip_spaces in
  match trim (rev (trim (rev body))) with
  | "."%char :: c :: name =>
      if forallb ident_byte (c :: name) && negb (byte_in 48 57 c)
      then Some (string_of_list_ascii (c :: name))
      else None
  | _ => None
  end.

Definition text_node (cur : list ascii) (acc : list Node) : list Node :=
  match cur with
  | [] => acc
  | _ => TextNode (string_of_list_ascii (rev cur)) :: acc
  end.

Definition newline : ascii := "010"%char.

(** The lexer and parser in one pass.  [cur] holds the bytes of the
    text or action being read, in reverse; [acc] the nodes read, the
    last one first; [skip] tells that the byte at hand is the second
    of a delimiter; [line] and [col] are the place of the byte at
    hand, and [start] the place of the first byte of the action being
    read that is not a space, where its field begins. *)
Fixpoint parse_go (s : string) (in_action skip : bool) (line col : nat)
    (start : option (nat * nat)) (cur : list ascii) (acc : list Node)
  : list Node + error :=
  match s with
  | "" =>
      if in_action then inr "template: fileupload:1: unclosed action"
      else inl (rev (text_node cur acc))
  | String c s' =>
      let '(line', col') :=
        if bool_decide (c = newline) then (S line, O) else (line, S col) in
      if skip then parse_go s' in_action false line' col' start cur acc
      else if in_action then
        if String.prefix "}}" s then
          match field_of_action (rev cur), start with
          | Some name, Some (l, k) =>
              parse_go s' false true line' col' None []
                (FieldNode name l k :: acc)
          | _, _ =>
              inr ("template: fileupload:1: action outside the fragment: "
                   +:+ string_of_list_ascii (rev cur))
          end
        else
          let start :=
            match start with
            | Some place => Some place
            | None =>
                if bool_decide (c = " "%char) then None
                else Some (line, col)
            end in
          parse_go s' true false line' col' start (c :: cur) acc
      else if String.prefix "{{" s then
        parse_go s' true true line' col' None [] (text_node cur acc)
      else parse_go s' false false line' col' None (c :: cur) acc
  end.

Definition parse (text : string) : list Node + error :=
  parse_go text false false 1 0 None [] [].

(** The error of the execution of a field that is not a key of the
    data, under [missingkey=error]: the template, the place and the
    text of the field, and the key. *)
Definition missing_key (name : string) (line col : nat) : error :=
  "template: fileupload:" +:+ GoFmt.Sprint_d (Z.of_nat line) +:+ ":"
  +:+ GoFmt.Sprint_d (Z.of_nat col) +:+ ": executing " +:+ dq
  +:+ "fileupload" +:+ dq +:+ " at <." +:+ name
  +:+ ">: map has no entry for key " +:+ dq +:+ name +:+ dq.

(** Execution with [missingkey=error]: text is copied, the value of a
    field is printed, a field that is not a key of the data stops the
    execution with an error. *)
Fixpoint execute (tt : list Node) (data : gmap string any)
  : string * option error :=
  match tt with
  | [] => ("", None)
  | TextNode text :: tt' =>
      let '(out, err) := execute tt' data in (text +:+ out, err)
  | FieldNode name line col :: tt' =>
      match data !! name with
      | Some v =>
          let '(out, err) := execute tt' data in
          (GoFmt.Sprint_v v +:+ out, err)
      | None => ("", Some (missing_key name line col))
      end
  end.

Definition engine : TemplateEngine :=
  {| Template := list Node; Parse := parse; Execute := execute |}.

End GoTemplate.

(** ** os and io: the file system

    A file or directory is named by the elements of its absolute,
    cleaned path.  The world of an upload holds the working directory,
    the tree of directories, the contents of the files, the names of
    the streams and files that are open, and the values the generator
    seeded with the current time gives to the successive calls of
    [Intn(36)]. *)

Module GoOs.

Record World : Type := {
  cwd : string;
  getwd_error : option error;
  dirs : gset (list string);
  files : gmap (list string) string;
  open_handles : list string;
  rand_draws : nat → Z
}.

(** An open [*os.File]: the name it was opened with, and the file it
    names. *)
Record File : Type := {
  Name : string;
  node : list string
}.

(** The elements of the absolute path a name stands for. *)
Definition resolve (w : World) (name : string) : list string :=
  let abs :=
    if GoFilepath.IsAbs name then name
    else cwd w +:+ "/" +:+ name in
  rev (GoFilepath.Clean_go true (GoFilepath.elements abs) []).

(** [filepath.Abs]. *)
Definition Abs (w : World) (path : string) : string * option error :=
  if GoFilepath.IsAbs path then (GoFilepath.Clean path, None)
  else
    match getwd_error w with
    | Some e => ("", Some e)
    | None => (GoFilepath.Join (cwd w) path, None)
    end.

Definition set_files (w : World) (fs : gmap (list string) string) : World :=
  {| cwd := cwd w; getwd_error := getwd_error w; dirs := dirs w;
     files := fs; open_handles := open_handles w;
     rand_draws := rand_draws w |}.

Definition set_open_handles (w : World) (hs : list string) : World :=
  {| cwd := cwd w; getwd_error := getwd_error w; dirs := dirs w;
     files := files w; open_handles := hs; rand_draws := rand_draws w |}.

Definition open_handle (w : World) (name : string) : World :=
  set_open_handles w (name :: open_handles w).

(** Closing a handle that is not open returns an error, which the
    package ignores, and changes nothing. *)
Fixpoint remove_first (name : string) (hs : list string) : list string :=
  match hs with
  | [] => []
  | h :: hs' => if decide (h = name) then hs' else h :: remove_first name hs'
  end.

Definition close_handle (w : World) (name : string) : World :=
  set_open_handles w (remove_first name (open_handles w)).

(** [os.Create]: the file is created, or truncated, when its parent
    directory exists and the name is not that of a directory.
    (Permissions and resource limits are not modelled.) *)
Definition Create (w : World) (name : string) : World * (File + error) :=
  let p := resolve w name in
  if bool_decide (removelast p ∉ dirs w) then
    (w, inr ("open " +:+ name +:+ ": no such file or directory"))
  else if bool_decide (p ∈ dirs w) then
    (w, inr ("open " +:+ name +:+ ": is a directory"))
  else
    (open_handle (set_files w (<[p := ""]> (files w))) name,
     inl {| Name := name; node := p |}).

(** [io.Copy(dst, src)] from the stream of an uploaded part: the
    bytes read are appended to the file; the error of the read, if
    any, is returned. *)
Definition Copy (w : World) (dst : File) (src : GoHttp.FileHeader)
  : World * option error :=
  let old := default "" (files w !! node dst) in
  (set_files w (<[node dst := old +:+ GoHttp.content src]> (files w)),
   GoHttp.read_error src).

End GoOs.

(** ** Package fileuploads *)

Module fileuploads.

Record FileUpload : Type := {
  File : option GoHttp.FileHeader;
  info : option GoHttp.FileHeader;
  FileName : string;
  Size : Z;
  Header : gmap string (list string);
  Ext : string;
  SavedFile : string;
  SavedFilePath : string
}.

(** The zero value, [FileUpload{}]. *)
Definition FileUpload_zero : FileUpload :=
  {| File := None; info := None; FileName := ""; Size := 0; Header := ∅;
     Ext := ""; SavedFile := ""; SavedFilePath := "" |}.

Definition set_SavedFilePath (f : FileUpload) (p : string) : FileUpload :=
  {| File := File f; info := info f; FileName := FileName f;
     Size := Size f; Header := Header f; Ext := Ext f;
     SavedFile := SavedFile f; SavedFilePath := p |}.

Definition set_Ext (f : FileUpload) (e : string) : FileUpload :=
  {| File := File f; info := info f; FileName := FileName f;
     Size := Size f; Header := Header f; Ext := e;
     SavedFile := SavedFile f; SavedFilePath := SavedFilePath f |}.

Definition set_SavedFile (f : FileUpload) (s : string) : FileUpload :=
  {| File := File f; info := info f; FileName := FileName f;
     Size := Size f; Header := Header f; Ext := Ext f;
     SavedFile := s; SavedFilePath := SavedFilePath f |}.

Record UploadOptions : Type := {
  MaxFileSize : Z;
  RandomStringSize : Z
}.

(** An option mutates the options it is given. *)
Definition UploadOption : Type := UploadOptions → UploadOptions.

Definition WithMaxFileSize (size : Z) : UploadOption :=
  λ o, {| MaxFileSize := size; RandomStringSize := RandomStringSize o |}.

Definition WithRandomStringSize (size : Z) : UploadOption :=
  λ o, {| MaxFileSize := MaxFileSize o; RandomStringSize := size |}.

Definition default_options : UploadOptions :=
  {| MaxFileSize := Z.shiftl 10 20; RandomStringSize := 10 |}.

(** The name under which the stream of an uploaded part is recorded
    among the open handles. *)
Definition stream_name (fh : GoHttp.FileHeader) : string :=
  "multipart:" +:+ GoHttp.Filename fh.

Section ReadUploadedFile.
(** [U] is the state the callback closes over. *)
Context {U : Type}.

Definition Callback : Type :=
  FileUpload → UploadOptions → GoOs.World * U →
  Outcome (option error) * (GoOs.World * U).

Definition ReadUploadedFile (fieldName : string) (r : GoHttp.Request)
    (callback : Callback) (options : list UploadOption)
    (st : GoOs.World * U)
  : Outcome (option error) * (GoOs.World * U) :=
  let opts := fold_left (λ o opt, opt o) options default_options in
  match GoHttp.ParseMultipartForm_error r (MaxFileSize opts) with
  | Some err => (Returned (Some ("error parsing form data: " +:+ err)), st)
  | None =>
      match GoHttp.FormFile r fieldName with
      | inr err =>
          (Returned
             (Some ("error retrieving file info from form: " +:+ err)),
           st)
      | inl fh =>
          (* the stream is open; its Close is deferred *)
          let st := (GoOs.open_handle (fst st) (stream_name fh), snd st) in
          let close (st : GoOs.World * U) :=
            (GoOs.close_handle (fst st) (stream_name fh), snd st) in
          if GoHttp.Size fh >? MaxFileSize opts then
            (Returned
               (Some ("file size of " +:+ GoFmt.Sprint_d (GoHttp.Size fh)
                      +:+ " bytes exceeds the limit of "
                      +:+ GoFmt.Sprint_d (MaxFileSize opts) +:+ " bytes")),
             close st)
          else
            let callbackData :=
              {| File := Some fh; info := Some fh; FileName := "";
                 Size := 0; Header := ∅; Ext := ""; SavedFile := "";
                 SavedFilePath := "" |} in
            let '(out, st) := callback callbackData opts st in
            (out, close st)
      end
  end.

End ReadUploadedFile.

Definition characters : string := "abcdefghijklmnopqrstuvwxyz0123456789".

(** [seed.Intn(n)] at the [i]-th call on the generator seeded with the
    current time. *)
Definition Intn (w : GoOs.World) (i : nat) (n : Z) : Z :=
  GoOs.rand_draws w i mod n.

(** [randomString]: [make] panics on a negative length, which gives
    [None]. *)
Definition randomString (w : GoOs.World) (length : Z) : option string :=
  if length <? 0 then None
  else
    Some (string_of_list_ascii
            (map (λ index,
                    default "a"%char
                      (String.get
                         (Z.to_nat (Intn w index
                                      (Z.of_nat (String.length characters))))
                         characters))
               (seq 0 (Z.to_nat length)))).

(** The variables a file name template can use. *)
Definition template_data (fh : GoHttp.FileHeader) (randomString : string)
  : gmap string any :=
  <["fileName" := AnyString (GoHttp.Filename fh)]>
    (<["baseFileName" := AnyString (GoFilepath.Base (GoHttp.Filename fh))]>
       (<["ext" := AnyString (GoFilepath.Ext (GoHttp.Filename fh))]>
          (<["size" := AnyInt (GoHttp.Size fh)]>
             (<["randomString" := AnyString randomString]> ∅)))).

Section UploadFileToDir.
Context (E : TemplateEngine).

(** The callback [UploadFileToDir] hands to [ReadUploadedFile]; the
    state it closes over is the variable [result]. *)
Definition upload_callback (destDir destFileNameTemplate : string)
  : @Callback FileUpload :=
  λ file options st,
    let '(w, _) := st in
    let result := file in
    match info file, randomString w (RandomStringSize options) with
    | None, _ => (Panicked "nil pointer dereference", (w, result))
    | _, None => (Panicked "makeslice: len out of range", (w, result))
    | Some fh, Some rs =>
        let templateData := template_data fh rs in
        match Parse E destFileNameTemplate with
        | inr err =>
            (Returned
               (Some ("error parsing destination file name template: "
                      +:+ err)),
             (w, result))
        | inl tmpl =>
            let '(destFileName, err) := Execute E tmpl templateData in
            match err with
            | Some err =>
                (Returned
                   (Some
                      ("error executing destination file name template: "
                       +:+ err)),
                 (w, result))
            | None =>
                let finalPath := GoFilepath.Join destDir destFileName in
                if negb (GoStrings.HasPrefix finalPath
                           (GoFilepath.Clean destDir))
                then
                  (Returned
                     (Some ("invalid destination file path attempted: "
                            +:+ destFileName)),
                   (w, result))
                else
                  match GoOs.Create w finalPath with
                  | (w, inr err) =>
                      (Returned
                         (Some ("error creating file '" +:+ destFileName
                                +:+ "': " +:+ err)),
                       (w, result))
                  | (w, inl tempFile) =>
                      (* the Close of tempFile is deferred *)
                      let close w :=
                        GoOs.close_handle w (GoOs.Name tempFile) in
                      match File file with
                      | None =>
                          (Panicked "nil pointer dereference",
                           (close w, result))
                      | Some stream =>
                          match GoOs.Copy w tempFile stream with
                          | (w, Some err) =>
                              let w := close w in
                              (Returned
                                 (Some
                                    ("error copying uploaded file '"
                                     +:+ GoHttp.Filename fh
                                     +:+ "' to temporary file '"
                                     +:+ destFileName +:+ "': " +:+ err)),
                               (close w, result))
                          | (w, None) =>
                              let result :=
                                match GoOs.Abs w (GoOs.Name tempFile) with
                                | (absolutePath, None) =>
                                    set_SavedFilePath result absolutePath
                                | (_, Some _) => result
                                end in
                              let result :=
                                set_Ext result
                                  (GoFilepath.Ext (GoOs.Name tempFile)) in
                              let result :=
                                set_SavedFile result (GoOs.Name tempFile) in
                              (Returned None, (close w, result))
                          end
                      end
                  end
            end
        end
    end.

Definition UploadFileToDir (fieldName : string) (r : GoHttp.Request)
    (destDir destFileNameTemplate : string) (options : list UploadOption)
    (w : GoOs.World)
  : Outcome (FileUpload * option error) * GoOs.World :=
  let result := FileUpload_zero in
  let '(out, (w, result)) :=
    ReadUploadedFile fieldName r
      (upload_callback destDir destFileNameTemplate) options (w, result) in
  match out with
  | Returned err => (Returned (result, err), w)
  | Panicked msg => (Panicked msg, w)
  end.

End UploadFileToDir.

End fileuploads.

(** ** Package filedownloads *)

Module filedownloads.

(** A response sink whose writes can fail: the log of the calls it
    accepted, and what its coming writes of the body return, the
    [i]-th of them counted from the next one: no error, or the error
    it fails with.  A write that fails records nothing. *)
Record Sink : Type := {
  log : responses.ResponseWriter;
  write_errors : nat → option error
}.

(** The error of the next write, if it fails. *)
Definition write_error (w : Sink) : option error := write_errors w 0%nat.

(** [w.Header().Set(key, value)]. *)
Definition Header_Set (w : Sink) (key value : string) : Sink :=
  {| log := log w ++ [responses.SetHeader key value];
     write_errors := write_errors w |}.

(** [w.Write(content)]. *)
Definition Write (w : Sink) (content : string) : Sink * option error :=
  let later := λ i, write_errors w (S i) in
  match write_errors w 0%nat with
  | Some e => ({| log := log w; write_errors := later |}, Some e)
  | None =>
      ({| log := log w ++ [responses.Write content];
          write_errors := later |}, None)
  end.

(** An [io.Reader], as a copy sees it: the pieces its reads give,
    one after the other, and the error the reads end with, if any
    (none at the end of the data). *)
Record Reader : Type := {
  pieces : list string;
  read_error : option error
}.


(** The loop of [io.Copy(w, content)]: each piece read is written as
    it comes, a read of no bytes causes no write, the first write that
    fails ends the copy with its error, and the end of the reads ends
    it with the error of the reads. *)
Fixpoint Copy_go (w : Sink) (pieces : list string)
    (read_error : option error) : Sink * option error :=
  match pieces with
  | [] => (w, read_error)
  | piece :: rest =>
      if decide (piece = "") then Copy_go w rest read_error
      else
        match Write w piece with
        | (w, Some e) => (w, Some e)
        | (w, None) => Copy_go w rest read_error
        end
  end.

Definition Copy (w : Sink) (content : Reader) : Sink * option error :=
  Copy_go w (pieces content) (read_error content).

(** The value of the [Content-Disposition] header: the file name goes
    between the quotes as it is. *)
Definition disposition (filename : string) : string :=
  "attachment; filename=" +:+ dq +:+ filename +:+ dq.

Definition StreamBytes (w : Sink) (filename contentType content : string)
  : Sink * option error :=
  let w := Header_Set w "Content-Disposition" (disposition filename) in
  let w := Header_Set w "Content-Type" contentType in
  let w :=
    Header_Set w "Content-Length"
      (GoFmt.Sprint_d (Z.of_nat (String.length content))) in
  Write w content.



Definition DownloadCsv (w : Sink) (filename content : string)
  : Sink * option error :=
  StreamBytes w filename "text/csv" content.


End filedownloads.

(** ** Package httphelpers: the mock client *)

Module httphelpers.

Section Mock.
(** The requests and responses are those of net/http; the mock only
    stores them and hands them back. *)
Context {Request Response : Type}.

Record MockHttpClientDoExpect : Type := {
  WantResponse : option Response;
  WantError : option error
}.

Record MockHttpClientDoCall : Type := {
  call_Request : Request;
  call_Response : MockHttpClientDoExpect
}.

(** The mock, with the failures it has reported to its [*testing.T].
    The mutex is left out: the calls are taken one after the other. *)
Record MockHttpClient : Type := {
  callIndex : Z;
  t_errors : list string;
  Expects : list MockHttpClientDoExpect;
  Calls : list MockHttpClientDoCall
}.

Definition NewMockHttpClient : MockHttpClient :=
  {| callIndex := 0; t_errors := []; Expects := []; Calls := [] |}.

(** [m.Do(req)].  The index expression panics when the index is
    negative, which no sequence of calls on a new mock brings about. *)
Definition Do (m : MockHttpClient) (req : Request)
  : Outcome (option Response * option error) * MockHttpClient :=
  if callIndex m >=? Z.of_nat (length (Expects m)) then
    (Returned
       (None,
        Some ("expected " +:+ GoFmt.Sprint_d (Z.of_nat (length (Expects m)))
              +:+ " calls, got " +:+ GoFmt.Sprint_d (callIndex m + 1))),
     {| callIndex := callIndex m;
        t_errors := t_errors m ++ ["'Do' called more times than expected"];
        Expects := Expects m;
        Calls := Calls m |})
  else if callIndex m <? 0 then
    (Panicked "index out of range", m)
  else
    match Expects m !! Z.to_nat (callIndex m) with
    | None => (Panicked "index out of range", m)
    | Some expected =>
        (Returned (WantResponse expected, WantError expected),
         {| callIndex := callIndex m + 1;
            t_errors := t_errors m;
            Expects := Expects m;
            Calls := Calls m ++ [{| call_Request := req;
                                    call_Response := expected |}] |})
    end.

Definition OnDo (m : MockHttpClient) (wantResponse : option Response)
    (wantErr : option error) : MockHttpClient :=
  {| callIndex := callIndex m;
     t_errors := t_errors m;
     Expects := Expects m ++ [{| WantResponse := wantResponse;
                                 WantError := wantErr |}];
     Calls := Calls m |}.

Definition VerifyCallCount (m : MockHttpClient) : MockHttpClient :=
  if decide (Z.of_nat (length (Expects m)) ≠ callIndex m) then
    {| callIndex := callIndex m;
       t_errors :=
         t_errors m
         ++ ["expected " +:+ GoFmt.Sprint_d (Z.of_nat (length (Expects m)))
             +:+ " calls, but got " +:+ GoFmt.Sprint_d (callIndex m)];
       Expects := Expects m;
       Calls := Calls m |}
  else m.

End Mock.

End httphelpers.

(** * Vocabulary of the statements, and inputs to run the model on *)

(** ** Responses *)

(** The serialization of the error envelope. *)
Definition envelope_json : string :=
  "{" +:+ dq +:+ "message" +:+ dq +:+ ":" +:+ dq
  +:+ "Error marshaling value for writing" +:+ dq +:+ "," +:+ dq
  +:+ "suggestion" +:+ dq +:+ ":" +:+ dq
  +:+ "See error log for more information" +:+ dq +:+ "}".

(** ** Requests *)

(** The value of a parse that succeeded. *)
Definition parsed {A : Type} (res : A * option GoStrconv.NumError) : option A :=
  match res with
  | (v, None) => Some v
  | (_, Some _) => None
  end.

(** The values of the entries of a list that parse, in the order of the
    list. *)
Definition parseable_entries {A : Type}
    (parse : string → A * option GoStrconv.NumError) (values : list string)
  : list A :=
  omap (λ v, parsed (parse v)) values.

(** What the extraction of a numeric scalar does with the parser [parse]
    of its type: the form value is parsed first; the path value is
    parsed when the form value does not parse; the zero value is the
    result when neither parses. *)
Definition numeric_extraction (fm : FloatModel) (t : requests.RequestTypes)
    (parse : string → requests.go_type fm t * option GoStrconv.NumError)
  : Prop :=
  ∀ (r : GoHttp.Request) (name : string),
    (∀ v, parse (GoHttp.FormValue r name) = (v, None) →
          requests.GetFromRequest fm t r name = v)
    ∧ (∀ v, snd (parse (GoHttp.FormValue r name)) ≠ None →
            parse (GoHttp.PathValue r name) = (v, None) →
            requests.GetFromRequest fm t r name = v)
    ∧ (snd (parse (GoHttp.FormValue r name)) ≠ None →
       snd (parse (GoHttp.PathValue r name)) ≠ None →
       Some (requests.GetFromRequest fm t r name)
       = requests.zero_value fm t).

(** The result of the bearer helper for a malformed header. *)
Definition bearer_error : string * option error :=
  ("", Some "invalid bearer authorization header").

(** A float model for running the extraction on concrete inputs: a
    value is the rational number it stands for, and the parser knows the
    strings of a small table, whose values are binary32 numbers, so that
    the conversion to [float32] leaves them as they are. *)
Definition float_table : list (string * Q) :=
  [("0", Qmake 0 1); ("1.5", Qmake 3 2); ("2", Qmake 2 1);
   ("-0.25", Qmake (-1) 4)].

Definition table_floats : FloatModel :=
  {| float64 := Q;
     float32 := Q;
     float64_zero := Qmake 0 1;
     float32_of := λ x, x;
     ParseFloat := λ s _,
       match list_find (λ e, fst e = s) float_table with
       | Some (_, (_, x)) => (x, None)
       | None => (Qmake 0 1, Some GoStrconv.ErrSyntax)
       end |}.

(** A request with the given headers, parsed form and path wildcards,
    and an empty body. *)
Definition request_of (header form : gmap string (list string))
    (path : gmap string string) : GoHttp.Request :=
  {| GoHttp.Header := header;
     GoHttp.Form := form;
     GoHttp.PathValues := path;
     GoHttp.Body := ("", None);
     GoHttp.ParseMultipartForm_error := λ _, None;
     GoHttp.MultipartFile := ∅ |}.

Definition request_with (form : gmap string (list string))
    (path : gmap string string) : GoHttp.Request :=
  request_of ∅ form path.

Definition request_with_authorization (value : string) : GoHttp.Request :=
  request_of {[ "Authorization" := [value] ]} ∅ ∅.

(** A request with the given content type and body. *)
Definition request_with_body (contentType body : string) : GoHttp.Request :=
  {| GoHttp.Header := {[ "Content-Type" := [contentType] ]};
     GoHttp.Form := ∅;
     GoHttp.PathValues := ∅;
     GoHttp.Body := (body, None);
     GoHttp.ParseMultipartForm_error := λ _, None;
     GoHttp.MultipartFile := ∅ |}.

(** A decoder to run [ReadBody] with: the destination is an integer,
    and the document is its decimal writing. *)
Definition decode_integer (b : string) (dest : Z) : Z * option error :=
  match GoStrconv.ParseInt b 64 with
  | (v, None) => (v, None)
  | (_, Some _) => (dest, Some "invalid character")
  end.

(** The request of the package's extraction test: the posted form and
    then the query give the values of the form; the router gives the
    wildcards. *)
Definition extraction_test_request : GoHttp.Request :=
  request_with
    {[ "string" := ["form_string"; "query_string"];
       "int" := ["123"; "456"];
       "bool" := ["true"];
       "slice" := ["form_slice1"; "form_slice2"] ]}
    {[ "string" := "path_string"; "int_path_only" := "789" ]}.

(** ** Uploads *)

(** The value the callback receives for the file [fh]. *)
Definition callback_data (fh : GoHttp.FileHeader) : fileuploads.FileUpload :=
  {| fileuploads.File := Some fh;
     fileuploads.info := Some fh;
     fileuploads.FileName := "";
     fileuploads.Size := 0;
     fileuploads.Header := ∅;
     fileuploads.Ext := "";
     fileuploads.SavedFile := "";
     fileuploads.SavedFilePath := "" |}.

(** The options in force: the defaults, changed by the options given. *)
Definition options_in_force (options : list fileuploads.UploadOption)
  : fileuploads.UploadOptions :=
  fold_left (λ o opt, opt o) options fileuploads.default_options.


(** [path] names a file or directory strictly inside the directory
    [dir]: the elements of [dir] are a proper prefix of those of
    [path]. *)
Definition inside_dir (w : GoOs.World) (dir path : string) : bool :=
  let d := GoOs.resolve w dir in
  let p := GoOs.resolve w path in
  (length d <? length p)%nat && bool_decide (take (length d) p = d).

(** An uploaded part, a request that carries it in the field "upload",
    and a world in which the directory /srv/app/uploads-evil exists and
    /srv/app/uploads does not. *)
Definition example_part : GoHttp.FileHeader :=
  {| GoHttp.Filename := "data.csv";
     GoHttp.MIMEHeader := ∅;
     GoHttp.Size := 9;
     GoHttp.content := "col1,col2";
     GoHttp.read_error := None |}.

Definition example_upload : GoHttp.Request :=
  {| GoHttp.Header := ∅;
     GoHttp.Form := ∅;
     GoHttp.PathValues := ∅;
     GoHttp.Body := ("", None);
     GoHttp.ParseMultipartForm_error := λ _, None;
     GoHttp.MultipartFile := {[ "upload" := [example_part] ]} |}.

Definition example_world : GoOs.World :=
  {| GoOs.cwd := "/srv/app";
     GoOs.getwd_error := None;
     GoOs.dirs := {[ []; ["srv"]; ["srv"; "app"];
                     ["srv"; "app"; "uploads-evil"] ]};
     GoOs.files := ∅;
     GoOs.open_handles := [];
     GoOs.rand_draws := λ i, Z.of_nat i * 7 + 3 |}.

(** A callback that reports that it was run. *)
Definition telltale_callback : @fileuploads.Callback unit :=
  λ _ _ st, (Returned (Some "the callback was run"), st).

(** ** Further vocabulary *)

(** The first [k] bytes of [s] are there and are above 127, as the
    bytes that continue a rune are. *)
Fixpoint continuation (k : nat) (s : string) : Prop :=
  match k, s with
  | O, _ => True
  | S _, "" => False
  | S k', String c s' => 128 ≤ byte_val c ∧ continuation k' s'
  end.

(** The ASCII white space: tab, line feed, vertical tab, form feed,
    carriage return and space. *)
Definition ascii_space (c : ascii) : bool :=
  byte_in 9 13 c || (byte_val c =? 32).

(** A token: a string that is not empty and holds no ASCII white
    space. *)
Definition is_token (s : string) : Prop :=
  s ≠ "" ∧ Forall (λ c, ascii_space c = false) (list_ascii_of_string s).

(** A plain file name: a single path element, that is, a string with
    no separator that is not empty and is neither [.] nor [..]. *)
Definition plain_name (name : string) : Prop :=
  name ≠ "" ∧ name ≠ "." ∧ name ≠ ".."
  ∧ Forall (λ c, c ≠ "/"%char) (list_ascii_of_string name).

(** The bytes of the alphabet of [randomString]: the lower-case letters
    and the digits. *)
Definition lower_alphanumeric (c : ascii) : bool :=
  byte_in 97 122 c || byte_in 48 57 c.

(** An uploaded part whose stream breaks after four bytes, and a
    request that carries it in the field "upload". *)
Definition broken_part : GoHttp.FileHeader :=
  {| GoHttp.Filename := "data.csv";
     GoHttp.MIMEHeader := ∅;
     GoHttp.Size := 9;
     GoHttp.content := "col1";
     GoHttp.read_error := Some "unexpected EOF" |}.

Definition broken_upload : GoHttp.Request :=
  {| GoHttp.Header := ∅;
     GoHttp.Form := ∅;
     GoHttp.PathValues := ∅;
     GoHttp.Body := ("", None);
     GoHttp.ParseMultipartForm_error := λ _, None;
     GoHttp.MultipartFile := {[ "upload" := [broken_part] ]} |}.

(** The three headers of a download, in the order they are set. *)
Definition download_headers (filename contentType length : string)
  : list responses.SinkOp :=
  [responses.SetHeader "Content-Disposition"
     (filedownloads.disposition filename);
   responses.SetHeader "Content-Type" contentType;
   responses.SetHeader "Content-Length" length].






Section MockRuns.
Context {Request Response : Type}.

(** The expectations [es] set on a mock one after the other, and the
    requests [reqs] sent through it one after the other, with what each
    call returned. *)
Definition program (m : @httphelpers.MockHttpClient Request Response)
    (es : list (@httphelpers.MockHttpClientDoExpect Response))
  : @httphelpers.MockHttpClient Request Response :=
  fold_left
    (λ m e,
       httphelpers.OnDo m (httphelpers.WantResponse e)
         (httphelpers.WantError e))
    es m.

Fixpoint run (m : @httphelpers.MockHttpClient Request Response)
    (reqs : list Request)
  : list (Outcome (option Response * option error))
    * @httphelpers.MockHttpClient Request Response :=
  match reqs with
  | [] => ([], m)
  | req :: reqs' =>
      let '(out, m1) := httphelpers.Do m req in
      let '(outs, m2) := run m1 reqs' in
      (out :: outs, m2)
  end.

(** What [Do] returns for an expectation. *)
Definition replay (e : @httphelpers.MockHttpClientDoExpect Response)
  : Outcome (option Response * option error) :=
  Returned (httphelpers.WantResponse e, httphelpers.WantError e).

(** The calls and the expectations of a mock agree: every expectation
    before the call index has been handed out, once. *)
Definition mock_ok (m : @httphelpers.MockHttpClient Request Response)
  : Prop :=
  0 ≤ httphelpers.callIndex m ≤ Z.of_nat (length (httphelpers.Expects m))
  ∧ Z.of_nat (length (httphelpers.Calls m)) = httphelpers.callIndex m.

End MockRuns.

(** The sequence types among the types a parameter can be read as. *)
Definition is_sequence (t : requests.RequestTypes) : bool :=
  match t with
  | requests.T_slice_int | requests.T_slice_int32 | requests.T_slice_int64
  | requests.T_slice_uint | requests.T_slice_uint32 | requests.T_slice_uint64
  | requests.T_slice_float32 | requests.T_slice_float64
  | requests.T_slice_string => true
  | _ => false
  end.

(** The number of entries of a value of a sequence type. *)
Definition entry_count (fm : FloatModel) (t : requests.RequestTypes)
  : requests.go_type fm t → option nat :=
  match t return requests.go_type fm t → option nat with
  | requests.T_slice_int | requests.T_slice_int32 | requests.T_slice_int64
  | requests.T_slice_uint | requests.T_slice_uint32 | requests.T_slice_uint64 =>
      λ v, Some (length v)
  | requests.T_slice_float32 => λ v, Some (length v)
  | requests.T_slice_float64 => λ v, Some (length v)
  | requests.T_slice_string => λ v, Some (length v)
  | _ => λ _, None
  end.

(** * Properties *)

(** ** Strings *)

Lemma prefix_append (p s t : string) :
  String.prefix p s = true → String.prefix p (s +:+ t) = true.
Proof.
  revert s. induction p as [|a p IH]; intros s.
  - intros _. by destruct (s +:+ t).
  - destruct s as [|b s]; simpl; [done|].
    destruct (ascii_dec a b); [apply IH | done].
Qed.

Lemma Contains_append_l (s t sub : string) :
  GoStrings.Contains s sub = true → GoStrings.Contains (s +:+ t) sub = true.
Proof.
  induction s as [|a s IH]; simpl.
  - rewrite orb_false_r. intros H. destruct sub; [by destruct t|done].
  - intros [H|H]%orb_true_iff; apply orb_true_iff.
    + left. by apply (prefix_append sub (String a s) t).
    + right. by apply IH.
Qed.

Lemma Contains_append_r (s t sub : string) :
  GoStrings.Contains t sub = true → GoStrings.Contains (s +:+ t) sub = true.
Proof.
  intros H. induction s as [|a s IH]; simpl; [done|].
  apply orb_true_iff. by right.
Qed.

(** ** Package responses *)

Section Responses.
Import responses.

Lemma status_writes_app (l k : list SinkOp) :
  status_writes (l ++ k) = status_writes l ++ status_writes k.
Proof. apply omap_app. Qed.

Lemma header_written_SetHeader w key value :
  header_written (w ++ [SetHeader key value]) = header_written w.
Proof.
  unfold header_written. rewrite existsb_app. cbn. by rewrite !orb_false_r.
Qed.

(** The status call of a writer returns when the status is of three
    digits or the header is already sent. *)
Lemma call_WriteHeader_cases w key value status :
  299 < status →
  call_WriteHeader (w ++ [SetHeader key value]) status
  = (if decide (status ≤ 999 ∨ header_written w = true) then Returned ()
     else Panicked ("invalid WriteHeader code " +:+ GoFmt.Sprint_d status),
     w ++ [SetHeader key value; WriteHeader status]).
Proof.
  intros Hs. unfold call_WriteHeader, valid_status.
  rewrite header_written_SetHeader, <- app_assoc. cbn [app]. f_equal.
  destruct (header_written w); cbn [orb].
  - rewrite decide_True; [done|by right].
  - destruct (Z.leb_spec 100 status), (Z.leb_spec status 999); try lia;
      cbn [andb]; case_decide as Hcase; try done;
      destruct Hcase; (lia || done).
Qed.

(** The three courses of a writer: no status written, a status
    written that the sink takes or ignores, and a status that makes
    the sink panic. *)
Lemma write_cases w contentType status value :
  write w contentType status value
  = if decide (status ≤ 299) then
      (Returned (),
       w ++ [SetHeader "Content-Type" contentType;
             Write (GoFmt.Sprint_v value)])
    else if decide (status ≤ 999 ∨ header_written w = true) then
      (Returned (),
       w ++ [SetHeader "Content-Type" contentType; WriteHeader status;
             Write (GoFmt.Sprint_v value)])
    else
      (Panicked ("invalid WriteHeader code " +:+ GoFmt.Sprint_d status),
       w ++ [SetHeader "Content-Type" contentType; WriteHeader status]).
Proof.
  unfold write.
  destruct (Z.gtb_spec status 299); case_decide; try lia.
  - rewrite call_WriteHeader_cases by done.
    case_decide; [|done]. by rewrite <- !app_assoc.
  - by rewrite <- !app_assoc.
Qed.

Lemma Json_cases w status value :
  Json w status value
  = match GoJson.Marshal value with
    | (_, Some _) =>
        (Returned (),
         w ++ [SetHeader "Content-Type" "application/json";
               WriteHeader 500;
               Write (fst (GoJson.Marshal marshal_error_envelope))])
    | (b, None) =>
        if decide (status ≤ 299) then
          (Returned (),
           w ++ [SetHeader "Content-Type" "application/json"; Write b])
        else if decide (status ≤ 999 ∨ header_written w = true) then
          (Returned (),
           w ++ [SetHeader "Content-Type" "application/json";
                 WriteHeader status; Write b])
        else
          (Panicked ("invalid WriteHeader code " +:+ GoFmt.Sprint_d status),
           w ++ [SetHeader "Content-Type" "application/json";
                 WriteHeader status])
    end.
Proof.
  unfold Json.
  destruct (GoJson.Marshal value) as [b [e|]].
  - destruct (GoJson.Marshal marshal_error_envelope) as [b' e'].
    unfold StatusInternalServerError.
    rewrite call_WriteHeader_cases by lia.
    rewrite decide_True by (left; lia). cbn [fst]. by rewrite <- !app_assoc.
  - destruct (Z.gtb_spec status 299); case_decide; try lia.
    + rewrite call_WriteHeader_cases by done.
      case_decide; [|done]. by rewrite <- !app_assoc.
    + by rewrite <- !app_assoc.
Qed.

Lemma write_status_writes w contentType status value :
  status_writes (snd (write w contentType status value))
  = status_writes w ++ (if decide (299 < status) then [status] else []).
Proof.
  rewrite write_cases. repeat case_decide; try lia; cbn [snd];
    rewrite !status_writes_app; simpl; by rewrite ?app_nil_r.
Qed.

Lemma Marshal_envelope :
  GoJson.Marshal marshal_error_envelope = (envelope_json, None).
Proof. reflexivity. Qed.

End Responses.

(** C2, as the code has it.  The text, HTML and JSON writers (the last
    one when the value serializes) write the status explicitly exactly
    when it is above 299, and then once, with the status requested.  For
    every status up to 299 -- inside 200..299 and also below 200 --
    no status is written and the default of the sink is relied on. *)
Theorem C2_status_written_iff_above_299
    (w : responses.ResponseWriter) (status : Z) (value : any) :
  let expected :=
    responses.status_writes w ++ (if decide (299 < status) then [status] else [])
  in
  responses.status_writes (snd (responses.Text w status value)) = expected
  ∧ responses.status_writes (snd (responses.Html w status value)) = expected
  ∧ (snd (GoJson.Marshal value) = None →
     responses.status_writes (snd (responses.Json w status value)) = expected)
  ∧ (status ≤ 299 →
     responses.status_writes (snd (responses.Text w status value))
     = responses.status_writes w
     ∧ responses.status_writes (snd (responses.Html w status value))
       = responses.status_writes w).
Proof.
  cbv zeta. repeat split.
  - apply write_status_writes.
  - apply write_status_writes.
  - intros Hm. rewrite Json_cases.
    destruct (GoJson.Marshal value) as [b [e|]]; [done|].
    repeat case_decide; try lia; cbn [snd];
      rewrite !status_writes_app; simpl; by rewrite ?app_nil_r.
  - unfold responses.Text. rewrite write_status_writes.
    case_decide; [lia|]. by rewrite app_nil_r.
  - unfold responses.Html. rewrite write_status_writes.
    case_decide; [lia|]. by rewrite app_nil_r.
Qed.

Lemma C2_status_written_witness :
  responses.status_writes
    (snd (responses.Json [] 404 (AnyString "not found"))) = [404]
  ∧ responses.status_writes
      (snd (responses.Text [] 199 (AnyString "early"))) = [].
Proof.
  split.
  - apply (proj1 (proj2 (proj2
      (C2_status_written_iff_above_299 [] 404 (AnyString "not found"))))).
    reflexivity.
  - refine (proj1 (proj2 (proj2 (proj2
      (C2_status_written_iff_above_299 [] 199 (AnyString "early")))) _)).
    lia.
Defined.

(** C2 as stated fails: 199 is outside the range 200..299, yet the text
    writer performs no explicit status write for it. *)
Lemma C2_counterexample_199 :
  responses.IsSuccessRange 199 = false
  ∧ responses.status_writes
      (snd (responses.Text [] 199 (AnyString "early"))) = []
  ∧ ¬ (responses.status_writes
         (snd (responses.Text [] 199 (AnyString "early"))) ≠ []
       ↔ responses.IsSuccessRange 199 = false).
Proof.
  split; [reflexivity|]. split; [reflexivity|].
  intros [_ H]. by apply H.
Qed.

(** C4.  When the value does not serialize, the JSON writer sets the
    content type, writes status 500 and writes the serialized envelope,
    whose text contains "Error marshaling value".  What is written is
    the same whatever status was requested and whatever value failed,
    with whatever error: the error is not passed on, and the writer
    returns nothing besides the sink. *)
Theorem C4_Json_marshal_failure
    (w : responses.ResponseWriter) (status : Z) (value : any) (e : error) :
  snd (GoJson.Marshal value) = Some e →
  responses.Json w status value
  = (Returned (),
     w ++ [responses.SetHeader "Content-Type" "application/json";
           responses.WriteHeader 500;
           responses.Write envelope_json])
  ∧ responses.status_writes (snd (responses.Json w status value))
    = responses.status_writes w ++ [500]
  ∧ responses.body_writes (snd (responses.Json w status value))
    = responses.body_writes w ++ [envelope_json]
  ∧ GoStrings.Contains envelope_json "Error marshaling value" = true
  ∧ (∀ (status' : Z) (value' : any),
       snd (GoJson.Marshal value') ≠ None →
       responses.Json w status' value' = responses.Json w status value).
Proof.
  intros Hm.
  assert (∀ s v, snd (GoJson.Marshal v) ≠ None →
                 responses.Json w s v
                 = (Returned (),
                    w ++ [responses.SetHeader "Content-Type"
                            "application/json";
                          responses.WriteHeader 500;
                          responses.Write envelope_json])) as Hfail.
  { intros s v Hv. rewrite Json_cases.
    destruct (GoJson.Marshal v) as [b [e'|]]; [|done].
    by rewrite Marshal_envelope. }
  rewrite (Hfail status value) by (by rewrite Hm). cbn [snd].
  split; [done|]. split; [by rewrite status_writes_app|].
  split; [unfold responses.body_writes; by rewrite omap_app|].
  split; [reflexivity|]. intros s v Hv. by apply Hfail.
Qed.

Lemma C4_Json_marshal_failure_witness :
  responses.status_writes
    (snd (responses.Json [] 200 (AnyChan "chan int" 824633819232))) = [500].
Proof.
  apply (proj1 (proj2
    (C4_Json_marshal_failure [] 200 (AnyChan "chan int" 824633819232)
       "json: unsupported type: chan int" eq_refl))).
Defined.

(** ** strconv: the range of a parsed number *)

Lemma ParseUint_loop_nonneg (s : string) (maxVal n : Z) :
  0 ≤ n → 0 ≤ maxVal → 0 ≤ fst (GoStrconv.ParseUint_loop s maxVal n).
Proof.
  revert n. induction s as [|c s IH]; intros n Hn Hmax; simpl; [done|].
  destruct (byte_in 48 57 c); [|done].
  destruct (_ >=? _); [done|].
  destruct (_ || _); [done|].
  apply IH; [|done]. apply Z.mod_pos_bound. lia.
Qed.

Lemma ParseUint_loop_range (s : string) (maxVal n v : Z) :
  0 ≤ n ≤ maxVal →
  GoStrconv.ParseUint_loop s maxVal n = (v, None) → 0 ≤ v ≤ maxVal.
Proof.
  revert n. induction s as [|c s IH]; intros n Hn; simpl.
  - intros [= <-]. done.
  - destruct (byte_in 48 57 c); [|done].
    destruct (_ >=? _); [done|].
    destruct (((n * 10 + (byte_val c - 48)) mod 2 ^ 64 <? n * 10)
              || ((n * 10 + (byte_val c - 48)) mod 2 ^ 64 >? maxVal)) eqn:Hc;
      [done|].
    apply orb_false_iff in Hc as [_ Hc].
    apply IH. split; [apply Z.mod_pos_bound; lia | lia].
Qed.

Lemma ParseUint_range (s : string) (bitSize v : Z) :
  0 ≤ bitSize →
  GoStrconv.ParseUint s bitSize = (v, None) → 0 ≤ v < 2 ^ bitSize.
Proof.
  intros Hb. unfold GoStrconv.ParseUint. case_decide; [done|].
  assert (0 < 2 ^ bitSize) by (apply Z.pow_pos_nonneg; lia).
  intros Hr%ParseUint_loop_range; lia.
Qed.

Lemma ParseUint_nonneg (s : string) (bitSize : Z) :
  0 ≤ bitSize → 0 ≤ fst (GoStrconv.ParseUint s bitSize).
Proof.
  intros Hb. unfold GoStrconv.ParseUint. case_decide; [done|].
  assert (0 < 2 ^ bitSize) by (apply Z.pow_pos_nonneg; lia).
  apply ParseUint_loop_nonneg; lia.
Qed.

Lemma ParseInt_range (s : string) (bitSize v : Z) :
  1 ≤ bitSize →
  GoStrconv.ParseInt s bitSize = (v, None) →
  - 2 ^ (bitSize - 1) ≤ v < 2 ^ (bitSize - 1).
Proof.
  intros Hb. unfold GoStrconv.ParseInt. destruct s as [|c rest]; [done|].
  set (neg := bool_decide (c = "-"%char)).
  set (s' := if _ || neg then rest else String c rest).
  pose proof (ParseUint_nonneg s' bitSize ltac:(lia)) as Hun.
  destruct (GoStrconv.ParseUint s' bitSize) as [un err]. simpl in Hun.
  assert (0 < 2 ^ (bitSize - 1)) by (apply Z.pow_pos_nonneg; lia).
  destruct err as [[]|]; [done| |];
    (destruct neg; simpl;
     [destruct (Z.gtb_spec un (2 ^ (bitSize - 1))); [done|]
     |destruct (Z.geb_spec un (2 ^ (bitSize - 1))); [done|]];
     intros [= <-]; lia).
Qed.

Lemma int_cast_id (bits v : Z) :
  1 ≤ bits → - 2 ^ (bits - 1) ≤ v < 2 ^ (bits - 1) →
  requests.int_cast bits v = v.
Proof.
  intros Hb Hv. unfold requests.int_cast.
  assert (2 ^ bits = 2 * 2 ^ (bits - 1)) as ->.
  { rewrite <- Z.pow_succ_r by lia. f_equal. lia. }
  rewrite Z.mod_small; lia.
Qed.

Lemma uint_cast_id (bits v : Z) :
  0 ≤ v < 2 ^ bits → requests.uint_cast bits v = v.
Proof. intros Hv. unfold requests.uint_cast. by apply Z.mod_small. Qed.

(** ** Package requests *)

Lemma parseable_entries_none {A : Type}
    (parse : string → A * option GoStrconv.NumError) (values : list string) :
  Forall (λ v, snd (parse v) ≠ None) values →
  parseable_entries parse values = [].
Proof.
  induction 1 as [|v values Hv _ IH]; [done|].
  unfold parseable_entries in *. simpl in *.
  by destruct (parse v) as [x [e|]].
Qed.

Lemma parseable_entries_sublist {A : Type}
    (parse : string → A * option GoStrconv.NumError) (values : list string) :
  parseable_entries parse values
  = map (λ v, fst (parse v))
      (filter (λ v, snd (parse v) = None) values).
Proof.
  induction values as [|v values IH]; [done|].
  unfold parseable_entries in *. rewrite filter_cons.
  case_decide as Hd; simpl in *; rewrite <- IH;
    destruct (parse v) as [x [e|]]; simpl in *;
    first [done | reflexivity].
Qed.

Lemma parseable_entries_Forall {A : Type}
    (parse : string → A * option GoStrconv.NumError) (P : A → Prop)
    (values : list string) :
  (∀ v x, parse v = (x, None) → P x) →
  Forall P (parseable_entries parse values).
Proof.
  intros HP. induction values as [|v values IH]; [constructor|].
  unfold parseable_entries in *. simpl in *.
  destruct (parse v) as [x [e|]] eqn:Hp; simpl; [done|].
  constructor; [by apply (HP v) | done].
Qed.

Lemma map_fixed {A : Type} (f : A → A) (l : list A) :
  Forall (λ x, f x = x) l → map f l = l.
Proof. induction 1; simpl; congruence. Qed.

Section Requests.
Import GoHttp requests.

Lemma getIntSlice_loop_spec values size result :
  getIntSlice_loop values size result
  = result ++ parseable_entries (λ v, GoStrconv.ParseInt v size) values.
Proof.
  revert result. induction values as [|v values IH]; intros result; simpl.
  - by rewrite app_nil_r.
  - unfold parseable_entries. simpl.
    destruct (GoStrconv.ParseInt v size) as [temp [e|]]; simpl.
    + apply IH.
    + rewrite IH. by rewrite <- app_assoc.
Qed.

Lemma getUintSlice_loop_spec values size result :
  getUintSlice_loop values size result
  = result ++ parseable_entries (λ v, GoStrconv.ParseUint v size) values.
Proof.
  revert result. induction values as [|v values IH]; intros result; simpl.
  - by rewrite app_nil_r.
  - unfold parseable_entries. simpl.
    destruct (GoStrconv.ParseUint v size) as [temp [e|]]; simpl.
    + apply IH.
    + rewrite IH. by rewrite <- app_assoc.
Qed.

Lemma getFloatSlice_loop_spec fm values size result :
  getFloatSlice_loop fm values size result
  = result ++ parseable_entries (λ v, ParseFloat fm v size) values.
Proof.
  revert result. induction values as [|v values IH]; intros result; simpl.
  - by rewrite app_nil_r.
  - unfold parseable_entries. simpl.
    destruct (ParseFloat fm v size) as [temp [e|]]; simpl.
    + apply IH.
    + rewrite IH. by rewrite <- app_assoc.
Qed.

Lemma getIntSlice_spec r name size :
  getIntSlice r name size
  = parseable_entries (λ v, GoStrconv.ParseInt v size) (Form_index r name).
Proof.
  unfold getIntSlice. destruct (Form_index r name) as [|v values]; [done|].
  change (0 <? length (v :: values))%nat with true. cbv iota.
  by rewrite getIntSlice_loop_spec.
Qed.

Lemma getUintSlice_spec r name size :
  getUintSlice r name size
  = parseable_entries (λ v, GoStrconv.ParseUint v size) (Form_index r name).
Proof.
  unfold getUintSlice. destruct (Form_index r name) as [|v values]; [done|].
  change (0 <? length (v :: values))%nat with true. cbv iota.
  by rewrite getUintSlice_loop_spec.
Qed.

Lemma getFloatSlice_spec fm r name size :
  getFloatSlice fm r name size
  = parseable_entries (λ v, ParseFloat fm v size) (Form_index r name).
Proof.
  unfold getFloatSlice. destruct (Form_index r name) as [|v values]; [done|].
  change (0 <? length (v :: values))%nat with true. cbv iota.
  by rewrite getFloatSlice_loop_spec.
Qed.

Lemma map_int_cast_parseable bits values :
  1 ≤ bits →
  map (int_cast bits)
    (parseable_entries (λ v, GoStrconv.ParseInt v bits) values)
  = parseable_entries (λ v, GoStrconv.ParseInt v bits) values.
Proof.
  intros Hb. apply map_fixed, parseable_entries_Forall.
  intros v x Hp. apply int_cast_id; [done|]. by apply (ParseInt_range v).
Qed.

Lemma map_uint_cast_parseable bits values :
  0 ≤ bits →
  map (uint_cast bits)
    (parseable_entries (λ v, GoStrconv.ParseUint v bits) values)
  = parseable_entries (λ v, GoStrconv.ParseUint v bits) values.
Proof.
  intros Hb. apply map_fixed, parseable_entries_Forall.
  intros v x Hp. apply uint_cast_id. by apply (ParseUint_range v).
Qed.

Lemma getInt_cases r name size :
  (∀ v, GoStrconv.ParseInt (FormValue r name) size = (v, None) →
        getInt r name size = v)
  ∧ (∀ v, snd (GoStrconv.ParseInt (FormValue r name) size) ≠ None →
          GoStrconv.ParseInt (PathValue r name) size = (v, None) →
          getInt r name size = v)
  ∧ (snd (GoStrconv.ParseInt (FormValue r name) size) ≠ None →
     snd (GoStrconv.ParseInt (PathValue r name) size) ≠ None →
     getInt r name size = 0).
Proof.
  unfold getInt.
  destruct (GoStrconv.ParseInt (FormValue r name) size) as [x [e|]];
    destruct (GoStrconv.ParseInt (PathValue r name) size) as [y [e'|]];
    simpl; repeat split; intros; simplify_eq; done.
Qed.

Lemma getUint_cases r name size :
  (∀ v, GoStrconv.ParseUint (FormValue r name) size = (v, None) →
        getUint r name size = v)
  ∧ (∀ v, snd (GoStrconv.ParseUint (FormValue r name) size) ≠ None →
          GoStrconv.ParseUint (PathValue r name) size = (v, None) →
          getUint r name size = v)
  ∧ (snd (GoStrconv.ParseUint (FormValue r name) size) ≠ None →
     snd (GoStrconv.ParseUint (PathValue r name) size) ≠ None →
     getUint r name size = 0).
Proof.
  unfold getUint.
  destruct (GoStrconv.ParseUint (FormValue r name) size) as [x [e|]];
    destruct (GoStrconv.ParseUint (PathValue r name) size) as [y [e'|]];
    simpl; repeat split; intros; simplify_eq; done.
Qed.

Lemma getFloat_cases fm r name size :
  (∀ v, ParseFloat fm (FormValue r name) size = (v, None) →
        getFloat fm r name size = v)
  ∧ (∀ v, snd (ParseFloat fm (FormValue r name) size) ≠ None →
          ParseFloat fm (PathValue r name) size = (v, None) →
          getFloat fm r name size = v)
  ∧ (snd (ParseFloat fm (FormValue r name) size) ≠ None →
     snd (ParseFloat fm (PathValue r name) size) ≠ None →
     getFloat fm r name size = float64_zero fm).
Proof.
  unfold getFloat.
  destruct (ParseFloat fm (FormValue r name) size) as [x [e|]];
    destruct (ParseFloat fm (PathValue r name) size) as [y [e'|]];
    simpl; repeat split; intros; simplify_eq; done.
Qed.

Lemma numeric_extraction_int (bits : Z) (get : Request → string → Z) :
  1 ≤ bits →
  (∀ r name, get r name = int_cast bits (getInt r name bits)) →
  ∀ r name,
    (∀ v, GoStrconv.ParseInt (FormValue r name) bits = (v, None) →
          get r name = v)
    ∧ (∀ v, snd (GoStrconv.ParseInt (FormValue r name) bits) ≠ None →
            GoStrconv.ParseInt (PathValue r name) bits = (v, None) →
            get r name = v)
    ∧ (snd (GoStrconv.ParseInt (FormValue r name) bits) ≠ None →
       snd (GoStrconv.ParseInt (PathValue r name) bits) ≠ None →
       get r name = 0).
Proof.
  intros Hb Hget r name. rewrite Hget.
  destruct (getInt_cases r name bits) as (H1 & H2 & H3).
  assert (0 < 2 ^ (bits - 1)) by (apply Z.pow_pos_nonneg; lia).
  repeat split.
  - intros v Hv. rewrite (H1 v Hv).
    apply int_cast_id; [done|]. by apply (ParseInt_range (FormValue r name)).
  - intros v Hf Hv. rewrite (H2 v Hf Hv).
    apply int_cast_id; [done|]. by apply (ParseInt_range (PathValue r name)).
  - intros Hf Hp. rewrite (H3 Hf Hp). apply int_cast_id; lia.
Qed.

Lemma numeric_extraction_uint (bits : Z) (get : Request → string → Z) :
  0 ≤ bits →
  (∀ r name, get r name = uint_cast bits (getUint r name bits)) →
  ∀ r name,
    (∀ v, GoStrconv.ParseUint (FormValue r name) bits = (v, None) →
          get r name = v)
    ∧ (∀ v, snd (GoStrconv.ParseUint (FormValue r name) bits) ≠ None →
            GoStrconv.ParseUint (PathValue r name) bits = (v, None) →
            get r name = v)
    ∧ (snd (GoStrconv.ParseUint (FormValue r name) bits) ≠ None →
       snd (GoStrconv.ParseUint (PathValue r name) bits) ≠ None →
       get r name = 0).
Proof.
  intros Hb Hget r name. rewrite Hget.
  destruct (getUint_cases r name bits) as (H1 & H2 & H3).
  assert (0 < 2 ^ bits) by (apply Z.pow_pos_nonneg; lia).
  repeat split.
  - intros v Hv. rewrite (H1 v Hv).
    apply uint_cast_id. by apply (ParseUint_range (FormValue r name)).
  - intros v Hf Hv. rewrite (H2 v Hf Hv).
    apply uint_cast_id. by apply (ParseUint_range (PathValue r name)).
  - intros Hf Hp. rewrite (H3 Hf Hp). apply uint_cast_id. lia.
Qed.

End Requests.

(** C3, as the code has it.  A string and a boolean take the path value
    only when the form value is empty, and a boolean that does not
    parse is false.  A numeric scalar takes the path value whenever the
    form value does not parse -- empty or not -- and is zero only when
    neither value parses. *)
Theorem C3_scalar_extraction (fm : FloatModel) :
  (∀ r name,
     requests.GetFromRequest fm requests.T_string r name
     = if decide (GoHttp.FormValue r name = "") then GoHttp.PathValue r name
       else GoHttp.FormValue r name)
  ∧ (∀ r name,
       requests.GetFromRequest fm requests.T_bool r name
       = default false
           (parsed (GoStrconv.ParseBool
                      (if decide (GoHttp.FormValue r name = "")
                       then GoHttp.PathValue r name
                       else GoHttp.FormValue r name))))
  ∧ numeric_extraction fm requests.T_int
      (λ s, GoStrconv.ParseInt s 64)
  ∧ numeric_extraction fm requests.T_int32
      (λ s, GoStrconv.ParseInt s 32)
  ∧ numeric_extraction fm requests.T_int64
      (λ s, GoStrconv.ParseInt s 64)
  ∧ numeric_extraction fm requests.T_uint
      (λ s, GoStrconv.ParseUint s 64)
  ∧ numeric_extraction fm requests.T_uint32
      (λ s, GoStrconv.ParseUint s 32)
  ∧ numeric_extraction fm requests.T_uint64
      (λ s, GoStrconv.ParseUint s 64)
  ∧ numeric_extraction fm requests.T_float32
      (λ s, let '(v, e) := ParseFloat fm s 32 in (float32_of fm v, e))
  ∧ numeric_extraction fm requests.T_float64
      (λ s, ParseFloat fm s 64).
Proof.
  assert (∀ (t : requests.RequestTypes) (zero : requests.go_type fm t)
            (parse : string
                     → requests.go_type fm t * option GoStrconv.NumError),
            requests.zero_value fm t = Some zero →
            (∀ r name,
               (∀ v, parse (GoHttp.FormValue r name) = (v, None) →
                     requests.GetFromRequest fm t r name = v)
               ∧ (∀ v, snd (parse (GoHttp.FormValue r name)) ≠ None →
                       parse (GoHttp.PathValue r name) = (v, None) →
                       requests.GetFromRequest fm t r name = v)
               ∧ (snd (parse (GoHttp.FormValue r name)) ≠ None →
                  snd (parse (GoHttp.PathValue r name)) ≠ None →
                  requests.GetFromRequest fm t r name = zero)) →
            numeric_extraction fm t parse) as Hlift.
  { intros t zero parse Hzero Hcases r name.
    destruct (Hcases r name) as (H1 & H2 & H3).
    split; [exact H1|]. split; [exact H2|].
    intros Hf Hp. rewrite Hzero. f_equal. by apply H3. }
  split; [done|]. split.
  { intros r name. simpl.
    by destruct (GoStrconv.ParseBool _) as [b [e|]]. }
  split; [exact (Hlift requests.T_int 0 _ eq_refl
                   (numeric_extraction_int 64
                      (requests.GetFromRequest fm requests.T_int)
                      ltac:(lia) (λ _ _, eq_refl)))|].
  split; [exact (Hlift requests.T_int32 0 _ eq_refl
                   (numeric_extraction_int 32
                      (requests.GetFromRequest fm requests.T_int32)
                      ltac:(lia) (λ _ _, eq_refl)))|].
  split; [exact (Hlift requests.T_int64 0 _ eq_refl
                   (λ r name, getInt_cases r name 64))|].
  split; [exact (Hlift requests.T_uint 0 _ eq_refl
                   (numeric_extraction_uint 64
                      (requests.GetFromRequest fm requests.T_uint)
                      ltac:(lia) (λ _ _, eq_refl)))|].
  split; [exact (Hlift requests.T_uint32 0 _ eq_refl
                   (numeric_extraction_uint 32
                      (requests.GetFromRequest fm requests.T_uint32)
                      ltac:(lia) (λ _ _, eq_refl)))|].
  split; [exact (Hlift requests.T_uint64 0 _ eq_refl
                   (λ r name, getUint_cases r name 64))|].
  split; [|exact (Hlift requests.T_float64 _ _ eq_refl
                    (λ r name, getFloat_cases fm r name 64))].
  apply (Hlift requests.T_float32 _ _ eq_refl).
  intros r name. simpl.
  destruct (getFloat_cases fm r name 32) as (H1 & H2 & H3).
  destruct (ParseFloat fm (GoHttp.FormValue r name) 32) as [x [e|]];
    destruct (ParseFloat fm (GoHttp.PathValue r name) 32) as [y [e'|]];
    simpl in *; repeat split; intros; simplify_eq;
    first [done
          | by rewrite (H1 _ eq_refl)
          | by rewrite (H2 _ ltac:(done) eq_refl)
          | by rewrite H3].
Qed.

Lemma C3_scalar_extraction_witness :
  requests.GetFromRequest table_floats requests.T_int
    (request_with {[ "id" := ["abc"] ]} {[ "id" := "789" ]}) "id" = 789
  ∧ requests.GetFromRequest table_floats requests.T_uint32
      (request_with {[ "id" := ["-1"] ]} {[ "id" := "x" ]}) "id" = 0.
Proof.
  split.
  - apply (proj1 (proj2
      (proj1 (proj2 (proj2 (C3_scalar_extraction table_floats)))
         (request_with {[ "id" := ["abc"] ]} {[ "id" := "789" ]}) "id")));
      [discriminate | reflexivity].
  - apply (inj Some).
    apply (proj2 (proj2
      (proj1 (proj2 (proj2 (proj2 (proj2 (proj2 (proj2
         (C3_scalar_extraction table_floats)))))))
         (request_with {[ "id" := ["-1"] ]} {[ "id" := "x" ]}) "id")));
      discriminate.
Defined.

(** C3 as stated fails: with the form value "abc", which is not empty
    and does not parse, and the path value "789" under the same name,
    the extracted [int] is 789, the parsed path value, not zero. *)
Lemma C3_counterexample_int :
  let r := request_with {[ "id" := ["abc"] ]} {[ "id" := "789" ]} in
  GoHttp.FormValue r "id" = "abc"
  ∧ GoStrconv.ParseInt "abc" 64 = (0, Some GoStrconv.ErrSyntax)
  ∧ GoStrconv.ParseInt (GoHttp.PathValue r "id") 64 = (789, None)
  ∧ requests.GetFromRequest table_floats requests.T_int r "id" = 789
  ∧ Some (requests.GetFromRequest table_floats requests.T_int r "id")
    ≠ requests.zero_value table_floats requests.T_int.
Proof. cbv zeta. repeat split; vm_compute; congruence. Qed.

(** C9.  For each numeric sequence type, the extracted sequence is made
    of the values of the entries bound to the name that parse, in the
    order of the entries; the entries that do not parse are left out;
    when no entry parses the sequence is empty.  (The extraction has no
    error result.) *)
Theorem C9_numeric_sequences (fm : FloatModel) (r : GoHttp.Request)
    (name : string) :
  let values := GoHttp.Form_index r name in
  requests.GetFromRequest fm requests.T_slice_int r name
  = parseable_entries (λ v, GoStrconv.ParseInt v 64) values
  ∧ requests.GetFromRequest fm requests.T_slice_int32 r name
    = parseable_entries (λ v, GoStrconv.ParseInt v 32) values
  ∧ requests.GetFromRequest fm requests.T_slice_int64 r name
    = parseable_entries (λ v, GoStrconv.ParseInt v 64) values
  ∧ requests.GetFromRequest fm requests.T_slice_uint r name
    = parseable_entries (λ v, GoStrconv.ParseUint v 64) values
  ∧ requests.GetFromRequest fm requests.T_slice_uint32 r name
    = parseable_entries (λ v, GoStrconv.ParseUint v 32) values
  ∧ requests.GetFromRequest fm requests.T_slice_uint64 r name
    = parseable_entries (λ v, GoStrconv.ParseUint v 64) values
  ∧ requests.GetFromRequest fm requests.T_slice_float32 r name
    = map (float32_of fm) (parseable_entries (λ v, ParseFloat fm v 32) values)
  ∧ requests.GetFromRequest fm requests.T_slice_float64 r name
    = parseable_entries (λ v, ParseFloat fm v 64) values
  ∧ (∀ (A : Type) (parse : string → A * option GoStrconv.NumError),
       parseable_entries parse values
       = map (λ v, fst (parse v)) (filter (λ v, snd (parse v) = None) values)
       ∧ (Forall (λ v, snd (parse v) ≠ None) values →
          parseable_entries parse values = [])).
Proof.
  cbv zeta. simpl.
  rewrite !getIntSlice_spec, !getUintSlice_spec, !getFloatSlice_spec.
  rewrite !map_int_cast_parseable, !map_uint_cast_parseable by lia.
  repeat split; try done.
  - apply parseable_entries_sublist.
  - apply parseable_entries_none.
Qed.

Lemma C9_numeric_sequences_witness :
  requests.GetFromRequest table_floats requests.T_slice_int32
    (request_with {[ "n" := ["7"; "x"; "-12"; "2147483648"; "+3"] ]} ∅) "n"
  = [7; -12; 3]
  ∧ requests.GetFromRequest table_floats requests.T_slice_uint64
      (request_with {[ "n" := ["a"; "-1"; ""] ]} ∅) "n" = [].
Proof.
  split.
  - exact (proj1 (proj2
      (C9_numeric_sequences table_floats
         (request_with {[ "n" := ["7"; "x"; "-12"; "2147483648"; "+3"] ]} ∅)
         "n"))).
  - pose proof (C9_numeric_sequences table_floats
                  (request_with {[ "n" := ["a"; "-1"; ""] ]} ∅) "n") as H.
    cbv zeta in H. destruct H as (_ & _ & _ & _ & _ & H6 & _ & _ & H9).
    rewrite H6. apply (proj2 (H9 Z _)).
    change (GoHttp.Form_index _ "n") with ["a"; "-1"; ""].
    repeat constructor; discriminate.
Defined.

(** ** The delimited list *)

Lemma Split_empty_string (sep : string) :
  sep ≠ "" → GoStrings.Split "" sep = [""].
Proof.
  intros Hsep. unfold GoStrings.Split. rewrite decide_False by done.
  simpl. by destruct sep.
Qed.

(** C10, as the code has it.  When the parameter is absent from the
    parsed form, the raw lookup gives the empty string; with a separator
    that is not empty the result is the one-element sequence holding the
    empty string, and with the empty separator it is the empty
    sequence.  A parameter that is present with an empty value gives
    the same result as an absent one. *)
Theorem C10_absent_parameter (r : GoHttp.Request) (name seperator : string) :
  GoHttp.Form r !! name = None →
  GoHttp.FormValue r name = ""
  ∧ (seperator ≠ "" →
     requests.GetStringListFromRequest r name seperator = [""])
  ∧ (seperator = "" →
     requests.GetStringListFromRequest r name seperator = [])
  ∧ (∀ r' : GoHttp.Request,
       GoHttp.Form r' !! name = Some [""] →
       requests.GetStringListFromRequest r' name seperator
       = requests.GetStringListFromRequest r name seperator).
Proof.
  intros Hn.
  assert (GoHttp.FormValue r name = "") as Hv.
  { unfold GoHttp.FormValue, GoHttp.Form_index. by rewrite Hn. }
  unfold requests.GetStringListFromRequest. rewrite Hv.
  split; [done|]. split; [apply Split_empty_string|].
  split; [by intros ->|].
  intros r' Hr'. unfold GoHttp.FormValue, GoHttp.Form_index. by rewrite Hr'.
Qed.

Lemma C10_absent_parameter_witness :
  requests.GetStringListFromRequest
    (request_with {[ "other" := ["a,b"] ]} ∅) "list" "," = [""].
Proof.
  refine (proj1 (proj2 (C10_absent_parameter
                   (request_with {[ "other" := ["a,b"] ]} ∅) "list" "," _)) _);
    [reflexivity | discriminate].
Defined.

(** C10 as stated fails for the empty separator: the parameter is
    absent, the raw lookup gives the empty string, and the result is
    the empty sequence. *)
Lemma C10_counterexample_empty_separator :
  let r := request_with {[ "other" := ["a,b"] ]} ∅ in
  GoHttp.Form r !! "list" = None
  ∧ GoHttp.FormValue r "list" = ""
  ∧ requests.GetStringListFromRequest r "list" "" = []
  ∧ requests.GetStringListFromRequest r "list" "" ≠ [""].
Proof. cbv zeta. repeat split; vm_compute; congruence. Qed.

(** ** The bearer token *)

(** C8.  The helper returns a token exactly when the fields of the
    [Authorization] header are two and the lower case of the first is
    "bearer"; the token is the second field.  In every other case --
    no header, a number of fields other than two, another scheme -- it
    returns the malformed-header error. *)
Theorem C8_bearer_token (r : GoHttp.Request) :
  let parts :=
    GoStrings.Fields (GoHttp.Header_Get (GoHttp.Header r) "Authorization") in
  (∀ token,
     requests.GetAuthorizationBearer r = (token, None)
     ↔ ∃ scheme, parts = [scheme; token]
                 ∧ GoStrings.ToLower scheme = "bearer")
  ∧ ((¬ ∃ scheme token, parts = [scheme; token]
                        ∧ GoStrings.ToLower scheme = "bearer") →
     requests.GetAuthorizationBearer r = bearer_error)
  ∧ (GoHttp.Header r !! "Authorization" = None →
     requests.GetAuthorizationBearer r = bearer_error)
  ∧ (length parts ≠ 2%nat →
     requests.GetAuthorizationBearer r = bearer_error)
  ∧ (∀ scheme token,
       parts = [scheme; token] → GoStrings.ToLower scheme ≠ "bearer" →
       requests.GetAuthorizationBearer r = bearer_error).
Proof.
  cbv zeta. unfold requests.GetAuthorizationBearer, bearer_error.
  split; [|split; [|split; [|split]]].
  - intros token.
    destruct (GoStrings.Fields _) as [|a [|b [|c l]]]; simpl;
      try (split; [done | by intros (? & ? & ?)]).
    case_bool_decide as Hl; simpl.
    + split; [done|]. intros (scheme & [= -> ->] & Hs). by destruct Hl.
    + split; [intros [= ->]; exists a; split; [done|]|].
      * by destruct (decide (GoStrings.ToLower a = "bearer")).
      * by intros (scheme & [= -> ->] & _).
  - intros Hno.
    destruct (GoStrings.Fields _) as [|a [|b [|c l]]]; simpl; try done.
    case_bool_decide as Hl; simpl; [done|].
    destruct Hno. exists a, b. split; [done|].
    by destruct (decide (GoStrings.ToLower a = "bearer")).
  - intros Hn. unfold GoHttp.Header_Get. by rewrite Hn.
  - intros Hlen. by rewrite bool_decide_true.
  - intros scheme token -> Hs. simpl. by rewrite bool_decide_true.
Qed.

Lemma C8_bearer_token_witness :
  requests.GetAuthorizationBearer
    (request_with_authorization "Basic my-secret-token") = bearer_error
  ∧ requests.GetAuthorizationBearer
      (request_with_authorization "Bearer a b") = bearer_error
  ∧ requests.GetAuthorizationBearer (request_with ∅ ∅) = bearer_error.
Proof.
  split; [|split].
  - apply (proj2 (proj2 (proj2 (proj2
      (C8_bearer_token (request_with_authorization "Basic my-secret-token")))))
      "Basic" "my-secret-token"); [reflexivity | discriminate].
  - apply (proj1 (proj2 (proj2 (proj2
      (C8_bearer_token (request_with_authorization "Bearer a b"))))));
      discriminate.
  - apply (proj1 (proj2 (proj2 (C8_bearer_token (request_with ∅ ∅)))));
      reflexivity.
Defined.

(** The cases of the package's test table. *)
Example bearer_test_table :
  requests.GetAuthorizationBearer
    (request_with_authorization "Bearer my-secret-token")
  = ("my-secret-token", None)
  ∧ requests.GetAuthorizationBearer
      (request_with_authorization "  Bearer   my-secret-token  ")
    = ("my-secret-token", None)
  ∧ requests.GetAuthorizationBearer
      (request_with_authorization "bearer my-secret-token")
    = ("my-secret-token", None)
  ∧ requests.GetAuthorizationBearer (request_with ∅ ∅) = bearer_error
  ∧ requests.GetAuthorizationBearer (request_with_authorization "Bearer")
    = bearer_error
  ∧ requests.GetAuthorizationBearer (request_with_authorization "Bearertoken")
    = bearer_error
  ∧ requests.GetAuthorizationBearer
      (request_with_authorization "Basic my-secret-token")
    = bearer_error.
Proof. repeat split; reflexivity. Qed.

(** ** The body *)

(** C7.  Once the body is read, the value of the [Content-Type] header
    decides: "application/json" runs the JSON decoder on the bytes,
    "application/xml" the XML decoder, and any other value -- also
    "application/json; charset=utf-8" -- gives the zero value and the
    unsupported-content-type error, which names the value received. *)
Theorem C7_ReadBody_dispatch {T : Type} (zero : T)
    (json_Unmarshal xml_Unmarshal : string → T → T * option error)
    (r : GoHttp.Request) (b : string) :
  GoHttp.ReadAll_Body r = (b, None) →
  let contentType := GoHttp.Header_Get (GoHttp.Header r) "Content-Type" in
  let decoded (res : T * option error) :=
    (fst res,
     (λ e, "error unmarshaling body to destination: " +:+ e
           +:+ ", contents: " +:+ b) <$> snd res) in
  (contentType = "application/json" →
   requests.ReadBody zero json_Unmarshal xml_Unmarshal r
   = decoded (json_Unmarshal b zero))
  ∧ (contentType = "application/xml" →
     requests.ReadBody zero json_Unmarshal xml_Unmarshal r
     = decoded (xml_Unmarshal b zero))
  ∧ (contentType ≠ "application/json" → contentType ≠ "application/xml" →
     requests.ReadBody zero json_Unmarshal xml_Unmarshal r
     = (zero, Some ("unsupported content type: " +:+ contentType)))
  ∧ (contentType = "application/json; charset=utf-8" →
     requests.ReadBody zero json_Unmarshal xml_Unmarshal r
     = (zero,
        Some "unsupported content type: application/json; charset=utf-8")).
Proof.
  intros Hb. cbv zeta. unfold requests.ReadBody. rewrite Hb.
  split; [|split; [|split]].
  - intros ->. simpl. by destruct (json_Unmarshal b zero) as [res [e|]].
  - intros ->. simpl. by destruct (xml_Unmarshal b zero) as [res [e|]].
  - intros Hj Hx. by rewrite !decide_False.
  - by intros ->.
Qed.

Lemma C7_ReadBody_dispatch_witness :
  requests.ReadBody 0 decode_integer decode_integer
    (request_with_body "application/json" "42") = (42, None)
  ∧ requests.ReadBody 0 decode_integer decode_integer
      (request_with_body "application/json; charset=utf-8" "42")
    = (0, Some "unsupported content type: application/json; charset=utf-8")
  ∧ requests.ReadBody 0 decode_integer decode_integer
      (request_with_body "text/plain" "42")
    = (0, Some "unsupported content type: text/plain").
Proof.
  split; [|split].
  - apply (proj1 (C7_ReadBody_dispatch 0 decode_integer decode_integer
                    (request_with_body "application/json" "42") "42" eq_refl)).
    reflexivity.
  - apply (proj2 (proj2 (proj2
      (C7_ReadBody_dispatch 0 decode_integer decode_integer
         (request_with_body "application/json; charset=utf-8" "42") "42"
         eq_refl)))).
    reflexivity.
  - apply (proj1 (proj2 (proj2
      (C7_ReadBody_dispatch 0 decode_integer decode_integer
         (request_with_body "text/plain" "42") "42" eq_refl))));
      discriminate.
Defined.

(** ** Package fileuploads *)

Section Uploads.
Import GoHttp GoOs fileuploads.

Lemma close_open_handle (w : World) (name : string) :
  close_handle (open_handle w name) name = w.
Proof.
  destruct w. unfold close_handle, open_handle, set_open_handles. simpl.
  by rewrite decide_True.
Qed.

Lemma ReadUploadedFile_found {U : Type} fieldName r
    (callback : @Callback U) options st fh :
  ParseMultipartForm_error r (MaxFileSize (options_in_force options)) = None →
  FormFile r fieldName = inl fh →
  ReadUploadedFile fieldName r callback options st
  = let opts := options_in_force options in
    let st1 := (open_handle (fst st) (stream_name fh), snd st) in
    if GoHttp.Size fh >? MaxFileSize opts then
      (Returned
         (Some ("file size of " +:+ GoFmt.Sprint_d (GoHttp.Size fh)
                +:+ " bytes exceeds the limit of "
                +:+ GoFmt.Sprint_d (MaxFileSize opts) +:+ " bytes")),
       (close_handle (fst st1) (stream_name fh), snd st1))
    else
      let '(out, st2) := callback (callback_data fh) opts st1 in
      (out, (close_handle (fst st2) (stream_name fh), snd st2)).
Proof.
  intros Hparse Hfile. unfold ReadUploadedFile, options_in_force in *.
  by rewrite Hparse, Hfile.
Qed.

End Uploads.

(** C5.  When the form parses and the field names a file, a declared
    size above the maximum makes [ReadUploadedFile] return the
    size-exceeded error, whose text holds the size and the limit and
    mentions "exceeds the limit"; the stream is closed, the state is
    the state before the call, and the result is the same whatever the
    callback is: the callback is not run.  A declared size equal to the
    maximum is not rejected: the result is that of the callback. *)
Theorem C5_size_limit {U : Type} (fieldName : string) (r : GoHttp.Request)
    (callback : @fileuploads.Callback U)
    (options : list fileuploads.UploadOption) (st : GoOs.World * U)
    (fh : GoHttp.FileHeader) :
  let opts := options_in_force options in
  GoHttp.ParseMultipartForm_error r (fileuploads.MaxFileSize opts) = None →
  GoHttp.FormFile r fieldName = inl fh →
  (GoHttp.Size fh > fileuploads.MaxFileSize opts →
   let msg :=
     "file size of " +:+ GoFmt.Sprint_d (GoHttp.Size fh)
     +:+ " bytes exceeds the limit of "
     +:+ GoFmt.Sprint_d (fileuploads.MaxFileSize opts) +:+ " bytes" in
   fileuploads.ReadUploadedFile fieldName r callback options st
   = (Returned (Some msg), st)
   ∧ GoStrings.Contains msg "exceeds the limit" = true
   ∧ ∀ callback' : @fileuploads.Callback U,
       fileuploads.ReadUploadedFile fieldName r callback' options st
       = fileuploads.ReadUploadedFile fieldName r callback options st)
  ∧ (GoHttp.Size fh = fileuploads.MaxFileSize opts →
     fileuploads.ReadUploadedFile fieldName r callback options st
     = let '(out, st2) :=
         callback (callback_data fh) opts
           (GoOs.open_handle (fst st) (fileuploads.stream_name fh), snd st) in
       (out,
        (GoOs.close_handle (fst st2) (fileuploads.stream_name fh), snd st2))).
Proof.
  cbv zeta. intros Hparse Hfile. split.
  - intros Hsize.
    assert (∀ cb : @fileuploads.Callback U,
              fileuploads.ReadUploadedFile fieldName r cb options st
              = (Returned
                   (Some ("file size of " +:+ GoFmt.Sprint_d (GoHttp.Size fh)
                          +:+ " bytes exceeds the limit of "
                          +:+ GoFmt.Sprint_d
                                (fileuploads.MaxFileSize
                                   (options_in_force options))
                          +:+ " bytes")), st)) as Hall.
    { intros cb. rewrite (ReadUploadedFile_found _ _ _ _ _ fh) by done.
      cbv zeta. destruct (Z.gtb_spec (GoHttp.Size fh)
        (fileuploads.MaxFileSize (options_in_force options))); [|lia].
      simpl. rewrite close_open_handle. by destruct st. }
    split; [apply Hall|]. split.
    + apply Contains_append_r, Contains_append_r, Contains_append_l.
      reflexivity.
    + intros cb. by rewrite !Hall.
  - intros Hsize. rewrite (ReadUploadedFile_found _ _ _ _ _ fh) by done.
    cbv zeta. destruct (Z.gtb_spec (GoHttp.Size fh)
      (fileuploads.MaxFileSize (options_in_force options))); [lia|done].
Qed.

Lemma C5_size_limit_witness :
  fileuploads.ReadUploadedFile "upload" example_upload telltale_callback
    [fileuploads.WithMaxFileSize 5] (example_world, ())
  = (Returned (Some "file size of 9 bytes exceeds the limit of 5 bytes"),
     (example_world, ()))
  ∧ fst (fileuploads.ReadUploadedFile "upload" example_upload
           telltale_callback [fileuploads.WithMaxFileSize 9]
           (example_world, ()))
    = Returned (Some "the callback was run").
Proof.
  split.
  - refine (proj1 (proj1 (C5_size_limit "upload" example_upload
                            telltale_callback [fileuploads.WithMaxFileSize 5]
                            (example_world, ()) example_part
                            eq_refl eq_refl) _)).
    reflexivity.
  - rewrite (proj2 (C5_size_limit "upload" example_upload
                      telltale_callback [fileuploads.WithMaxFileSize 9]
                      (example_world, ()) example_part
                      eq_refl eq_refl) eq_refl).
    reflexivity.
Defined.

(** ** The destination of an upload *)




(** A creation that fails leaves the world as it was. *)
Lemma Create_error (w w' : GoOs.World) (name : string) (e : error) :
  GoOs.Create w name = (w', inr e) → w' = w.
Proof. unfold GoOs.Create. repeat case_bool_decide; congruence. Qed.

Section UploadSteps.
Import GoHttp GoOs fileuploads.
Context (E : TemplateEngine).

(** The upload, once the form is parsed, the file found and within the
    size limit, the random string drawn and the template parsed: what
    is left is the execution of the template and what follows it. *)
Lemma UploadFileToDir_rendering fieldName r destDir template options w
    fh rs (tmpl : Template E) :
  let opts := options_in_force options in
  ParseMultipartForm_error r (MaxFileSize opts) = None →
  FormFile r fieldName = inl fh →
  GoHttp.Size fh ≤ MaxFileSize opts →
  randomString w (RandomStringSize opts) = Some rs →
  Parse E template = inl tmpl →
  UploadFileToDir E fieldName r destDir template options w
  = let w1 := open_handle w (stream_name fh) in
    let result := callback_data fh in
    let close w := close_handle w (stream_name fh) in
    match Execute E tmpl (template_data fh rs) with
    | (_, Some err) =>
        (Returned
           (result,
            Some ("error executing destination file name template: "
                  +:+ err)), w)
    | (destFileName, None) =>
        let finalPath := GoFilepath.Join destDir destFileName in
        if negb (GoStrings.HasPrefix finalPath (GoFilepath.Clean destDir))
        then
          (Returned
             (result,
              Some ("invalid destination file path attempted: "
                    +:+ destFileName)), w)
        else
          match Create w1 finalPath with
          | (_, inr err) =>
              (Returned
                 (result,
                  Some ("error creating file '" +:+ destFileName +:+ "': "
                        +:+ err)), w)
          | (w2, inl tempFile) =>
              match Copy w2 tempFile fh with
              | (w3, Some err) =>
                  (Returned
                     (result,
                      Some ("error copying uploaded file '"
                            +:+ Filename fh +:+ "' to temporary file '"
                            +:+ destFileName +:+ "': " +:+ err)),
                   close (close_handle (close_handle w3 (Name tempFile))
                            (Name tempFile)))
              | (w3, None) =>
                  let result :=
                    match Abs w3 (Name tempFile) with
                    | (absolutePath, None) =>
                        set_SavedFilePath result absolutePath
                    | (_, Some _) => result
                    end in
                  let result :=
                    set_Ext result (GoFilepath.Ext (Name tempFile)) in
                  let result := set_SavedFile result (Name tempFile) in
                  (Returned (result, None),
                   close (close_handle w3 (Name tempFile)))
              end
          end
    end.
Proof.
  cbv zeta. intros Hparse Hfile Hsize Hrs Htmpl. unfold UploadFileToDir.
  rewrite (ReadUploadedFile_found _ _ _ _ _ fh) by done. cbv zeta.
  destruct (Z.gtb_spec (GoHttp.Size fh)
              (MaxFileSize (options_in_force options))); [lia|].
  unfold upload_callback. cbn [fst snd info callback_data File].
  change (randomString (open_handle w (stream_name fh)))
    with (randomString w).
  rewrite Hrs, Htmpl.
  destruct (Execute E tmpl (template_data fh rs)) as [destFileName [err|]].
  { cbn [fst snd]. by rewrite close_open_handle. }
  destruct (negb _).
  { cbn [fst snd]. by rewrite close_open_handle. }
  destruct (Create _ _) as [w2 [tempFile|err]] eqn:Hc.
  - destruct (Copy w2 tempFile fh) as [w3 [err|]]; cbn [fst snd]; done.
  - apply Create_error in Hc as ->. cbn [fst snd].
    by rewrite close_open_handle.
Qed.

End UploadSteps.







(** ** Containment in the destination directory *)

(** C1 fails on the code.  With the destination directory "uploads" and
    the template "../uploads-evil/{{.baseFileName}}", the joined path is
    "uploads-evil/data.csv": it keeps the prefix "uploads", so the guard
    lets it pass, the file is created in the sibling directory, and the
    saved path that is returned is not inside the destination. *)
Lemma C1_upload_escapes_destination :
  let destDir := "uploads" in
  let upload :=
    fileuploads.UploadFileToDir GoTemplate.engine "upload" example_upload
      destDir "../uploads-evil/{{.baseFileName}}" [] example_world in
  GoStrings.HasPrefix (GoFilepath.Join destDir "../uploads-evil/data.csv")
    (GoFilepath.Clean destDir) = true
  ∧ (∃ saved,
       fst upload = Returned (saved, None)
       ∧ fileuploads.SavedFile saved = "uploads-evil/data.csv"
       ∧ fileuploads.SavedFilePath saved = "/srv/app/uploads-evil/data.csv"
       ∧ inside_dir example_world destDir (fileuploads.SavedFilePath saved)
         = false)
  ∧ GoOs.files (snd upload) !! ["srv"; "app"; "uploads-evil"; "data.csv"]
    = Some "col1,col2"
  ∧ inside_dir example_world destDir "uploads-evil/data.csv" = false.
Proof.
  cbv zeta. split; [reflexivity|]. split; [|split; reflexivity].
  eexists. split; [vm_compute; reflexivity|]. repeat split; reflexivity.
Qed.

(** The guard does hold what it tests: a path that passes has the
    cleaned destination as a prefix of its text. *)
Example guard_accepts_proper_child :
  inside_dir example_world "uploads-evil" "uploads-evil/data.csv" = true
  ∧ GoStrings.HasPrefix (GoFilepath.Join "uploads-evil" "data.csv")
      (GoFilepath.Clean "uploads-evil") = true
  ∧ GoStrings.HasPrefix (GoFilepath.Join "uploads-evil" "../data.csv")
      (GoFilepath.Clean "uploads-evil") = false.
Proof. repeat split; reflexivity. Qed.

(** ** The cases of the package's tests, run on the model *)

Example IsSuccessRange_test_table :
  map responses.IsSuccessRange [199; 200; 299; 300; 404; 500]
  = [false; true; true; false; false; false].
Proof. reflexivity. Qed.

Example GetFromRequest_test :
  requests.GetFromRequest table_floats requests.T_string
    extraction_test_request "string" = "form_string"
  ∧ requests.GetFromRequest table_floats requests.T_int
      extraction_test_request "int_path_only" = 789
  ∧ requests.GetFromRequest table_floats requests.T_int
      extraction_test_request "int" = 123
  ∧ requests.GetFromRequest table_floats requests.T_bool
      extraction_test_request "bool" = true
  ∧ requests.GetFromRequest table_floats requests.T_slice_string
      extraction_test_request "slice" = ["form_slice1"; "form_slice2"]
  ∧ requests.GetFromRequest table_floats requests.T_string
      extraction_test_request "nonexistent" = ""
  ∧ requests.GetFromRequest table_floats requests.T_int
      extraction_test_request "nonexistent" = 0.
Proof. repeat split; reflexivity. Qed.

Example GetStringListFromRequest_test :
  requests.GetStringListFromRequest
    (request_with {[ "list" := ["a,b,c"] ]} ∅) "list" ","
  = ["a"; "b"; "c"].
Proof. reflexivity. Qed.

Example ReadBody_test :
  requests.ReadBody 0 decode_integer decode_integer
    (request_with_body "application/xml" "30") = (30, None)
  ∧ snd (requests.ReadBody 0 decode_integer decode_integer
           (request_with_body "application/json" ""))
    = Some ("error unmarshaling body to destination: invalid character"
            +:+ ", contents: ")
  ∧ requests.ReadBody 0 decode_integer decode_integer
      (request_with_body "text/plain" "text content")
    = (0, Some "unsupported content type: text/plain").
Proof. repeat split; reflexivity. Qed.

Example ReadUploadedFile_no_file_test :
  fileuploads.ReadUploadedFile "correctfield" example_upload telltale_callback
    [] (example_world, ())
  = (Returned
       (Some "error retrieving file info from form: http: no such file"),
     (example_world, ())).
Proof. reflexivity. Qed.

Example UploadFileToDir_success_test :
  let upload :=
    fileuploads.UploadFileToDir GoTemplate.engine "upload" example_upload
      "uploads-evil" "file-{{.randomString}}-{{.baseFileName}}"
      [fileuploads.WithRandomStringSize 5] example_world in
  ∃ saved,
    fst upload = Returned (saved, None)
    ∧ fileuploads.SavedFilePath saved
      = "/srv/app/uploads-evil/file-dkry5-data.csv"
    ∧ fileuploads.Ext saved = ".csv"
    ∧ inside_dir example_world "uploads-evil" (fileuploads.SavedFilePath saved)
      = true
    ∧ GoOs.files (snd upload)
      !! GoOs.resolve example_world (fileuploads.SavedFilePath saved)
      = Some "col1,col2"
    ∧ GoOs.open_handles (snd upload) = [].
Proof.
  cbv zeta. eexists. split; [vm_compute; reflexivity|].
  repeat split; reflexivity.
Qed.

(** * Further properties of the packages *)

(** ** Package responses *)

Lemma Json_status_writes w status value :
  responses.status_writes (snd (responses.Json w status value))
  = responses.status_writes w
    ++ match GoJson.Marshal value with
       | (_, Some _) => [500]
       | (_, None) => if decide (299 < status) then [status] else []
       end.
Proof.
  rewrite Json_cases. destruct (GoJson.Marshal value) as [b [e|]].
  - cbn [snd]. by rewrite status_writes_app.
  - repeat case_decide; try lia; cbn [snd];
      rewrite !status_writes_app; simpl; by rewrite ?app_nil_r.
Qed.



(** X2.  The wrappers with a fixed status: the wrappers for 400, 401 and
    500 write that status, and the wrappers for 200 write none.  For the
    JSON wrappers this is so when the value serializes. *)
Theorem X2_fixed_status_wrappers
    (w : responses.ResponseWriter) (value : any) :
  let old := responses.status_writes w in
  responses.status_writes (snd (responses.TextOK w value)) = old
  ∧ responses.status_writes (snd (responses.HtmlOK w value)) = old
  ∧ responses.status_writes (snd (responses.TextBadRequest w value))
    = old ++ [400]
  ∧ responses.status_writes (snd (responses.TextUnauthorized w value))
    = old ++ [401]
  ∧ responses.status_writes (snd (responses.TextInternalServerError w value))
    = old ++ [500]
  ∧ (snd (GoJson.Marshal value) = None →
     responses.status_writes (snd (responses.JsonOK w value)) = old
     ∧ responses.status_writes (snd (responses.JsonBadRequest w value))
       = old ++ [400]
     ∧ responses.status_writes (snd (responses.JsonUnauthorized w value))
       = old ++ [401]
     ∧ responses.status_writes
         (snd (responses.JsonInternalServerError w value))
       = old ++ [500]).
Proof.
  cbv zeta.
  unfold responses.TextOK, responses.HtmlOK, responses.TextBadRequest,
    responses.TextUnauthorized, responses.TextInternalServerError,
    responses.Text, responses.Html.
  rewrite !write_status_writes. simpl. rewrite !app_nil_r.
  repeat (split; [done|]). intros Hm.
  unfold responses.JsonOK, responses.JsonBadRequest,
    responses.JsonUnauthorized, responses.JsonInternalServerError.
  rewrite !Json_status_writes.
  destruct (GoJson.Marshal value) as [b [e|]]; [done|]. simpl.
  by rewrite app_nil_r.
Qed.

Lemma X2_fixed_status_wrappers_witness :
  responses.status_writes
    (snd (responses.JsonUnauthorized [] (AnyString "no"))) = [401].
Proof.
  refine (proj1 (proj2 (proj2 (proj2 (proj2 (proj2 (proj2 (proj2
    (X2_fixed_status_wrappers [] (AnyString "no")))))) _)))).
  reflexivity.
Defined.

(** X3.  No writer writes a status of the success range explicitly:
    every status that a call adds to the log is outside 200..299. *)
Theorem X3_no_success_status_written
    (w : responses.ResponseWriter) (status : Z) (value : any) :
  let added (result : Outcome unit * responses.ResponseWriter) :=
    ∃ statuses : list Z,
      responses.status_writes (snd result)
      = responses.status_writes w ++ statuses
      ∧ Forall (λ s, responses.IsSuccessRange s = false) statuses in
  added (responses.Text w status value)
  ∧ added (responses.Html w status value)
  ∧ added (responses.Json w status value)
  ∧ (responses.IsSuccessRange status = true →
     responses.status_writes (snd (responses.Text w status value))
     = responses.status_writes w
     ∧ responses.status_writes (snd (responses.Html w status value))
       = responses.status_writes w).
Proof.
  cbv zeta.
  assert (∀ s, 299 < s → responses.IsSuccessRange s = false) as Hout.
  { intros s Hs. unfold responses.IsSuccessRange.
    apply andb_false_iff. right. by apply Z.ltb_ge; lia. }
  assert (∀ ct, ∃ statuses : list Z,
            responses.status_writes (snd (responses.write w ct status value))
            = responses.status_writes w ++ statuses
            ∧ Forall (λ s, responses.IsSuccessRange s = false) statuses)
    as Hwrite.
  { intros ct. rewrite write_status_writes. case_decide.
    - exists [status]. split; [done|]. repeat constructor. by apply Hout.
    - exists []. split; [done|]. constructor. }
  split; [apply Hwrite|]. split; [apply Hwrite|]. split.
  - rewrite Json_status_writes. eexists. split; [done|].
    destruct (GoJson.Marshal value) as [b [e|]]; [by repeat constructor|].
    case_decide; repeat constructor. by apply Hout.
  - intros Hs. unfold responses.IsSuccessRange in Hs.
    apply andb_true_iff in Hs as [_ Hs%Z.ltb_lt].
    unfold responses.Text, responses.Html. rewrite !write_status_writes.
    rewrite decide_False by lia. by rewrite app_nil_r.
Qed.

Lemma X3_no_success_status_written_witness :
  responses.status_writes (snd (responses.Html [] 204 (AnyString ""))) = [].
Proof.
  refine (proj2 (proj2 (proj2 (proj2
    (X3_no_success_status_written [] 204 (AnyString "")))) _)).
  reflexivity.
Defined.

Lemma append_empty_r (s : string) : s +:+ "" = s.
Proof.
  induction s as [|a s IH]; [done|].
  change (String a s +:+ "") with (String a (s +:+ "")). by rewrite IH.
Qed.




(** ** Package requests *)

Lemma getInt_range (r : GoHttp.Request) (name : string) (bits : Z) :
  1 ≤ bits →
  - 2 ^ (bits - 1) ≤ requests.getInt r name bits < 2 ^ (bits - 1).
Proof.
  intros Hb. assert (0 < 2 ^ (bits - 1)) by (apply Z.pow_pos_nonneg; lia).
  unfold requests.getInt.
  destruct (GoStrconv.ParseInt (GoHttp.FormValue r name) bits)
    as [x [e|]] eqn:Hf.
  - destruct (GoStrconv.ParseInt (GoHttp.PathValue r name) bits)
      as [y [e'|]] eqn:Hp; [lia|].
    by apply (ParseInt_range (GoHttp.PathValue r name)).
  - by apply (ParseInt_range (GoHttp.FormValue r name)).
Qed.

Lemma getUint_range (r : GoHttp.Request) (name : string) (bits : Z) :
  0 ≤ bits → 0 ≤ requests.getUint r name bits < 2 ^ bits.
Proof.
  intros Hb. assert (0 < 2 ^ bits) by (apply Z.pow_pos_nonneg; lia).
  unfold requests.getUint.
  destruct (GoStrconv.ParseUint (GoHttp.FormValue r name) bits)
    as [x [e|]] eqn:Hf.
  - destruct (GoStrconv.ParseUint (GoHttp.PathValue r name) bits)
      as [y [e'|]] eqn:Hp; [lia|].
    by apply (ParseUint_range (GoHttp.PathValue r name)).
  - by apply (ParseUint_range (GoHttp.FormValue r name)).
Qed.

(** X5.  A parameter that is bound neither in the form nor in the path
    gives the zero value of the type for each of the ten scalar types,
    and a sequence without entries for each of the nine sequence
    types.  (The float parser is to reject the empty string, as
    [strconv.ParseFloat] does.) *)
Theorem X5_absent_parameter_gives_zero (fm : FloatModel)
    (r : GoHttp.Request) (name : string) (t : requests.RequestTypes) :
  (∀ size, snd (ParseFloat fm "" size) ≠ None) →
  GoHttp.Form r !! name = None →
  GoHttp.PathValues r !! name = None →
  if is_sequence t then
    entry_count fm t (requests.GetFromRequest fm t r name) = Some 0%nat
  else
    requests.zero_value fm t = Some (requests.GetFromRequest fm t r name).
Proof.
  intros Hfloat Hform Hpath.
  assert (GoHttp.Form_index r name = []) as Hidx.
  { unfold GoHttp.Form_index. by rewrite Hform. }
  assert (GoHttp.FormValue r name = "") as Hfv.
  { unfold GoHttp.FormValue. by rewrite Hidx. }
  assert (GoHttp.PathValue r name = "") as Hpv.
  { unfold GoHttp.PathValue. by rewrite Hpath. }
  assert (∀ size, requests.getFloat fm r name size = float64_zero fm) as Hgf.
  { intros size. unfold requests.getFloat. rewrite Hfv, Hpv.
    specialize (Hfloat size).
    by destruct (ParseFloat fm "" size) as [x [e|]]. }
  destruct t; simpl;
    unfold requests.getInt, requests.getUint, requests.getIntSlice,
      requests.getUintSlice, requests.getFloatSlice;
    rewrite ?Hgf, ?Hfv, ?Hpv, ?Hidx; reflexivity.
Qed.

Lemma X5_absent_parameter_gives_zero_witness :
  requests.GetFromRequest table_floats requests.T_uint32
    extraction_test_request "nonexistent" = 0
  ∧ requests.GetFromRequest table_floats requests.T_float64
      extraction_test_request "nonexistent" = Qmake 0 1
  ∧ length (requests.GetFromRequest table_floats requests.T_slice_int
              extraction_test_request "nonexistent") = 0%nat.
Proof.
  split; [|split].
  - apply (inj Some). symmetry.
    apply (X5_absent_parameter_gives_zero table_floats
             extraction_test_request "nonexistent" requests.T_uint32);
      [intros size; vm_compute; discriminate | reflexivity | reflexivity].
  - apply (inj Some). symmetry.
    apply (X5_absent_parameter_gives_zero table_floats
             extraction_test_request "nonexistent" requests.T_float64);
      [intros size; vm_compute; discriminate | reflexivity | reflexivity].
  - apply (inj Some).
    apply (X5_absent_parameter_gives_zero table_floats
             extraction_test_request "nonexistent" requests.T_slice_int);
      [intros size; vm_compute; discriminate | reflexivity | reflexivity].
Defined.

(** X6.  The conversions to the 32-bit types lose nothing: the number
    is parsed at 32 bits, so that the [int32] and the [uint32]
    returned, and each entry of the [[]int32] and of the [[]uint32]
    returned, is the number the helper parsed, not a wrapped one.  An
    [int32] or [uint32] returned is thus zero or the very number that
    the parser read, at 32 bits, from the form value or from the path
    value: a text that is out of the range of 32 bits is never
    returned as another number.  ([int] and [uint], whose width
    depends on the target, are left out.) *)
Theorem X6_narrowing_loses_nothing (fm : FloatModel) (r : GoHttp.Request)
    (name : string) :
  let read_by (parse : string → Z * option GoStrconv.NumError) (v : Z) :=
    v = 0
    ∨ parse (GoHttp.FormValue r name) = (v, None)
    ∨ parse (GoHttp.PathValue r name) = (v, None) in
  requests.GetFromRequest fm requests.T_int32 r name
  = requests.getInt r name 32
  ∧ read_by (λ s, GoStrconv.ParseInt s 32)
      (requests.GetFromRequest fm requests.T_int32 r name)
  ∧ requests.GetFromRequest fm requests.T_uint32 r name
    = requests.getUint r name 32
  ∧ read_by (λ s, GoStrconv.ParseUint s 32)
      (requests.GetFromRequest fm requests.T_uint32 r name)
  ∧ requests.GetFromRequest fm requests.T_slice_int32 r name
    = requests.getIntSlice r name 32
  ∧ requests.GetFromRequest fm requests.T_slice_uint32 r name
    = requests.getUintSlice r name 32.
Proof.
  cbv zeta.
  pose proof (getInt_range r name 32 ltac:(lia)) as H32.
  pose proof (getUint_range r name 32 ltac:(lia)) as U32.
  cbn [requests.GetFromRequest].
  rewrite (int_cast_id 32), (uint_cast_id 32) by (done || lia).
  rewrite !getIntSlice_spec, !getUintSlice_spec.
  rewrite map_int_cast_parseable, map_uint_cast_parseable by lia.
  split; [done|]. split.
  { unfold requests.getInt.
    destruct (GoStrconv.ParseInt (GoHttp.FormValue r name) 32)
      as [x [e|]] eqn:Hf; [|by right; left].
    destruct (GoStrconv.ParseInt (GoHttp.PathValue r name) 32)
      as [y [e'|]] eqn:Hp; [by left|by right; right]. }
  split; [done|]. split; [|done].
  unfold requests.getUint.
  destruct (GoStrconv.ParseUint (GoHttp.FormValue r name) 32)
    as [x [e|]] eqn:Hf; [|by right; left].
  destruct (GoStrconv.ParseUint (GoHttp.PathValue r name) 32)
    as [y [e'|]] eqn:Hp; [by left|by right; right].
Qed.

Lemma parseable_entries_length {A : Type}
    (parse : string → A * option GoStrconv.NumError) (values : list string) :
  (length (parseable_entries parse values) ≤ length values)%nat.
Proof.
  rewrite parseable_entries_sublist, length_map. apply length_filter.
Qed.

(** X7.  An extracted sequence of integers is never longer than the
    list of values bound to the name, and each of its entries is within
    the range of the element type. *)
Theorem X7_integer_sequences_bounded (fm : FloatModel) (r : GoHttp.Request)
    (name : string) :
  let n := length (GoHttp.Form_index r name) in
  let bounded (lo hi : Z) (l : list Z) :=
    (length l ≤ n)%nat ∧ Forall (λ v, lo ≤ v < hi) l in
  bounded (- 2 ^ 63) (2 ^ 63)
    (requests.GetFromRequest fm requests.T_slice_int r name)
  ∧ bounded (- 2 ^ 31) (2 ^ 31)
      (requests.GetFromRequest fm requests.T_slice_int32 r name)
  ∧ bounded (- 2 ^ 63) (2 ^ 63)
      (requests.GetFromRequest fm requests.T_slice_int64 r name)
  ∧ bounded 0 (2 ^ 64)
      (requests.GetFromRequest fm requests.T_slice_uint r name)
  ∧ bounded 0 (2 ^ 32)
      (requests.GetFromRequest fm requests.T_slice_uint32 r name)
  ∧ bounded 0 (2 ^ 64)
      (requests.GetFromRequest fm requests.T_slice_uint64 r name).
Proof.
  cbv zeta. simpl.
  rewrite !getIntSlice_spec, !getUintSlice_spec.
  rewrite !map_int_cast_parseable, !map_uint_cast_parseable by lia.
  repeat split;
    first [ apply parseable_entries_length
          | apply parseable_entries_Forall; intros v x Hp;
            first [ by apply (ParseInt_range v 64 x ltac:(lia))
                  | by apply (ParseInt_range v 32 x ltac:(lia))
                  | by apply (ParseUint_range v 64 x ltac:(lia))
                  | by apply (ParseUint_range v 32 x ltac:(lia)) ] ].
Qed.

(** ** Runes and fields *)

Lemma DecodeRune_width (c : ascii) (rest : string) :
  (1 ≤ snd (GoUtf8.DecodeRuneInString (String c rest))
   ≤ String.length (String c rest))%nat.
Proof.
  unfold GoUtf8.DecodeRuneInString.
  repeat match goal with
         | |- context [if ?b then _ else _] => destruct b eqn:?
         | |- context [match ?s with "" => _ | String _ _ => _ end] =>
             destruct s
         end; simpl in *; try lia.
Qed.

Lemma DecodeRune_ascii (c : ascii) (rest : string) :
  byte_val c < 128 →
  GoUtf8.DecodeRuneInString (String c rest) = (byte_val c, 1%nat).
Proof.
  intros Hc. unfold GoUtf8.DecodeRuneInString.
  by destruct (Z.ltb_spec (byte_val c) 128); [|lia].
Qed.

Lemma DecodeRune_continuation (c : ascii) (rest : string) :
  continuation (snd (GoUtf8.DecodeRuneInString (String c rest)) - 1) rest.
Proof.
  unfold GoUtf8.DecodeRuneInString.
  repeat match goal with
         | |- context [if ?b then _ else _] => destruct b eqn:?
         | |- context [match ?s with "" => _ | String _ _ => _ end] =>
             destruct s
         end; simpl in *; try done;
    repeat match goal with
           | H : (_ || _) = false |- _ => apply orb_false_iff in H as [? ?]
           | H : (_ <? _) = false |- _ => apply Z.ltb_ge in H
           | H : (_ <? _) = true |- _ => apply Z.ltb_lt in H
           | H : (_ =? _) = false |- _ => apply Z.eqb_neq in H
           | H : (_ =? _) = true |- _ => apply Z.eqb_eq in H
           end;
    repeat split; lia.
Qed.

Lemma ascii_space_IsSpace (c : ascii) :
  ascii_space c = true → GoStrings.IsSpace (byte_val c) = true.
Proof.
  unfold ascii_space, byte_in, GoStrings.IsSpace.
  intros [[H1 H2]%andb_true_iff | H]%orb_true_iff.
  - by rewrite H1, H2.
  - rewrite H. by rewrite !orb_true_r.
Qed.

Lemma ascii_space_low (c : ascii) : ascii_space c = true → byte_val c < 128.
Proof.
  unfold ascii_space, byte_in.
  intros [[_ H%Z.leb_le]%andb_true_iff | H%Z.eqb_eq]%orb_true_iff; lia.
Qed.

Lemma is_token_of_rev (cur : list ascii) :
  cur ≠ [] → Forall (λ c, ascii_space c = false) cur →
  is_token (string_of_list_ascii (rev cur)).
Proof.
  intros Hne Hall. split.
  - intros Heq. apply (f_equal list_ascii_of_string) in Heq.
    rewrite list_ascii_of_string_of_list_ascii in Heq. simpl in Heq.
    apply (f_equal (@rev ascii)) in Heq. rewrite rev_involutive in Heq.
    done.
  - rewrite list_ascii_of_string_of_list_ascii. by apply Forall_rev.
Qed.

Lemma Fields_go_tokens (s : string) (skip : nat) (sp : bool)
    (cur : list ascii) :
  continuation skip s →
  Forall (λ c, ascii_space c = false) cur →
  Forall is_token (GoStrings.Fields_go s skip sp cur).
Proof.
  revert skip sp cur.
  induction s as [|c s IH]; intros skip sp cur Hcont Hcur.
  - cbn [GoStrings.Fields_go]. destruct cur as [|a cur]; [constructor|].
    constructor; [|constructor]. by apply is_token_of_rev.
  - cbn [GoStrings.Fields_go]. destruct skip as [|k].
    + pose proof (DecodeRune_continuation c s) as Hk.
      destruct (GoUtf8.DecodeRuneInString (String c s)) as [r w] eqn:Hd.
      simpl in Hk.
      destruct (GoStrings.IsSpace r) eqn:Hsp.
      * destruct cur as [|a cur]; [by apply IH|].
        constructor; [by apply is_token_of_rev|]. by apply IH.
      * apply IH; [done|]. constructor; [|done].
        destruct (ascii_space c) eqn:Hc; [|done].
        rewrite (DecodeRune_ascii c s (ascii_space_low c Hc)) in Hd.
        injection Hd as <- <-.
        by rewrite (ascii_space_IsSpace c Hc) in Hsp.
    + destruct Hcont as [Hc Hcont]. destruct sp; [by apply IH|].
      apply IH; [done|]. constructor; [|done].
      destruct (ascii_space c) eqn:Hs; [|done].
      apply ascii_space_low in Hs. lia.
Qed.

Lemma Fields_tokens (s : string) : Forall is_token (GoStrings.Fields s).
Proof. by apply Fields_go_tokens. Qed.

(** X8.  The token the bearer helper returns is never empty and holds no
    ASCII white space; when the helper returns an error, the token is
    the empty string. *)
Theorem X8_bearer_token_shape (r : GoHttp.Request) :
  (snd (requests.GetAuthorizationBearer r) = None →
   is_token (fst (requests.GetAuthorizationBearer r)))
  ∧ (snd (requests.GetAuthorizationBearer r) ≠ None →
     fst (requests.GetAuthorizationBearer r) = "").
Proof.
  unfold requests.GetAuthorizationBearer.
  pose proof (Fields_tokens
                (GoHttp.Header_Get (GoHttp.Header r) "Authorization")) as Ht.
  destruct (GoStrings.Fields _) as [|a [|b [|c l]]]; simpl; try done.
  destruct (bool_decide _); simpl; [done|].
  split; [|done]. intros _.
  by apply Forall_cons in Ht as [_ [Hb _]%Forall_cons].
Qed.

Lemma X8_bearer_token_shape_witness :
  is_token
    (fst (requests.GetAuthorizationBearer
            (request_with_authorization "  Bearer   my-secret-token  ")))
  ∧ fst (requests.GetAuthorizationBearer
           (request_with_authorization "Basic my-secret-token")) = "".
Proof.
  split.
  - apply (proj1 (X8_bearer_token_shape
                    (request_with_authorization
                       "  Bearer   my-secret-token  "))).
    reflexivity.
  - apply (proj2 (X8_bearer_token_shape
                    (request_with_authorization "Basic my-secret-token"))).
    discriminate.
Defined.

(** ** Splitting and joining *)

Lemma string_of_snoc (l : list ascii) (c : ascii) (s : string) :
  string_of_list_ascii (l ++ [c]) +:+ s
  = string_of_list_ascii l +:+ String c s.
Proof.
  induction l as [|a l IH]; [done|].
  change (string_of_list_ascii ((a :: l) ++ [c]) +:+ s)
    with (String a (string_of_list_ascii (l ++ [c]) +:+ s)).
  by rewrite IH.
Qed.

Lemma prefix_split (p s : string) :
  String.prefix p s = true → ∃ rest, s = p +:+ rest.
Proof.
  revert s. induction p as [|a p IH]; intros s.
  - intros _. by exists s.
  - destruct s as [|b s]; simpl; [done|].
    destruct (ascii_dec a b) as [->|]; [|done].
    intros [rest ->]%IH. by exists rest.
Qed.

Lemma prefix_of_empty (p : string) : p ≠ "" → String.prefix p "" = false.
Proof. by destruct p. Qed.

Lemma split_go_skip (u rest sep : string) (cur : list ascii) :
  GoStrings.split_go (u +:+ rest) sep (String.length u) cur
  = GoStrings.split_go rest sep 0 cur.
Proof.
  induction u as [|a u IH]; [done|].
  change (String a u +:+ rest) with (String a (u +:+ rest)).
  change (String.length (String a u)) with (S (String.length u)).
  destruct rest; simpl; apply IH.
Qed.

Lemma split_go_not_nil (s sep : string) (skip : nat) (cur : list ascii) :
  GoStrings.split_go s sep skip cur ≠ [].
Proof.
  revert skip cur. induction s as [|c s IH]; intros skip cur.
  - destruct skip; cbn [GoStrings.split_go];
      [by destruct (String.prefix sep "")|done].
  - destruct skip; cbn [GoStrings.split_go]; [|apply IH].
    destruct (String.prefix sep (String c s)); [done|apply IH].
Qed.

Lemma Join_cons (a : string) (l : list string) (sep : string) :
  l ≠ [] → GoStrings.Join (a :: l) sep = a +:+ sep +:+ GoStrings.Join l sep.
Proof. by destruct l. Qed.

Lemma Join_cons_empty_sep (a : string) (l : list string) :
  GoStrings.Join (a :: l) "" = a +:+ GoStrings.Join l "".
Proof. destruct l; simpl; [by rewrite append_empty_r|done]. Qed.

Lemma length_append (a b : string) :
  String.length (a +:+ b) = (String.length a + String.length b)%nat.
Proof.
  induction a as [|x a IH]; [done|].
  change (String.length (String x a +:+ b))
    with (S (String.length (a +:+ b))).
  rewrite IH. done.
Qed.

Lemma Join_split_go (sep : string) (n : nat) :
  sep ≠ "" →
  ∀ (s : string) (cur : list ascii),
    (String.length s ≤ n)%nat →
    GoStrings.Join (GoStrings.split_go s sep 0 cur) sep
    = string_of_list_ascii (rev cur) +:+ s.
Proof.
  intros Hsep. induction n as [|n IH]; intros s cur Hlen.
  - destruct s; [|simpl in Hlen; lia]. cbn [GoStrings.split_go].
    rewrite prefix_of_empty by done. simpl. by rewrite append_empty_r.
  - destruct s as [|c s].
    { cbn [GoStrings.split_go]. rewrite prefix_of_empty by done. simpl.
      by rewrite append_empty_r. }
    cbn [GoStrings.split_go].
    destruct (String.prefix sep (String c s)) eqn:Hp.
    + apply prefix_split in Hp as [rest Hrest].
      destruct sep as [|a sep']; [done|].
      injection Hrest as -> ->.
      change (String.length (String a sep') - 1)%nat
        with (S (String.length sep') - 1)%nat.
      replace (S (String.length sep') - 1)%nat with (String.length sep')
        by lia.
      rewrite split_go_skip.
      rewrite Join_cons by apply split_go_not_nil.
      rewrite IH.
      * reflexivity.
      * simpl in Hlen. rewrite length_append in Hlen. lia.
    + rewrite IH by (simpl in Hlen; lia).
      simpl. apply string_of_snoc.
Qed.

Lemma Join_explode_go (s : string) :
  ∀ (skip : nat) (cur : list ascii),
    (skip ≤ String.length s)%nat →
    GoStrings.Join (GoStrings.explode_go s skip cur) ""
    = (if skip is O then "" else string_of_list_ascii (rev cur)) +:+ s.
Proof.
  induction s as [|c s IH]; intros skip cur Hlen.
  - simpl in Hlen. by replace skip with 0%nat by lia.
  - cbn [GoStrings.explode_go]. destruct skip as [|[|k]].
    + pose proof (DecodeRune_width c s) as Hw.
      destruct (GoUtf8.DecodeRuneInString (String c s)) as [r size].
      simpl in Hw. destruct (Nat.leb_spec size 1).
      * rewrite Join_cons_empty_sep, IH by lia. done.
      * rewrite IH by lia. by destruct (size - 1)%nat eqn:?; [lia|].
    + rewrite Join_cons_empty_sep, IH by lia. simpl. apply string_of_snoc.
    + rewrite IH by (simpl in Hlen; lia). simpl. apply string_of_snoc.
Qed.

Lemma Join_Split (s sep : string) :
  GoStrings.Join (GoStrings.Split s sep) sep = s.
Proof.
  unfold GoStrings.Split. case_decide as Hsep.
  - subst sep. unfold GoStrings.explode.
    by rewrite Join_explode_go by lia.
  - by rewrite (Join_split_go sep (String.length s)).
Qed.

(** X9.  Joining the pieces of the delimited list with the separator
    gives back the raw value, for every separator: nothing is trimmed
    and no piece is dropped.  With a separator that is not empty there
    is at least one piece. *)
Theorem X9_split_then_join (r : GoHttp.Request) (name seperator : string) :
  GoStrings.Join (requests.GetStringListFromRequest r name seperator)
    seperator
  = GoHttp.FormValue r name
  ∧ (seperator ≠ "" →
     requests.GetStringListFromRequest r name seperator ≠ []).
Proof.
  unfold requests.GetStringListFromRequest. split; [apply Join_Split|].
  intros Hsep. unfold GoStrings.Split. rewrite decide_False by done.
  apply split_go_not_nil.
Qed.

Lemma X9_split_then_join_witness :
  requests.GetStringListFromRequest
    (request_with {[ "list" := [",a,,b "] ]} ∅) "list" "," ≠ [].
Proof.
  apply (proj2 (X9_split_then_join
                  (request_with {[ "list" := [",a,,b "] ]} ∅) "list" ",")).
  discriminate.
Defined.

(** ** The body *)

(** X10.  [ReadBody] returns no error only when the content type is
    "application/json" or "application/xml" and the decoder of that type
    accepted the bytes read; the value is then the one the decoder
    filled.  When the body cannot be read, the result is the zero value
    and the wrapped read error, whatever the content type says. *)
Theorem X10_ReadBody_outcomes {T : Type} (zero : T)
    (json_Unmarshal xml_Unmarshal : string → T → T * option error)
    (r : GoHttp.Request) :
  (∀ v, requests.ReadBody zero json_Unmarshal xml_Unmarshal r = (v, None) →
        ∃ b, GoHttp.ReadAll_Body r = (b, None)
             ∧ ((GoHttp.Header_Get (GoHttp.Header r) "Content-Type"
                 = "application/json"
                 ∧ json_Unmarshal b zero = (v, None))
                ∨ (GoHttp.Header_Get (GoHttp.Header r) "Content-Type"
                   = "application/xml"
                   ∧ xml_Unmarshal b zero = (v, None))))
  ∧ (∀ b e, GoHttp.ReadAll_Body r = (b, Some e) →
            requests.ReadBody zero json_Unmarshal xml_Unmarshal r
            = (zero, Some ("error reading request body: " +:+ e))).
Proof.
  unfold requests.ReadBody. split.
  - intros v. destruct (GoHttp.ReadAll_Body r) as [b [e|]]; [done|].
    intros H. exists b. split; [done|].
    repeat case_decide.
    + left. split; [done|].
      destruct (json_Unmarshal b zero) as [res [e|]]; [done|].
      by injection H as ->.
    + right. split; [done|].
      destruct (xml_Unmarshal b zero) as [res [e|]]; [done|].
      by injection H as ->.
    + done.
  - by intros b e ->.
Qed.

Lemma X10_ReadBody_outcomes_witness :
  ∃ b, GoHttp.ReadAll_Body (request_with_body "application/xml" "30")
       = (b, None)
       ∧ ((GoHttp.Header_Get
             (GoHttp.Header (request_with_body "application/xml" "30"))
             "Content-Type" = "application/json"
           ∧ decode_integer b 0 = (30, None))
          ∨ (GoHttp.Header_Get
               (GoHttp.Header (request_with_body "application/xml" "30"))
               "Content-Type" = "application/xml"
             ∧ decode_integer b 0 = (30, None))).
Proof.
  apply (proj1 (X10_ReadBody_outcomes 0 decode_integer decode_integer
                  (request_with_body "application/xml" "30")) 30).
  reflexivity.
Defined.

(** ** Package fileuploads: options and the random string *)

(** X11.  The defaults are 10 MiB and 10 characters.  An option given
    last overrides the same option given before it, and leaves the
    other field as the options before it made it. *)
Theorem X11_upload_options (options : list fileuploads.UploadOption)
    (size : Z) :
  options_in_force [] = {| fileuploads.MaxFileSize := 10485760;
                           fileuploads.RandomStringSize := 10 |}
  ∧ fileuploads.MaxFileSize
      (options_in_force (options ++ [fileuploads.WithMaxFileSize size]))
    = size
  ∧ fileuploads.RandomStringSize
      (options_in_force (options ++ [fileuploads.WithMaxFileSize size]))
    = fileuploads.RandomStringSize (options_in_force options)
  ∧ fileuploads.RandomStringSize
      (options_in_force (options ++ [fileuploads.WithRandomStringSize size]))
    = size
  ∧ fileuploads.MaxFileSize
      (options_in_force (options ++ [fileuploads.WithRandomStringSize size]))
    = fileuploads.MaxFileSize (options_in_force options).
Proof.
  unfold options_in_force. rewrite !fold_left_app. by repeat split.
Qed.

Lemma length_string_of_list_ascii (l : list ascii) :
  String.length (string_of_list_ascii l) = length l.
Proof. induction l as [|a l IH]; simpl; congruence. Qed.

Lemma get_in_string (i : nat) (s : string) (c : ascii) :
  String.get i s = Some c → c ∈ list_ascii_of_string s.
Proof.
  revert i. induction s as [|a s IH]; intros i; [done|].
  destruct i as [|i]; simpl.
  - intros [= ->]. left.
  - intros H. right. by apply (IH i).
Qed.

(** X12.  For a length that is not negative, [randomString] gives a
    string of exactly that many bytes, each of them a lower-case letter
    or a digit, whatever the generator draws; for a negative length it
    panics. *)
Theorem X12_randomString (w : GoOs.World) (length : Z) :
  (0 ≤ length →
   ∃ s, fileuploads.randomString w length = Some s
        ∧ String.length s = Z.to_nat length
        ∧ Forall (λ c, lower_alphanumeric c = true)
            (list_ascii_of_string s))
  ∧ (length < 0 → fileuploads.randomString w length = None).
Proof.
  unfold fileuploads.randomString. split; intros Hl.
  - destruct (Z.ltb_spec length 0); [lia|]. eexists. split; [done|]. split.
    + by rewrite length_string_of_list_ascii, length_map, length_seq.
    + rewrite list_ascii_of_string_of_list_ascii.
      apply Forall_forall. intros c Hc.
      apply list_elem_of_In, in_map_iff in Hc as [i [<- _]].
      assert (Forall (λ c, lower_alphanumeric c = true)
                (list_ascii_of_string fileuploads.characters)) as Hall.
      { vm_compute. repeat constructor. }
      rewrite Forall_forall in Hall. apply Hall.
      destruct (String.get _ fileuploads.characters) as [c|] eqn:Hget.
      * by apply get_in_string in Hget.
      * simpl. vm_compute. left.
  - by destruct (Z.ltb_spec length 0); [|lia].
Qed.

Lemma X12_randomString_witness :
  (∃ s, fileuploads.randomString example_world 5 = Some s
        ∧ String.length s = Z.to_nat 5
        ∧ Forall (λ c, lower_alphanumeric c = true)
            (list_ascii_of_string s))
  ∧ fileuploads.randomString example_world (-1) = None.
Proof.
  split.
  - apply (proj1 (X12_randomString example_world 5)). lia.
  - apply (proj2 (X12_randomString example_world (-1))). lia.
Defined.

(** ** Package fileuploads: reading the uploaded file *)

(** X13.  When the form does not parse, or parses and holds no file
    under the field name, the upload returns the zero [FileUpload]
    with the wrapped error, and the world is the world before the
    call: nothing was opened, created or written. *)
Theorem X13_upload_without_file (E : TemplateEngine) (fieldName : string)
    (r : GoHttp.Request) (destDir template : string)
    (options : list fileuploads.UploadOption) (w : GoOs.World) :
  let opts := options_in_force options in
  let upload :=
    fileuploads.UploadFileToDir E fieldName r destDir template options w in
  (∀ e,
     GoHttp.ParseMultipartForm_error r (fileuploads.MaxFileSize opts)
     = Some e →
     upload
     = (Returned (fileuploads.FileUpload_zero,
                  Some ("error parsing form data: " +:+ e)), w))
  ∧ (GoHttp.ParseMultipartForm_error r (fileuploads.MaxFileSize opts) = None →
     default [] (GoHttp.MultipartFile r !! fieldName) = [] →
     upload
     = (Returned (fileuploads.FileUpload_zero,
                  Some ("error retrieving file info from form: "
                        +:+ "http: no such file")), w)).
Proof.
  cbv zeta. unfold fileuploads.UploadFileToDir, fileuploads.ReadUploadedFile,
    options_in_force.
  split.
  - intros e ->. done.
  - intros -> Hnone. unfold GoHttp.FormFile.
    destruct (GoHttp.MultipartFile r !! fieldName) as [[|fh l]|];
      simpl in Hnone; done.
Qed.

Lemma X13_upload_without_file_witness :
  fileuploads.UploadFileToDir GoTemplate.engine "avatar" example_upload
    "uploads-evil" "{{.baseFileName}}" [] example_world
  = (Returned (fileuploads.FileUpload_zero,
               Some ("error retrieving file info from form: "
                     +:+ "http: no such file")), example_world).
Proof.
  apply (proj2 (X13_upload_without_file GoTemplate.engine "avatar"
                  example_upload "uploads-evil" "{{.baseFileName}}" []
                  example_world)); reflexivity.
Defined.

(** X14.  [ReadUploadedFile] releases the stream it opened: with a
    callback that leaves the open handles as it finds them, the handles
    open after the call are those open before it, whether the call
    ends in an early error, in the size error, in an error of the
    callback or in a panic of the callback. *)
Theorem X14_stream_released {U : Type} (fieldName : string)
    (r : GoHttp.Request) (callback : @fileuploads.Callback U)
    (options : list fileuploads.UploadOption) (st : GoOs.World * U) :
  (∀ file opts s,
     GoOs.open_handles (fst (snd (callback file opts s)))
     = GoOs.open_handles (fst s)) →
  GoOs.open_handles
    (fst (snd (fileuploads.ReadUploadedFile fieldName r callback options st)))
  = GoOs.open_handles (fst st).
Proof.
  intros Hcb. unfold fileuploads.ReadUploadedFile.
  destruct (GoHttp.ParseMultipartForm_error r _); [done|].
  destruct (GoHttp.FormFile r fieldName) as [fh|e]; [|done].
  destruct (_ >? _).
  - cbn [fst snd]. by rewrite close_open_handle.
  - match goal with
    | |- context [callback ?f ?o ?s] =>
        specialize (Hcb f o s); destruct (callback f o s) as [out st2]
    end.
    cbn [fst snd] in *. unfold GoOs.close_handle, GoOs.set_open_handles.
    cbn [GoOs.open_handles]. rewrite Hcb. unfold GoOs.open_handle.
    cbn [GoOs.open_handles GoOs.set_open_handles GoOs.remove_first].
    by rewrite decide_True.
Qed.

Lemma X14_stream_released_witness :
  GoOs.open_handles
    (fst (snd (fileuploads.ReadUploadedFile "upload" example_upload
                 telltale_callback [] (example_world, ()))))
  = GoOs.open_handles example_world.
Proof.
  apply (X14_stream_released "upload" example_upload telltale_callback []
           (example_world, ())).
  reflexivity.
Defined.

(** ** Package fileuploads: storing the file *)

Lemma Create_success (w : GoOs.World) (name : string) :
  removelast (GoOs.resolve w name) ∈ GoOs.dirs w →
  GoOs.resolve w name ∉ GoOs.dirs w →
  GoOs.Create w name
  = (GoOs.open_handle
       (GoOs.set_files w (<[GoOs.resolve w name := ""]> (GoOs.files w))) name,
     inl {| GoOs.Name := name; GoOs.node := GoOs.resolve w name |}).
Proof.
  intros Hparent Hfree. unfold GoOs.Create.
  rewrite bool_decide_false by (by intros []).
  by rewrite bool_decide_false.
Qed.

(** The upload, once the template has rendered a name that passes the
    guard and names a file that can be created: the file holds the
    bytes read from the stream, and what is returned depends on the
    error of the read. *)
Lemma UploadFileToDir_stored (E : TemplateEngine) fieldName r destDir
    template options w fh rs (tmpl : Template E) name :
  let opts := options_in_force options in
  let finalPath := GoFilepath.Join destDir name in
  let p := GoOs.resolve w finalPath in
  GoHttp.ParseMultipartForm_error r (fileuploads.MaxFileSize opts) = None →
  GoHttp.FormFile r fieldName = inl fh →
  GoHttp.Size fh ≤ fileuploads.MaxFileSize opts →
  fileuploads.randomString w (fileuploads.RandomStringSize opts) = Some rs →
  Parse E template = inl tmpl →
  Execute E tmpl (fileuploads.template_data fh rs) = (name, None) →
  GoStrings.HasPrefix finalPath (GoFilepath.Clean destDir) = true →
  removelast p ∈ GoOs.dirs w →
  p ∉ GoOs.dirs w →
  ∃ w', fileuploads.UploadFileToDir E fieldName r destDir template options w
        = (match GoHttp.read_error fh with
           | Some err =>
               Returned
                 (callback_data fh,
                  Some ("error copying uploaded file '"
                        +:+ GoHttp.Filename fh +:+ "' to temporary file '"
                        +:+ name +:+ "': " +:+ err))
           | None =>
               Returned
                 (fileuploads.set_SavedFile
                    (fileuploads.set_Ext
                       (match GoOs.Abs w finalPath with
                        | (absolutePath, None) =>
                            fileuploads.set_SavedFilePath (callback_data fh)
                              absolutePath
                        | (_, Some _) => callback_data fh
                        end)
                       (GoFilepath.Ext finalPath))
                    finalPath, None)
           end, w')
        ∧ GoOs.files w' = <[p := GoHttp.content fh]> (GoOs.files w)
        ∧ GoOs.dirs w' = GoOs.dirs w
        ∧ GoOs.cwd w' = GoOs.cwd w
        ∧ (GoHttp.read_error fh = None →
           GoOs.open_handles w' = GoOs.open_handles w).
Proof.
  cbv zeta. intros Hparse Hfile Hsize Hrs Htmpl Hexec Hguard Hparent Hfree.
  rewrite (UploadFileToDir_rendering E _ _ _ _ _ _ fh rs tmpl) by done.
  cbv zeta. rewrite Hexec, Hguard. cbn [negb].
  rewrite Create_success by done.
  unfold GoOs.Copy. cbn [GoOs.node GoOs.Name].
  assert (∀ w0 : GoOs.World,
            default "" (<[GoOs.resolve w (GoFilepath.Join destDir name) := ""]>
                          (GoOs.files w0)
                        !! GoOs.resolve w (GoFilepath.Join destDir name))
            = "") as Hold.
  { intros w0. by rewrite lookup_insert_eq. }
  destruct (GoHttp.read_error fh) as [err|].
  - eexists. split; [reflexivity|].
    unfold GoOs.close_handle, GoOs.open_handle, GoOs.set_open_handles,
      GoOs.set_files, GoOs.resolve.
    cbn [GoOs.files GoOs.dirs GoOs.cwd GoOs.open_handles].
    rewrite lookup_insert_eq, insert_insert_eq.
    split; [done|]. split; [done|]. split; [done|]. intros [=].
  - eexists. split; [reflexivity|].
    unfold GoOs.close_handle, GoOs.open_handle, GoOs.set_open_handles,
      GoOs.set_files, GoOs.resolve.
    cbn [GoOs.files GoOs.dirs GoOs.cwd GoOs.open_handles GoOs.remove_first].
    rewrite lookup_insert_eq, insert_insert_eq, decide_True by done.
    cbn [GoOs.remove_first]. rewrite decide_True by done.
    split; [done|]. split; [done|]. split; [done|]. done.
Qed.

(** X15.  When the template renders a name that passes the guard, the
    parent directory of the joined path exists, the path is not a
    directory and the stream is read to its end, the upload returns no
    error; the saved file is the joined path, the extension is that of
    the joined path, the saved path is its absolute form when the
    working directory is known; the file at that path holds exactly the
    bytes of the uploaded part, every other file is as before, no
    directory is made, and the handles open after the call are those
    open before it. *)
Theorem X15_upload_stored (E : TemplateEngine) (fieldName : string)
    (r : GoHttp.Request) (destDir template : string)
    (options : list fileuploads.UploadOption) (w : GoOs.World)
    (fh : GoHttp.FileHeader) (rs : string) (tmpl : Template E)
    (name : string) :
  let opts := options_in_force options in
  let finalPath := GoFilepath.Join destDir name in
  let p := GoOs.resolve w finalPath in
  GoHttp.ParseMultipartForm_error r (fileuploads.MaxFileSize opts) = None →
  GoHttp.FormFile r fieldName = inl fh →
  GoHttp.Size fh ≤ fileuploads.MaxFileSize opts →
  fileuploads.randomString w (fileuploads.RandomStringSize opts) = Some rs →
  Parse E template = inl tmpl →
  Execute E tmpl (fileuploads.template_data fh rs) = (name, None) →
  GoStrings.HasPrefix finalPath (GoFilepath.Clean destDir) = true →
  removelast p ∈ GoOs.dirs w →
  p ∉ GoOs.dirs w →
  GoHttp.read_error fh = None →
  ∃ saved w',
    fileuploads.UploadFileToDir E fieldName r destDir template options w
    = (Returned (saved, None), w')
    ∧ fileuploads.SavedFile saved = finalPath
    ∧ fileuploads.Ext saved = GoFilepath.Ext finalPath
    ∧ fileuploads.SavedFilePath saved
      = match GoOs.Abs w finalPath with
        | (absolutePath, None) => absolutePath
        | (_, Some _) => ""
        end
    ∧ GoOs.files w' !! p = Some (GoHttp.content fh)
    ∧ (∀ q, q ≠ p → GoOs.files w' !! q = GoOs.files w !! q)
    ∧ GoOs.dirs w' = GoOs.dirs w
    ∧ GoOs.open_handles w' = GoOs.open_handles w.
Proof.
  cbv zeta. intros Hparse Hfile Hsize Hrs Htmpl Hexec Hguard Hparent Hfree
    Hread.
  destruct (UploadFileToDir_stored E fieldName r destDir template options w
              fh rs tmpl name Hparse Hfile Hsize Hrs Htmpl Hexec Hguard
              Hparent Hfree) as (w' & Hup & Hfiles & Hdirs & _ & Hhandles).
  rewrite Hread in Hup. eexists _, w'. split; [exact Hup|].
  split; [done|]. split; [done|]. split.
  { by destruct (GoOs.Abs w _) as [a [e|]]. }
  rewrite Hfiles. split; [by rewrite lookup_insert_eq|].
  split; [intros q Hq; by rewrite lookup_insert_ne|]. auto.
Qed.

Lemma X15_upload_stored_witness :
  ∃ saved w',
    fileuploads.UploadFileToDir GoTemplate.engine "upload" example_upload
      "uploads-evil" "{{.randomString}}-{{.baseFileName}}" [] example_world
    = (Returned (saved, None), w')
    ∧ fileuploads.SavedFile saved = "uploads-evil/dkry5cjqx4-data.csv"
    ∧ GoOs.files w' !! ["srv"; "app"; "uploads-evil"; "dkry5cjqx4-data.csv"]
      = Some "col1,col2".
Proof.
  destruct (X15_upload_stored GoTemplate.engine "upload" example_upload
              "uploads-evil" "{{.randomString}}-{{.baseFileName}}" []
              example_world example_part "dkry5cjqx4"
              [GoTemplate.FieldNode "randomString" 1 2;
               GoTemplate.TextNode "-";
               GoTemplate.FieldNode "baseFileName" 1 20]
              "dkry5cjqx4-data.csv" eq_refl eq_refl)
    as (saved & w' & Hup & Hsaved & _ & _ & Hfile & _).
  - discriminate.
  - reflexivity.
  - reflexivity.
  - reflexivity.
  - reflexivity.
  - vm_compute. set_solver.
  - vm_compute. set_solver.
  - reflexivity.
  - exists saved, w'. split; [exact Hup|]. split; [exact Hsaved|exact Hfile].
Defined.

(** X16.  When the read of the stream fails after the file has been
    created, the upload returns the wrapped copy error and a
    [FileUpload] with no saved path, and the file is left behind with
    the bytes read before the failure: it is not removed. *)
Theorem X16_copy_failure_leaves_file (E : TemplateEngine)
    (fieldName : string) (r : GoHttp.Request) (destDir template : string)
    (options : list fileuploads.UploadOption) (w : GoOs.World)
    (fh : GoHttp.FileHeader) (rs : string) (tmpl : Template E)
    (name : string) (e : error) :
  let opts := options_in_force options in
  let finalPath := GoFilepath.Join destDir name in
  let p := GoOs.resolve w finalPath in
  GoHttp.ParseMultipartForm_error r (fileuploads.MaxFileSize opts) = None →
  GoHttp.FormFile r fieldName = inl fh →
  GoHttp.Size fh ≤ fileuploads.MaxFileSize opts →
  fileuploads.randomString w (fileuploads.RandomStringSize opts) = Some rs →
  Parse E template = inl tmpl →
  Execute E tmpl (fileuploads.template_data fh rs) = (name, None) →
  GoStrings.HasPrefix finalPath (GoFilepath.Clean destDir) = true →
  removelast p ∈ GoOs.dirs w →
  p ∉ GoOs.dirs w →
  GoHttp.read_error fh = Some e →
  ∃ saved w',
    fileuploads.UploadFileToDir E fieldName r destDir template options w
    = (Returned
         (saved,
          Some ("error copying uploaded file '" +:+ GoHttp.Filename fh
                +:+ "' to temporary file '" +:+ name +:+ "': " +:+ e)), w')
    ∧ fileuploads.SavedFile saved = ""
    ∧ fileuploads.SavedFilePath saved = ""
    ∧ GoOs.files w' !! p = Some (GoHttp.content fh)
    ∧ (∀ q, q ≠ p → GoOs.files w' !! q = GoOs.files w !! q).
Proof.
  cbv zeta. intros Hparse Hfile Hsize Hrs Htmpl Hexec Hguard Hparent Hfree
    Hread.
  destruct (UploadFileToDir_stored E fieldName r destDir template options w
              fh rs tmpl name Hparse Hfile Hsize Hrs Htmpl Hexec Hguard
              Hparent Hfree) as (w' & Hup & Hfiles & _).
  rewrite Hread in Hup. eexists _, w'. split; [exact Hup|].
  split; [done|]. split; [done|]. rewrite Hfiles.
  split; [by rewrite lookup_insert_eq|].
  intros q Hq. by rewrite lookup_insert_ne.
Qed.

Lemma X16_copy_failure_leaves_file_witness :
  ∃ saved w',
    fileuploads.UploadFileToDir GoTemplate.engine "upload" broken_upload
      "uploads-evil" "{{.baseFileName}}" [] example_world
    = (Returned
         (saved,
          Some ("error copying uploaded file 'data.csv' to temporary file "
                +:+ "'data.csv': unexpected EOF")), w')
    ∧ GoOs.files w' !! ["srv"; "app"; "uploads-evil"; "data.csv"]
      = Some "col1".
Proof.
  destruct (X16_copy_failure_leaves_file GoTemplate.engine "upload"
              broken_upload "uploads-evil" "{{.baseFileName}}" []
              example_world broken_part "dkry5cjqx4"
              [GoTemplate.FieldNode "baseFileName" 1 2]
              "data.csv" "unexpected EOF" eq_refl eq_refl)
    as (saved & w' & Hup & _ & _ & Hfile & _).
  - discriminate.
  - reflexivity.
  - reflexivity.
  - reflexivity.
  - reflexivity.
  - vm_compute. set_solver.
  - vm_compute. set_solver.
  - reflexivity.
  - exists saved, w'. split; [exact Hup|exact Hfile].
Defined.

(** ** Package fileuploads: the guard and the current directory *)

Lemma split_go_no_separator (s : string) (cur : list ascii) :
  Forall (λ c, c ≠ "/"%char) (list_ascii_of_string s) →
  GoStrings.split_go s "/" 0 cur
  = [string_of_list_ascii (rev cur ++ list_ascii_of_string s)].
Proof.
  revert cur. induction s as [|c s IH]; intros cur Hs.
  - cbn. by rewrite app_nil_r.
  - apply Forall_cons in Hs as [Hc Hs].
    cbn [GoStrings.split_go String.prefix].
    destruct (ascii_dec "/" c) as [Heq|_]; [by subst|].
    rewrite IH by done. cbn [rev list_ascii_of_string].
    by rewrite <- app_assoc.
Qed.

Lemma elements_plain_name (name : string) :
  plain_name name → GoFilepath.elements name = [name].
Proof.
  intros (_ & _ & _ & Hs).
  unfold GoFilepath.elements, GoStrings.Split, GoFilepath.Separator.
  rewrite decide_False by done.
  rewrite split_go_no_separator by done. cbn [rev app].
  by rewrite string_of_list_ascii_of_string.
Qed.

Lemma IsAbs_plain_name (name : string) :
  plain_name name → GoFilepath.IsAbs name = false.
Proof.
  intros (_ & _ & _ & Hs). destruct name as [|c s]; [done|].
  apply Forall_cons in Hs as [Hc _]. unfold GoFilepath.IsAbs, GoStrings.HasPrefix.
  cbn [String.prefix]. by destruct (ascii_dec "/" c) as [Heq|_]; [subst|].
Qed.

Lemma split_go_dot_slash (name : string) :
  GoStrings.split_go (String "." (String "/" name)) "/" 0 []
  = "." :: GoStrings.split_go name "/" 0 [].
Proof.
  cbn [GoStrings.split_go String.prefix].
  destruct (ascii_dec "/" "."); [done|].
  destruct (ascii_dec "/" "/"); [|done].
  by destruct name.
Qed.

(** Cleaning a plain name gives the name, and joining the current
    directory and a plain name gives the name alone. *)
Lemma Clean_plain_name (name : string) :
  plain_name name → GoFilepath.Clean name = name.
Proof.
  intros Hp. unfold GoFilepath.Clean.
  rewrite IsAbs_plain_name, elements_plain_name by done.
  destruct Hp as (H1 & H2 & H3 & _). cbn [GoFilepath.Clean_go].
  rewrite !bool_decide_false by done. reflexivity.
Qed.

Lemma Join_dot_plain_name (name : string) :
  plain_name name → GoFilepath.Join "." name = name.
Proof.
  intros Hp. unfold GoFilepath.Join. rewrite decide_False by done.
  unfold GoFilepath.Clean, GoFilepath.elements, GoStrings.Split,
    GoFilepath.Separator.
  rewrite decide_False by done.
  change ("." +:+ "/" +:+ name) with (String "." (String "/" name)).
  change (GoFilepath.IsAbs (String "." (String "/" name))) with false.
  rewrite split_go_dot_slash.
  destruct Hp as (H1 & H2 & H3 & Hs).
  rewrite split_go_no_separator by done. cbn [rev app].
  rewrite string_of_list_ascii_of_string. cbn [GoFilepath.Clean_go].
  rewrite (bool_decide_false (name = "")), (bool_decide_false (name = ".")),
    (bool_decide_false (name = "..")) by done.
  reflexivity.
Qed.

(** X17.  With the current directory as destination, written [.] or
    as the empty string, the guard rejects every plain file name that
    does not begin with a dot: the joined path is the name alone, the
    cleaned destination is [.], and the name does not begin with it.
    The upload returns the invalid-path error and creates nothing. *)
Theorem X17_current_directory_rejected (E : TemplateEngine)
    (fieldName : string) (r : GoHttp.Request) (destDir template : string)
    (options : list fileuploads.UploadOption) (w : GoOs.World)
    (fh : GoHttp.FileHeader) (rs : string) (tmpl : Template E)
    (name : string) :
  let opts := options_in_force options in
  GoHttp.ParseMultipartForm_error r (fileuploads.MaxFileSize opts) = None →
  GoHttp.FormFile r fieldName = inl fh →
  GoHttp.Size fh ≤ fileuploads.MaxFileSize opts →
  fileuploads.randomString w (fileuploads.RandomStringSize opts) = Some rs →
  Parse E template = inl tmpl →
  Execute E tmpl (fileuploads.template_data fh rs) = (name, None) →
  destDir = "." ∨ destDir = "" →
  plain_name name →
  GoStrings.HasPrefix name "." = false →
  fileuploads.UploadFileToDir E fieldName r destDir template options w
  = (Returned
       (callback_data fh,
        Some ("invalid destination file path attempted: " +:+ name)), w).
Proof.
  cbv zeta. intros Hparse Hfile Hsize Hrs Htmpl Hexec Hdir Hplain Hdot.
  rewrite (UploadFileToDir_rendering E _ _ _ _ _ _ fh rs tmpl) by done.
  cbv zeta. rewrite Hexec.
  assert (GoFilepath.Join destDir name = name
          ∧ GoFilepath.Clean destDir = ".") as [-> ->].
  { destruct Hdir as [-> | ->].
    - split; [by apply Join_dot_plain_name|done].
    - split; [|done]. unfold GoFilepath.Join. rewrite decide_True by done.
      rewrite decide_False by apply Hplain. by apply Clean_plain_name. }
  by rewrite Hdot.
Qed.

Lemma X17_current_directory_rejected_witness :
  fileuploads.UploadFileToDir GoTemplate.engine "upload" example_upload
    "." "{{.baseFileName}}" [] example_world
  = (Returned
       (callback_data example_part,
        Some "invalid destination file path attempted: data.csv"),
     example_world).
Proof.
  refine (X17_current_directory_rejected GoTemplate.engine "upload"
            example_upload "." "{{.baseFileName}}" [] example_world
            example_part "dkry5cjqx4" [GoTemplate.FieldNode "baseFileName" 1 2]
            "data.csv" eq_refl eq_refl _ eq_refl eq_refl eq_refl _ _ eq_refl).
  - discriminate.
  - by left.
  - repeat split; try discriminate. vm_compute. repeat constructor; discriminate.
Defined.

(** ** Package fileuploads: what the upload returns *)

(** X18.  With a negative random string size among the options, an
    upload whose file is found and within the size limit panics when
    the random string is made, before the template is parsed; the
    stream is released and nothing is created. *)
Theorem X18_negative_random_size_panics (E : TemplateEngine)
    (fieldName : string) (r : GoHttp.Request) (destDir template : string)
    (options : list fileuploads.UploadOption) (w : GoOs.World)
    (fh : GoHttp.FileHeader) :
  let opts := options_in_force options in
  GoHttp.ParseMultipartForm_error r (fileuploads.MaxFileSize opts) = None →
  GoHttp.FormFile r fieldName = inl fh →
  GoHttp.Size fh ≤ fileuploads.MaxFileSize opts →
  fileuploads.RandomStringSize opts < 0 →
  fileuploads.UploadFileToDir E fieldName r destDir template options w
  = (Panicked "makeslice: len out of range", w).
Proof.
  cbv zeta. intros Hparse Hfile Hsize Hneg. unfold fileuploads.UploadFileToDir.
  rewrite (ReadUploadedFile_found _ _ _ _ _ fh) by done. cbv zeta.
  destruct (Z.gtb_spec (GoHttp.Size fh)
              (fileuploads.MaxFileSize (options_in_force options))); [lia|].
  unfold fileuploads.upload_callback.
  cbn [fst snd fileuploads.info callback_data].
  unfold fileuploads.randomString.
  destruct (Z.ltb_spec (fileuploads.RandomStringSize
                          (options_in_force options)) 0); [|lia].
  cbn [fst snd]. by rewrite close_open_handle.
Qed.

Lemma X18_negative_random_size_panics_witness :
  fileuploads.UploadFileToDir GoTemplate.engine "upload" example_upload
    "uploads-evil" "{{.baseFileName}}"
    [fileuploads.WithRandomStringSize (-1)] example_world
  = (Panicked "makeslice: len out of range", example_world).
Proof.
  refine (X18_negative_random_size_panics GoTemplate.engine "upload"
            example_upload "uploads-evil" "{{.baseFileName}}"
            [fileuploads.WithRandomStringSize (-1)] example_world
            example_part eq_refl eq_refl _ _).
  - discriminate.
  - reflexivity.
Defined.

(** X19.  Whatever the request, the options and the world: the
    [FileUpload] an upload returns never has its file name, size or
    header filled in, and when the upload returns an error it has no
    saved file, no saved path and no extension either. *)
Theorem X19_returned_FileUpload (E : TemplateEngine) (fieldName : string)
    (r : GoHttp.Request) (destDir template : string)
    (options : list fileuploads.UploadOption) (w w' : GoOs.World)
    (saved : fileuploads.FileUpload) (err : option error) :
  fileuploads.UploadFileToDir E fieldName r destDir template options w
  = (Returned (saved, err), w') →
  (fileuploads.FileName saved = ""
   ∧ fileuploads.Size saved = 0
   ∧ fileuploads.Header saved = ∅)
  ∧ (err ≠ None →
     fileuploads.SavedFile saved = ""
     ∧ fileuploads.SavedFilePath saved = ""
     ∧ fileuploads.Ext saved = "").
Proof.
  unfold fileuploads.UploadFileToDir, fileuploads.ReadUploadedFile.
  destruct (GoHttp.ParseMultipartForm_error r _);
    [by intros [= <- <- <-]|].
  destruct (GoHttp.FormFile r fieldName) as [fh|e];
    [|by intros [= <- <- <-]].
  destruct (_ >? _); [by intros [= <- <- <-]|].
  unfold fileuploads.upload_callback.
  cbn [fst snd fileuploads.info fileuploads.File].
  destruct (fileuploads.randomString _ _) as [rs|]; [|done].
  destruct (Parse E template) as [tmpl|e]; [|by intros [= <- <- <-]].
  destruct (Execute E tmpl _) as [name [e|]]; [by intros [= <- <- <-]|].
  destruct (negb _); [by intros [= <- <- <-]|].
  destruct (GoOs.Create _ _) as [w2 [tempFile|e]];
    [|by intros [= <- <- <-]].
  destruct (GoOs.Copy w2 tempFile fh) as [w3 [e|]];
    [by intros [= <- <- <-]|].
  intros [= <- <- <-]. split; [|done].
  by destruct (GoOs.Abs w3 _) as [a [e|]].
Qed.

Lemma X19_returned_FileUpload_witness :
  (fileuploads.FileName (callback_data example_part) = ""
   ∧ fileuploads.Size (callback_data example_part) = 0
   ∧ fileuploads.Header (callback_data example_part) = ∅)
  ∧ (Some "invalid destination file path attempted: data.csv" ≠ None →
     fileuploads.SavedFile (callback_data example_part) = ""
     ∧ fileuploads.SavedFilePath (callback_data example_part) = ""
     ∧ fileuploads.Ext (callback_data example_part) = "").
Proof.
  apply (X19_returned_FileUpload GoTemplate.engine "upload" example_upload
           "." "{{.baseFileName}}" [] example_world example_world).
  reflexivity.
Defined.

(** ** Package filedownloads *)

(** X20.  [StreamBytes] sets the three download headers, in the order
    disposition, type, length, and then writes the content once; the
    declared length is the number of bytes of the content.  When the
    write fails its error is returned, with the headers already set
    and no body.  No status is written in either case.  [DownloadCsv]
    does the same with the content type text/csv. *)
Theorem X20_StreamBytes (w : filedownloads.Sink)
    (filename contentType content : string) :
  let out := filedownloads.StreamBytes w filename contentType content in
  let headers :=
    download_headers filename contentType
      (GoFmt.Sprint_d (Z.of_nat (String.length content))) in
  snd out = filedownloads.write_error w
  ∧ filedownloads.log (fst out)
    = filedownloads.log w ++ headers
      ++ match snd out with
         | None => [responses.Write content]
         | Some _ => []
         end
  ∧ responses.status_writes (filedownloads.log (fst out))
    = responses.status_writes (filedownloads.log w)
  ∧ filedownloads.DownloadCsv w filename content
    = filedownloads.StreamBytes w filename "text/csv" content.
Proof.
  cbv zeta. split; [|split; [|split; [|reflexivity]]];
    unfold filedownloads.StreamBytes, filedownloads.Write,
      filedownloads.Header_Set, download_headers,
      filedownloads.write_error;
    cbn [filedownloads.log filedownloads.write_errors];
    destruct (filedownloads.write_errors w 0%nat) as [e|]; cbn [fst snd];
    cbn [filedownloads.log]; rewrite <- ?app_assoc; try done;
    rewrite status_writes_app; cbn; by rewrite app_nil_r.
Qed.

Section Copies.
Import filedownloads.

Lemma status_writes_body (bodies : list string) :
  responses.status_writes (map responses.Write bodies) = [].
Proof. by induction bodies. Qed.




End Copies.



(** ** Package httphelpers: the mock client *)

Section MockProperties.
Import httphelpers.
Context {Request Response : Type}.
Implicit Types (m : @MockHttpClient Request Response)
  (es : list (@MockHttpClientDoExpect Response)) (reqs : list Request).

Lemma program_fields m es :
  callIndex (program m es) = callIndex m
  ∧ t_errors (program m es) = t_errors m
  ∧ Expects (program m es) = Expects m ++ es
  ∧ Calls (program m es) = Calls m.
Proof.
  revert m. induction es as [|e es IH]; intros m.
  - unfold program. cbn [fold_left]. by rewrite app_nil_r.
  - change (program m (e :: es))
      with (program (OnDo m (WantResponse e) (WantError e)) es).
    destruct (IH (OnDo m (WantResponse e) (WantError e)))
      as (-> & -> & -> & ->).
    unfold OnDo. cbn [callIndex t_errors Expects Calls].
    rewrite <- app_assoc. by destruct e.
Qed.

(** A call on a mock that has an expectation left hands it out. *)
Lemma Do_next m (req : Request) e :
  0 ≤ callIndex m →
  Expects m !! Z.to_nat (callIndex m) = Some e →
  Do m req
  = (replay e,
     {| callIndex := callIndex m + 1;
        t_errors := t_errors m;
        Expects := Expects m;
        Calls := Calls m ++ [{| call_Request := req;
                                call_Response := e |}] |}).
Proof.
  intros Hpos Hlook. unfold Do.
  pose proof (lookup_lt_Some _ _ _ Hlook) as Hlt.
  destruct (Z.geb_spec (callIndex m) (Z.of_nat (length (Expects m))));
    [lia|].
  destruct (Z.ltb_spec (callIndex m) 0); [lia|].
  by rewrite Hlook.
Qed.

(** A call on a mock whose expectations are used up. *)
Lemma Do_exhausted m (req : Request) :
  Z.of_nat (length (Expects m)) ≤ callIndex m →
  Do m req
  = (Returned
       (None,
        Some ("expected " +:+ GoFmt.Sprint_d (Z.of_nat (length (Expects m)))
              +:+ " calls, got " +:+ GoFmt.Sprint_d (callIndex m + 1))),
     {| callIndex := callIndex m;
        t_errors := t_errors m ++ ["'Do' called more times than expected"];
        Expects := Expects m;
        Calls := Calls m |}).
Proof.
  intros Hle. unfold Do.
  by destruct (Z.geb_spec (callIndex m) (Z.of_nat (length (Expects m))));
    [|lia].
Qed.

Lemma run_app m reqs reqs' :
  run m (reqs ++ reqs')
  = let '(outs, m1) := run m reqs in
    let '(outs', m2) := run m1 reqs' in
    (outs ++ outs', m2).
Proof.
  revert m. induction reqs as [|req reqs IH]; intros m.
  - cbn [app run]. by destruct (run m reqs').
  - cbn [app run]. destruct (Do m req) as [out m1]. rewrite IH.
    destruct (run m1 reqs) as [outs m2]. by destruct (run m2 reqs').
Qed.

Lemma run_replay reqs : ∀ m,
  0 ≤ callIndex m →
  (Z.to_nat (callIndex m) + length reqs ≤ length (Expects m))%nat →
  run m reqs
  = (map replay
       (take (length reqs) (drop (Z.to_nat (callIndex m)) (Expects m))),
     {| callIndex := callIndex m + Z.of_nat (length reqs);
        t_errors := t_errors m;
        Expects := Expects m;
        Calls :=
          Calls m
          ++ zip_with (λ req e, {| call_Request := req; call_Response := e |})
               reqs (drop (Z.to_nat (callIndex m)) (Expects m)) |}).
Proof.
  induction reqs as [|req reqs IH]; intros m Hpos Hlen.
  - cbn [run length take map zip_with]. rewrite Z.add_0_r, app_nil_r.
    by destruct m.
  - cbn [length] in Hlen.
    destruct (lookup_lt_is_Some_2 (Expects m) (Z.to_nat (callIndex m)))
      as [e He]; [lia|].
    cbn [run]. rewrite (Do_next m req e) by done.
    rewrite IH; cbn [callIndex t_errors Expects Calls];
      [|lia|rewrite Z2Nat.inj_add by lia; change (Z.to_nat 1) with 1%nat; lia].
    rewrite (drop_S _ _ _ He).
    replace (Z.to_nat (callIndex m + 1)) with (S (Z.to_nat (callIndex m)))
      by lia.
    cbn [length take map zip_with]. rewrite <- app_assoc. cbn [app].
    do 2 f_equal. lia.
Qed.

Lemma run_exhausted reqs : ∀ m,
  Z.of_nat (length (Expects m)) ≤ callIndex m →
  run m reqs
  = (map (λ _,
            Returned
              (None,
               Some ("expected "
                     +:+ GoFmt.Sprint_d (Z.of_nat (length (Expects m)))
                     +:+ " calls, got "
                     +:+ GoFmt.Sprint_d (callIndex m + 1)))) reqs,
     {| callIndex := callIndex m;
        t_errors :=
          t_errors m
          ++ map (λ _, "'Do' called more times than expected") reqs;
        Expects := Expects m;
        Calls := Calls m |}).
Proof.
  induction reqs as [|req reqs IH]; intros m Hle.
  - cbn [run map]. rewrite app_nil_r. by destruct m.
  - cbn [run]. rewrite Do_exhausted by done.
    rewrite IH by done. cbn [callIndex t_errors Expects Calls map].
    by rewrite <- app_assoc.
Qed.

End MockProperties.

Section MockTheorems.
Import httphelpers.
Context {Request Response : Type}.
Implicit Types (m : @MockHttpClient Request Response)
  (es : list (@MockHttpClientDoExpect Response)) (reqs : list Request).

(** X22.  A new mock on which expectations are set hands them out in
    the order they were set: the calls return the responses and errors
    of the first expectations, one each, the mock records each request
    beside the expectation it received, no failure is reported by the
    calls, and [VerifyCallCount] reports none exactly when every
    expectation was used. *)
Theorem X22_mock_replays_in_order es reqs :
  (length reqs ≤ length es)%nat →
  let result := run (program (@NewMockHttpClient Request Response) es) reqs in
  fst result = map replay (take (length reqs) es)
  ∧ Calls (snd result)
    = zip_with (λ req e, {| call_Request := req; call_Response := e |})
        reqs es
  ∧ t_errors (snd result) = []
  ∧ (t_errors (VerifyCallCount (snd result)) = []
     ↔ length reqs = length es).
Proof.
  intros Hlen. cbv zeta.
  destruct (program_fields (@NewMockHttpClient Request Response) es)
    as (Hidx & Herr & Hexp & Hcalls).
  cbn [NewMockHttpClient callIndex t_errors Expects Calls app] in *.
  rewrite run_replay by (rewrite ?Hidx, ?Hexp; simpl; lia).
  rewrite Hidx, Herr, Hexp, Hcalls. cbn [fst snd Z.to_nat drop app].
  split; [done|]. split; [done|]. split; [done|].
  unfold VerifyCallCount. cbn [callIndex t_errors Expects Calls].
  case_decide as Hne; cbn [t_errors]; split; intros H; try lia; done.
Qed.

(** X23.  Calls made after the expectations are used up do not panic:
    each returns no response and the same error, which counts one call
    more than was expected, and reports one failure; they are not
    recorded among the calls and do not move the call index, so
    [VerifyCallCount] adds no report of its own afterwards. *)
Theorem X23_mock_called_too_often es reqs (extra : list Request) :
  length reqs = length es →
  let result :=
    run (program (@NewMockHttpClient Request Response) es) (reqs ++ extra) in
  let n := Z.of_nat (length es) in
  fst result
  = map replay es
    ++ map (λ _,
              Returned
                (None,
                 Some ("expected " +:+ GoFmt.Sprint_d n +:+ " calls, got "
                       +:+ GoFmt.Sprint_d (n + 1)))) extra
  ∧ t_errors (snd result)
    = map (λ _, "'Do' called more times than expected") extra
  ∧ Calls (snd result)
    = zip_with (λ req e, {| call_Request := req; call_Response := e |})
        reqs es
  ∧ VerifyCallCount (snd result) = snd result.
Proof.
  intros Hlen. cbv zeta. rewrite run_app.
  destruct (program_fields (@NewMockHttpClient Request Response) es)
    as (Hidx & Herr & Hexp & Hcalls).
  cbn [NewMockHttpClient callIndex t_errors Expects Calls app] in *.
  rewrite run_replay by (rewrite ?Hidx, ?Hexp; simpl; lia).
  rewrite Hidx, Herr, Hexp, Hcalls. cbn [Z.to_nat drop app].
  rewrite run_exhausted by (cbn [callIndex Expects]; lia).
  cbn [fst snd callIndex t_errors Expects Calls app].
  rewrite Hlen, firstn_all. replace (0 + Z.of_nat (length es))
    with (Z.of_nat (length es)) by lia.
  split; [done|]. split; [done|]. split; [done|].
  unfold VerifyCallCount. cbn [callIndex Expects]. by rewrite decide_False by lia.
Qed.

(** X24.  The agreement of calls and expectations holds of a new mock
    and is kept by every method; on a mock that has it, [Do] returns
    and does not panic. *)
Theorem X24_mock_invariant :
  mock_ok (@NewMockHttpClient Request Response)
  ∧ ∀ m, mock_ok m →
      (∀ wantResponse wantErr, mock_ok (OnDo m wantResponse wantErr))
      ∧ (∀ req, mock_ok (snd (Do m req))
                ∧ ∃ out, fst (Do m req) = Returned out)
      ∧ mock_ok (VerifyCallCount m).
Proof.
  split; [by unfold mock_ok; simpl|].
  intros m [Hidx Hcalls]. split; [|split].
  - intros wantResponse wantErr. unfold mock_ok, OnDo.
    cbn [callIndex Expects Calls]. rewrite length_app. simpl. lia.
  - intros req.
    destruct (Z.le_gt_cases (Z.of_nat (length (Expects m))) (callIndex m)).
    + rewrite Do_exhausted by done. cbn [fst snd]. split; [|by eexists].
      unfold mock_ok. cbn [callIndex Expects Calls]. lia.
    + destruct (lookup_lt_is_Some_2 (Expects m) (Z.to_nat (callIndex m)))
        as [e He]; [lia|].
      rewrite (Do_next m req e) by (done || lia). cbn [fst snd].
      split; [|by eexists]. unfold mock_ok.
      cbn [callIndex Expects Calls]. rewrite length_app. simpl. lia.
  - unfold VerifyCallCount. case_decide; [|done]. unfold mock_ok.
    cbn [callIndex Expects Calls]. lia.
Qed.

End MockTheorems.

Lemma X22_mock_replays_in_order_witness :
  fst (run (program httphelpers.NewMockHttpClient
              [{| httphelpers.WantResponse := Some "200 OK";
                  httphelpers.WantError := None |};
               {| httphelpers.WantResponse := None;
                  httphelpers.WantError := Some "timeout" |}])
         ["GET /a"])
  = [Returned (Some "200 OK", None)].
Proof.
  refine (proj1 (X22_mock_replays_in_order
                   [{| httphelpers.WantResponse := Some "200 OK";
                       httphelpers.WantError := None |};
                    {| httphelpers.WantResponse := None;
                       httphelpers.WantError := Some "timeout" |}]
                   ["GET /a"] _)).
  simpl. lia.
Defined.

Lemma X23_mock_called_too_often_witness :
  fst (run (program httphelpers.NewMockHttpClient
              [{| httphelpers.WantResponse := Some "200 OK";
                  httphelpers.WantError := None |}])
         (["GET /a"] ++ ["GET /b"]))
  = [Returned (Some "200 OK", None);
     Returned (None, Some "expected 1 calls, got 2")].
Proof.
  refine (proj1 (X23_mock_called_too_often
                   [{| httphelpers.WantResponse := Some "200 OK";
                       httphelpers.WantError := None |}]
                   ["GET /a"] ["GET /b"] _)).
  reflexivity.
Defined.

Lemma X24_mock_invariant_witness :
  mock_ok
    (snd (httphelpers.Do
            (httphelpers.OnDo (Response := string)
               httphelpers.NewMockHttpClient (Some "200 OK") None)
            "GET /a")).
Proof.
  refine (proj1 (proj1 (proj2 (proj2 X24_mock_invariant _ _)) "GET /a")).
  unfold mock_ok. simpl. lia.
Defined.

(** ** Package requests: where a sequence is read from *)

(** X25.  A parameter read as a sequence comes from the form values of
    its name and from nothing else: two requests whose forms hold the
    same values under the name give the same sequence, whatever their
    path values, headers and bodies are.  The path value, which the
    scalar types fall back to, is never consulted. *)
Theorem X25_sequences_read_the_form_only (fm : FloatModel)
    (t : requests.RequestTypes) (r r' : GoHttp.Request) (name : string) :
  is_sequence t = true →
  GoHttp.Form r !! name = GoHttp.Form r' !! name →
  requests.GetFromRequest fm t r name = requests.GetFromRequest fm t r' name.
Proof.
  intros Hseq Hform.
  assert (GoHttp.Form_index r name = GoHttp.Form_index r' name) as Hidx.
  { unfold GoHttp.Form_index. by rewrite Hform. }
  destruct t; try discriminate Hseq;
    cbn [requests.GetFromRequest];
    unfold requests.getIntSlice, requests.getUintSlice,
      requests.getFloatSlice;
    by rewrite Hidx.
Qed.

Lemma X25_sequences_read_the_form_only_witness :
  requests.GetFromRequest table_floats requests.T_slice_int
    (request_with {[ "id" := ["1"; "x"; "3"] ]} {[ "id" := "7" ]}) "id"
  = requests.GetFromRequest table_floats requests.T_slice_int
      (request_with {[ "id" := ["1"; "x"; "3"] ]} ∅) "id".
Proof.
  apply (X25_sequences_read_the_form_only table_floats requests.T_slice_int
           (request_with {[ "id" := ["1"; "x"; "3"] ]} {[ "id" := "7" ]})
           (request_with {[ "id" := ["1"; "x"; "3"] ]} ∅) "id");
    reflexivity.
Defined.
